(** * Supplier-feed synchronisation for two marketplaces: a shallow embedding

    The development follows the two source files, [seller.py] (the Ozon
    integration) and [market.py] (the Yandex.Market integration):

    - Python values that reach the code as untyped spreadsheet cells are
      kept as a small value type [pyval], with [str()], [int()] and
      truthiness written out;
    - a supplier row is a dictionary, modelled as a [gmap string pyval]
      with [dict.get];
    - a [str] is a [string] holding the UTF-8 bytes of the text.  The
      text operations of the code itself look for ASCII characters only
      (['.'], ['0'..'9']), and no byte of a multi-byte UTF-8 sequence is
      an ASCII byte, so splitting and filtering bytes agrees with
      splitting and filtering code points; [int()], which knows the
      digits and blanks of every script, decodes the bytes first;
    - exceptions are an explicit [result]; the callers' lists that the
      code mutates live in a [store] that is threaded through a small
      state-and-exception monad;
    - the [while True] pagination loops take fuel, and the theorems
      about them show that enough fuel always gives the result. *)

From Stdlib Require Import ZArith String Ascii List Lia DecimalString.
From Stdlib Require DecimalZ.
From stdpp Require Import base option list list_numbers strings gmap.

Local Open Scope string_scope.
Local Open Scope Z_scope.
Local Open Scope list_scope.

(** ** Python values, exceptions *)

Inductive pyval : Type :=
  | VNone
  | VStr (s : string)
  | VInt (z : Z).

Inductive pyerr : Type :=
  | ValueError
  | TypeError
  | AttributeError
  | IndexError.

Inductive result (A : Type) : Type :=
  | Ok (a : A)
  | Raise (e : pyerr).
Arguments Ok {A} a.
Arguments Raise {A} e.

Definition is_Ok {A} (r : result A) : Prop :=
  match r with Ok _ => True | Raise _ => False end.

(** [str(x)] *)
Definition py_str (v : pyval) : string :=
  match v with
  | VNone => "None"
  | VStr s => s
  | VInt z => NilZero.string_of_int (Z.to_int z)
  end.

(** [not x] is [negb (py_truthy x)] *)
Definition py_truthy (v : pyval) : bool :=
  match v with
  | VNone => false
  | VStr s => negb (String.eqb s "")
  | VInt z => negb (z =? 0)%Z
  end.

(** *** [int(x)] on text

    CPython reads a text in two steps.  A text that is all ASCII is
    taken as it is; in any other text every character from U+007F on is
    replaced, a blank by a space and a decimal digit of any script by
    its ASCII digit, and the text is cut at the first character that is
    neither.  The ASCII text is then read: blanks (tab to carriage
    return, and space) are skipped at both ends, one sign is allowed,
    then decimal digits follow, with single underscores allowed between
    digits.  The tables of blanks and of decimal digits are those of
    Unicode 14.0, as CPython 3.11 carries them.  The interpreter's cap
    on the number of digits (4300 by default from 3.11 on, and
    configurable) is not modelled. *)

Definition is_digit (c : ascii) : bool :=
  let n := nat_of_ascii c in (48 <=? n)%nat && (n <=? 57)%nat.

Definition digit_value (c : ascii) : Z := Z.of_nat (nat_of_ascii c) - 48.

(** [Py_ISSPACE] *)
Definition is_space (c : ascii) : bool :=
  let n := nat_of_ascii c in
  ((9 <=? n)%nat && (n <=? 13)%nat) || (n =? 32)%nat.

Fixpoint lstrip (l : list ascii) : list ascii :=
  match l with
  | c :: l' => if is_space c then lstrip l' else l
  | [] => []
  end.

Definition strip (l : list ascii) : list ascii :=
  rev (lstrip (rev (lstrip l))).

(** [pending] is true at the start and right after an underscore, where
    a digit has to follow. *)
Fixpoint digits_value (acc : Z) (pending : bool) (l : list ascii) : option Z :=
  match l with
  | [] => if pending then None else Some acc
  | c :: l' =>
      if is_digit c then digits_value (10 * acc + digit_value c) false l'
      else if Ascii.eqb c "_" then
        (if pending then None else digits_value acc true l')
      else None
  end.

(** The code points of a text, from its UTF-8 bytes.  [pending] bytes
    of the current character are still to come and [acc] holds its bits
    so far.  Bytes that are no UTF-8 at all, which no text is stored as,
    give U+FFFD. *)
Fixpoint utf8_decode (pending : nat) (acc : N) (bytes : list ascii) : list N :=
  match bytes with
  | [] => match pending with O => [] | S _ => [65533%N] end
  | b :: rest =>
      let n := N_of_ascii b in
      match pending with
      | O =>
          if (n <? 128)%N then n :: utf8_decode 0 0 rest
          else if (n <? 192)%N then 65533%N :: utf8_decode 0 0 rest
          else if (n <? 224)%N then utf8_decode 1 (n - 192) rest
          else if (n <? 240)%N then utf8_decode 2 (n - 224) rest
          else if (n <? 248)%N then utf8_decode 3 (n - 240) rest
          else 65533%N :: utf8_decode 0 0 rest
      | S pending' =>
          if (128 <=? n)%N && (n <? 192)%N then
            match pending' with
            | O => (acc * 64 + (n - 128))%N :: utf8_decode 0 0 rest
            | S _ => utf8_decode pending' (acc * 64 + (n - 128)) rest
            end
          else 65533%N :: utf8_decode 0 0 rest
      end
  end.

(** [Py_UNICODE_ISSPACE] *)
Definition unicode_isspace (ch : N) : bool :=
  ((9 <=? ch) && (ch <=? 13) || (28 <=? ch) && (ch <=? 32)
   || (ch =? 133) || (ch =? 160) || (ch =? 5760)
   || (8192 <=? ch) && (ch <=? 8202)
   || (ch =? 8232) || (ch =? 8233) || (ch =? 8239) || (ch =? 8287)
   || (ch =? 12288))%N.

(** The runs of decimal digits: each run holds the digits 0 to 9 of one
    script in order, once or several times over. *)
Definition decimal_runs : list (N * N) :=
  [(48, 57); (1632, 1641); (1776, 1785); (1984, 1993);
   (2406, 2415); (2534, 2543); (2662, 2671); (2790, 2799);
   (2918, 2927); (3046, 3055); (3174, 3183); (3302, 3311);
   (3430, 3439); (3558, 3567); (3664, 3673); (3792, 3801);
   (3872, 3881); (4160, 4169); (4240, 4249); (6112, 6121);
   (6160, 6169); (6470, 6479); (6608, 6617); (6784, 6793);
   (6800, 6809); (6992, 7001); (7088, 7097); (7232, 7241);
   (7248, 7257); (42528, 42537); (43216, 43225); (43264, 43273);
   (43472, 43481); (43504, 43513); (43600, 43609); (44016, 44025);
   (65296, 65305); (66720, 66729); (68912, 68921); (69734, 69743);
   (69872, 69881); (69942, 69951); (70096, 70105); (70384, 70393);
   (70736, 70745); (70864, 70873); (71248, 71257); (71360, 71369);
   (71472, 71481); (71904, 71913); (72016, 72025); (72784, 72793);
   (73040, 73049); (73120, 73129); (92768, 92777); (92864, 92873);
   (93008, 93017); (120782, 120831); (123200, 123209); (123632, 123641);
   (125264, 125273); (130032, 130041)]%N.

(** [Py_UNICODE_TODECIMAL] *)
Definition unicode_todecimal (ch : N) : option N :=
  match List.find (fun run => (fst run <=? ch)%N && (ch <=? snd run)%N) decimal_runs with
  | Some run => Some ((ch - fst run) mod 10)%N
  | None => None
  end.

(** [_PyUnicode_TransformDecimalAndSpaceToASCII], for a text that is
    not all ASCII *)
Fixpoint decimal_and_space_to_ascii (chars : list N) : list ascii :=
  match chars with
  | [] => []
  | ch :: rest =>
      if (ch <? 127)%N then ascii_of_N ch :: decimal_and_space_to_ascii rest
      else if unicode_isspace ch then " "%char :: decimal_and_space_to_ascii rest
      else match unicode_todecimal ch with
           | Some d => ascii_of_N (48 + d) :: decimal_and_space_to_ascii rest
           | None => ["?"%char]
           end
  end.

Definition is_ascii_text (bytes : list ascii) : bool :=
  forallb (fun b => (N_of_ascii b <? 128)%N) bytes.

(** [PyLong_FromString] in base 10, on ASCII *)
Definition long_from_ascii (l : list ascii) : option Z :=
  match strip l with
  | c :: l =>
      if Ascii.eqb c "-" then Z.opp <$> digits_value 0 true l
      else if Ascii.eqb c "+" then digits_value 0 true l
      else digits_value 0 true (c :: l)
  | [] => None
  end.

Definition int_of_text (s : string) : option Z :=
  let bytes := list_ascii_of_string s in
  long_from_ascii
    (if is_ascii_text bytes then bytes
     else decimal_and_space_to_ascii (utf8_decode 0 0 bytes)).

Definition py_int (v : pyval) : result Z :=
  match v with
  | VNone => Raise TypeError
  | VInt z => Ok z
  | VStr s => match int_of_text s with
              | Some z => Ok z
              | None => Raise ValueError
              end
  end.

(** ** Dictionaries *)

(** A supplier row, as [pandas] hands it over: column name to cell. *)
Abbreviation watch := (gmap string pyval).

(** [d.get(k)] *)
Definition dict_get (d : watch) (k : string) : pyval :=
  default VNone (d !! k).

(** A dictionary literal. *)
Definition py_dict (kvs : list (string * pyval)) : watch :=
  foldl (fun d kv => <[kv.1 := kv.2]> d) ∅ kvs.

(** ** Text helpers used by [price_conversion] *)

(** [s.split(sep)] for a one-character separator: the pieces between
    the occurrences of [sep]; never an empty list. *)
Fixpoint str_split (sep : ascii) (s : string) : list string :=
  match s with
  | EmptyString => [EmptyString]
  | String c s' =>
      if Ascii.eqb c sep then EmptyString :: str_split sep s'
      else match str_split sep s' with
           | p :: ps => String c p :: ps
           | [] => [String c EmptyString]
           end
  end.

(** [re.sub("[^0-9]", "", s)]: every character outside ['0'..'9'] is
    replaced by the empty text. *)
Fixpoint re_sub_non_digits (s : string) : string :=
  match s with
  | EmptyString => EmptyString
  | String c s' =>
      if is_digit c then String c (re_sub_non_digits s')
      else re_sub_non_digits s'
  end.

(** [l[i]] for a non-negative index *)
Definition py_index {A} (l : list A) (i : nat) : result A :=
  match l !! i with
  | Some x => Ok x
  | None => Raise IndexError
  end.

(** [l.remove(x)]: the first occurrence of [x] goes; [ValueError] when
    there is none. *)
Fixpoint list_remove (x : string) (l : list string) : option (list string) :=
  match l with
  | [] => None
  | y :: l' => if decide (x = y) then Some l'
               else cons y <$> list_remove x l'
  end.

(** ** The objects the callers share with the reconcilers

    [create_stocks(watch_remnants, offer_ids)] and
    [create_prices(watch_remnants, offer_ids)] receive two lists by
    reference.  The store holds these two objects; a call reads and
    updates them there, and what the caller sees afterwards is the store
    the call returns, also when the call raises. *)
Record store : Type := Store {
  watch_remnants : list watch;
  offer_ids : list string
}.

Definition M (A : Type) : Type := store -> result A * store.

Definition ret {A} (a : A) : M A := fun s => (Ok a, s).

Definition bind {A B} (m : M A) (k : A -> M B) : M B :=
  fun s => match m s with
           | (Ok a, s') => k a s'
           | (Raise e, s') => (Raise e, s')
           end.

Definition lift {A} (r : result A) : M A := fun s => (r, s).

Notation "x <- m ;; k" := (bind m (fun x => k))
  (at level 100, m at next level, right associativity).
Notation "m ;;; k" := (bind m (fun _ => k))
  (at level 100, right associativity).

Definition get_watch_remnants : M (list watch) :=
  fun s => (Ok (watch_remnants s), s).

Definition get_offer_ids_list : M (list string) :=
  fun s => (Ok (offer_ids s), s).

(** [offer_ids.remove(x)] on the caller's list *)
Definition offer_ids_remove (x : string) : M unit :=
  fun s => match list_remove x (offer_ids s) with
           | Some l => (Ok tt, Store (watch_remnants s) l)
           | None => (Raise ValueError, s)
           end.

(** [for x in l: acc = body(x, acc)], where [acc] stands for the local
    variables the body assigns. *)
Fixpoint for_each {A B} (l : list A) (body : A -> B -> M B) (acc : B) : M B :=
  match l with
  | [] => ret acc
  | x :: l' => acc' <- body x acc ;; for_each l' body acc'
  end.

(** ** Ranges and slices *)

(** [len(range(start, stop, step))] as CPython computes it *)
Definition range_length (start stop step : Z) : Z :=
  if (0 <? step)%Z then
    (if (start <? stop)%Z then (stop - start - 1) / step + 1 else 0)
  else
    (if (stop <? start)%Z then (start - stop - 1) / (- step) + 1 else 0).

(** [range(start, stop, step)]; a zero step is a [ValueError]. *)
Definition py_range (start stop step : Z) : result (list Z) :=
  if (step =? 0)%Z then Raise ValueError
  else Ok ((fun k => start + k * step) <$> seqZ 0 (range_length start stop step)).

(** A slice bound is counted from the end when negative and clamped to
    the list. *)
Definition slice_bound (len i : Z) : nat :=
  Z.to_nat (if (i <? 0)%Z then Z.max (i + len) 0 else Z.min i len).

(** [l[i:j]] *)
Definition py_slice {A} (l : list A) (i j : Z) : list A :=
  let len := Z.of_nat (length l) in
  drop (slice_bound len i) (take (slice_bound len j) l).

(** ** Sending batches

    [for batch in list(divide(records, n)): update(batch, ...)]: the
    batches are all cut first, then sent one after the other; the first
    exchange that raises ends the loop, and what [update] answers is not
    looked at. *)
Fixpoint submit_each {B server : Type}
    (update : B -> server -> result unit * server)
    (batches : list B) (srv : server) : result unit * server :=
  match batches with
  | [] => (Ok tt, srv)
  | batch :: batches' =>
      match update batch srv with
      | (Ok _, srv') => submit_each update batches' srv'
      | (Raise e, srv') => (Raise e, srv')
      end
  end.

Module Seller.

(** *** Catalog pages of the Ozon API *)

Record product : Type := Product { p_offer_id : string }.

(** The ["result"] object of a product-list response. *)
Record page : Type := Page {
  items : list product;
  total : Z;
  last_id : string
}.

Section Catalog.
(** The marketplace: [get_product_list(last_id, client_id, seller_token)]
    is one HTTP exchange.  What it answers depends on the cursor sent
    and on the marketplace's own state; [raise_for_status] turns a bad
    answer into an exception. *)
Context {server : Type}.
Variable get_product_list : string -> server -> result page * server.

(** The [while True] loop of [get_offer_ids]; [None] when the fuel
    runs out before the loop ends. *)
Fixpoint fetch_all (fuel : nat) (last_id : string) (product_list : list product)
    (srv : server) : option (result (list product) * server) :=
  match fuel with
  | O => None
  | S fuel' =>
      match get_product_list last_id srv with
      | (Raise e, srv') => Some (Raise e, srv')
      | (Ok some_prod, srv') =>
          let product_list := product_list ++ items some_prod in
          let total := total some_prod in
          let last_id := Seller.last_id some_prod in
          if (total =? Z.of_nat (length product_list))%Z
          then Some (Ok product_list, srv')
          else fetch_all fuel' last_id product_list srv'
      end
  end.

Definition get_offer_ids (fuel : nat) (srv : server)
    : option (result (list string) * server) :=
  match fetch_all fuel "" [] srv with
  | Some (Ok product_list, srv') => Some (Ok (p_offer_id <$> product_list), srv')
  | Some (Raise e, srv') => Some (Raise e, srv')
  | None => None
  end.
End Catalog.

(** *** Update records sent to Ozon *)

Record stock_record : Type := StockRecord {
  offer_id : string;
  stock : Z
}.

(** Every value of a price record is text, the price too: it is what
    [price_conversion] returned.  The field is a [pyval] so that the
    kind of value is part of the record. *)
Record price_record : Type := PriceRecord {
  auto_action_enabled : string;
  currency_code : string;
  pr_offer_id : string;
  old_price : string;
  price : pyval
}.

(** [create_stocks(watch_remnants, offer_ids)] *)
Definition create_stocks : M (list stock_record) :=
  feed <- get_watch_remnants ;;
  stocks <- for_each feed (fun watch stocks =>
    ids <- get_offer_ids_list ;;
    if bool_decide (py_str (dict_get watch "Код") ∈ ids) then
      let count := py_str (dict_get watch "Количество") in
      stock <- (if String.eqb count ">10" then ret 100%Z
                else if String.eqb count "1" then ret 0%Z
                else lift (py_int (dict_get watch "Количество"))) ;;
      let stocks := stocks ++ [StockRecord (py_str (dict_get watch "Код")) stock] in
      offer_ids_remove (py_str (dict_get watch "Код")) ;;;
      ret stocks
    else ret stocks) [] ;;
  ids <- get_offer_ids_list ;;
  for_each ids (fun offer_id stocks =>
    ret (stocks ++ [StockRecord offer_id 0])) stocks.

(** [price_conversion(price)]:
    [return re.sub("[^0-9]", "", price.split(".")[0])].
    Only text has a [split] method. *)
Definition price_conversion (price : pyval) : result string :=
  match price with
  | VStr s =>
      match py_index (str_split "." s) 0 with
      | Ok piece => Ok (re_sub_non_digits piece)
      | Raise e => Raise e
      end
  | _ => Raise AttributeError
  end.

(** [create_prices(watch_remnants, offer_ids)] *)
Definition create_prices : M (list price_record) :=
  feed <- get_watch_remnants ;;
  for_each feed (fun watch prices =>
    ids <- get_offer_ids_list ;;
    if bool_decide (py_str (dict_get watch "Код") ∈ ids) then
      converted <- lift (price_conversion (dict_get watch "Цена")) ;;
      let price := PriceRecord "UNKNOWN" "RUB" (py_str (dict_get watch "Код"))
                               "0" (VStr converted) in
      ret (prices ++ [price])
    else ret prices) [].

(** [divide(lst, n)], as the list of the chunks the generator yields:
    [for i in range(0, len(lst), n): yield lst[i : i + n]]. *)
Definition divide {A} (lst : list A) (n : Z) : result (list (list A)) :=
  match py_range 0 (Z.of_nat (length lst)) n with
  | Ok indices => Ok ((fun i => py_slice lst i (i + n)) <$> indices)
  | Raise e => Raise e
  end.

(** *** The upload procedures of [seller.py]

    The marketplace and the supplier's site are one outside world,
    [server]; every exchange may change it and may raise.  Credentials
    are part of the exchanges and are not written out. *)
Section Sync.
Context {server : Type}.
Variable get_product_list : string -> server -> result page * server.
Variable update_price : list price_record -> server -> result unit * server.
Variable update_stocks : list stock_record -> server -> result unit * server.
Variable download_stock : server -> result (list watch) * server.

(** The body of [upload_prices(watch_remnants, client_id, seller_token)] *)
Definition upload_prices (fuel : nat) (watch_remnants : list watch) (srv : server)
    : option (result (list price_record) * server) :=
  match get_offer_ids get_product_list fuel srv with
  | None => None
  | Some (Raise e, srv1) => Some (Raise e, srv1)
  | Some (Ok offer_ids, srv1) =>
      match create_prices (Store watch_remnants offer_ids) with
      | (Raise e, _) => Some (Raise e, srv1)
      | (Ok prices, _) =>
          match divide prices 1000 with
          | Raise e => Some (Raise e, srv1)
          | Ok batches =>
              match submit_each update_price batches srv1 with
              | (Raise e, srv2) => Some (Raise e, srv2)
              | (Ok _, srv2) => Some (Ok prices, srv2)
              end
          end
      end
  end.

(** The body of [upload_stocks(watch_remnants, client_id, seller_token)];
    it returns [(not_empty, stocks)]. *)
Definition upload_stocks (fuel : nat) (watch_remnants : list watch) (srv : server)
    : option (result (list stock_record * list stock_record) * server) :=
  match get_offer_ids get_product_list fuel srv with
  | None => None
  | Some (Raise e, srv1) => Some (Raise e, srv1)
  | Some (Ok offer_ids, srv1) =>
      match create_stocks (Store watch_remnants offer_ids) with
      | (Raise e, _) => Some (Raise e, srv1)
      | (Ok stocks, _) =>
          match divide stocks 100 with
          | Raise e => Some (Raise e, srv1)
          | Ok batches =>
              match submit_each update_stocks batches srv1 with
              | (Raise e, srv2) => Some (Raise e, srv2)
              | (Ok _, srv2) =>
                  let not_empty := filter (fun r => stock r ≠ 0) stocks in
                  Some (Ok (not_empty, stocks), srv2)
              end
          end
      end
  end.

(** The [try] block of [main()]: the offer ids are fetched once, and the
    list object that [create_stocks] has worked on is the one handed to
    [create_prices] afterwards. *)
Definition main_body (fuel : nat) (srv : server) : option (result unit * server) :=
  match get_offer_ids get_product_list fuel srv with
  | None => None
  | Some (Raise e, srv1) => Some (Raise e, srv1)
  | Some (Ok offer_ids, srv1) =>
      match download_stock srv1 with
      | (Raise e, srv2) => Some (Raise e, srv2)
      | (Ok watch_remnants, srv2) =>
          match create_stocks (Store watch_remnants offer_ids) with
          | (Raise e, _) => Some (Raise e, srv2)
          | (Ok stocks, objects) =>
              match divide stocks 100 with
              | Raise e => Some (Raise e, srv2)
              | Ok stock_batches =>
                  match submit_each update_stocks stock_batches srv2 with
                  | (Raise e, srv3) => Some (Raise e, srv3)
                  | (Ok _, srv3) =>
                      match create_prices objects with
                      | (Raise e, _) => Some (Raise e, srv3)
                      | (Ok prices, _) =>
                          match divide prices 900 with
                          | Raise e => Some (Raise e, srv3)
                          | Ok price_batches =>
                              match submit_each update_price price_batches srv3 with
                              | (Raise e, srv4) => Some (Raise e, srv4)
                              | (Ok _, srv4) => Some (Ok tt, srv4)
                              end
                          end
                      end
                  end
              end
          end
      end
  end.
End Sync.

End Seller.

Module Market.

(** *** Catalog pages of the Yandex.Market API *)

Record offer : Type := Offer { shopSku : string }.
Record entry : Type := Entry { e_offer : offer }.

(** The ["result"] object of an offer-mapping response; the page token
    is absent ([VNone]) or text. *)
Record page : Type := Page {
  offerMappingEntries : list entry;
  nextPageToken : pyval
}.

Section Catalog.
(** [get_product_list(page, campaign_id, access_token)], one HTTP
    exchange with the marketplace. *)
Context {server : Type}.
Variable get_product_list : pyval -> server -> result page * server.

(** The [while True] loop of [get_offer_ids]; [None] when the fuel
    runs out before the loop ends. *)
Fixpoint fetch_all (fuel : nat) (page : pyval) (product_list : list entry)
    (srv : server) : option (result (list entry) * server) :=
  match fuel with
  | O => None
  | S fuel' =>
      match get_product_list page srv with
      | (Raise e, srv') => Some (Raise e, srv')
      | (Ok some_prod, srv') =>
          let product_list := product_list ++ offerMappingEntries some_prod in
          let page := nextPageToken some_prod in
          if negb (py_truthy page)
          then Some (Ok product_list, srv')
          else fetch_all fuel' page product_list srv'
      end
  end.

Definition get_offer_ids (fuel : nat) (srv : server)
    : option (result (list string) * server) :=
  match fetch_all fuel (VStr "") [] srv with
  | Some (Ok product_list, srv') =>
      Some (Ok ((fun product => shopSku (e_offer product)) <$> product_list), srv')
  | Some (Raise e, srv') => Some (Raise e, srv')
  | None => None
  end.
End Catalog.

(** *** Update records sent to Yandex.Market *)

Record stock_item : Type := StockItem {
  count : Z;
  type : string;
  updatedAt : string
}.

Record stock_record : Type := StockRecord {
  sku : string;
  warehouseId : string;
  st_items : list stock_item
}.

Record price_value : Type := PriceValue {
  value : Z;
  currencyId : string
}.

Record price_record : Type := PriceRecord {
  id : string;
  pr_price : price_value
}.

(** [create_stocks(watch_remnants, offer_ids, warehouse_id)].  [date] is
    the text the call builds from the clock ([utcnow()]) before its
    loops; the clock reading is an input of the model. *)
Definition create_stocks (warehouse_id : string) (date : string)
    : M (list stock_record) :=
  feed <- get_watch_remnants ;;
  stocks <- for_each feed (fun watch stocks =>
    ids <- get_offer_ids_list ;;
    if bool_decide (py_str (dict_get watch "Код") ∈ ids) then
      let count := py_str (dict_get watch "Количество") in
      stock <- (if String.eqb count ">10" then ret 100%Z
                else if String.eqb count "1" then ret 0%Z
                else lift (py_int (dict_get watch "Количество"))) ;;
      let stocks := stocks ++ [StockRecord (py_str (dict_get watch "Код"))
                                 warehouse_id [StockItem stock "FIT" date]] in
      offer_ids_remove (py_str (dict_get watch "Код")) ;;;
      ret stocks
    else ret stocks) [] ;;
  ids <- get_offer_ids_list ;;
  for_each ids (fun offer_id stocks =>
    ret (stocks ++ [StockRecord offer_id warehouse_id [StockItem 0 "FIT" date]]))
    stocks.

(** [create_prices(watch_remnants, offer_ids)] *)
Definition create_prices : M (list price_record) :=
  feed <- get_watch_remnants ;;
  for_each feed (fun watch prices =>
    ids <- get_offer_ids_list ;;
    if bool_decide (py_str (dict_get watch "Код") ∈ ids) then
      converted <- lift (Seller.price_conversion (dict_get watch "Цена")) ;;
      value <- lift (py_int (VStr converted)) ;;
      let price := PriceRecord (py_str (dict_get watch "Код"))
                               (PriceValue value "RUR") in
      ret (prices ++ [price])
    else ret prices) [].

(** *** The upload procedures of [market.py] *)

(** [list(filter(lambda stock: stock.get("items")[0].get("count") != 0,
    stocks))] *)
Fixpoint not_empty_stocks (stocks : list stock_record) : result (list stock_record) :=
  match stocks with
  | [] => Ok []
  | r :: stocks' =>
      match py_index (st_items r) 0 with
      | Raise e => Raise e
      | Ok item =>
          match not_empty_stocks stocks' with
          | Raise e => Raise e
          | Ok kept => Ok (if bool_decide (count item ≠ 0) then r :: kept else kept)
          end
      end
  end.

Section Sync.
Context {server : Type}.
Variable get_product_list : pyval -> server -> result page * server.
Variable update_price : list price_record -> server -> result unit * server.
Variable update_stocks : list stock_record -> server -> result unit * server.

(** The body of [upload_prices(watch_remnants, campaign_id, market_token)] *)
Definition upload_prices (fuel : nat) (watch_remnants : list watch) (srv : server)
    : option (result (list price_record) * server) :=
  match get_offer_ids get_product_list fuel srv with
  | None => None
  | Some (Raise e, srv1) => Some (Raise e, srv1)
  | Some (Ok offer_ids, srv1) =>
      match create_prices (Store watch_remnants offer_ids) with
      | (Raise e, _) => Some (Raise e, srv1)
      | (Ok prices, _) =>
          match Seller.divide prices 500 with
          | Raise e => Some (Raise e, srv1)
          | Ok batches =>
              match submit_each update_price batches srv1 with
              | (Raise e, srv2) => Some (Raise e, srv2)
              | (Ok _, srv2) => Some (Ok prices, srv2)
              end
          end
      end
  end.

(** The body of
    [upload_stocks(watch_remnants, campaign_id, market_token, warehouse_id)];
    [date] is the clock reading [create_stocks] takes. *)
Definition upload_stocks (fuel : nat) (watch_remnants : list watch)
    (warehouse_id date : string) (srv : server)
    : option (result (list stock_record * list stock_record) * server) :=
  match get_offer_ids get_product_list fuel srv with
  | None => None
  | Some (Raise e, srv1) => Some (Raise e, srv1)
  | Some (Ok offer_ids, srv1) =>
      match create_stocks warehouse_id date (Store watch_remnants offer_ids) with
      | (Raise e, _) => Some (Raise e, srv1)
      | (Ok stocks, _) =>
          match Seller.divide stocks 2000 with
          | Raise e => Some (Raise e, srv1)
          | Ok batches =>
              match submit_each update_stocks batches srv1 with
              | (Raise e, srv2) => Some (Raise e, srv2)
              | (Ok _, srv2) =>
                  match not_empty_stocks stocks with
                  | Raise e => Some (Raise e, srv2)
                  | Ok not_empty => Some (Ok (not_empty, stocks), srv2)
                  end
              end
          end
      end
  end.
End Sync.

End Market.

(** ** The normalizer as the specification words it *)

(** Truncate at the first ['.']. *)
Fixpoint truncate_at_dot (s : string) : string :=
  match s with
  | EmptyString => EmptyString
  | String c s' => if Ascii.eqb c "." then EmptyString
                   else String c (truncate_at_dot s')
  end.

(** Remove every character that is not a digit. *)
Definition strip_non_digits (s : string) : string :=
  string_of_list_ascii (filter (fun c => is_digit c = true) (list_ascii_of_string s)).

Definition normalize_price (raw : string) : string :=
  strip_non_digits (truncate_at_dot raw).



(** ** The stock reconciliation, factored for the proofs

    Both [create_stocks] run the same two loops and differ in the record
    they build.  [stocks_with mk] is that common text with the record
    builder [mk] left open; [reconcile] is its first loop as a plain
    function of the feed and of the offer ids. *)

Definition code (w : watch) : string := py_str (dict_get w "Код").

(** The quantity rule of the first loop. *)
Definition quantity (w : watch) : result Z :=
  let count := py_str (dict_get w "Количество") in
  if String.eqb count ">10" then Ok 100
  else if String.eqb count "1" then Ok 0
  else py_int (dict_get w "Количество").

Definition stocks_with {R : Type} (mk : string -> Z -> R) : M (list R) :=
  feed <- get_watch_remnants ;;
  stocks <- for_each feed (fun watch stocks =>
    ids <- get_offer_ids_list ;;
    if bool_decide (py_str (dict_get watch "Код") ∈ ids) then
      let count := py_str (dict_get watch "Количество") in
      stock <- (if String.eqb count ">10" then ret 100%Z
                else if String.eqb count "1" then ret 0%Z
                else lift (py_int (dict_get watch "Количество"))) ;;
      let stocks := stocks ++ [mk (py_str (dict_get watch "Код")) stock] in
      offer_ids_remove (py_str (dict_get watch "Код")) ;;;
      ret stocks
    else ret stocks) [] ;;
  ids <- get_offer_ids_list ;;
  for_each ids (fun offer_id stocks => ret (stocks ++ [mk offer_id 0])) stocks.

(** The rows the first loop acts on: a row is taken when its code is in
    the working list at its turn, and taking it removes that code. *)
Fixpoint matched_rows (feed : list watch) (ids : list string) : list watch :=
  match feed with
  | [] => []
  | w :: feed' =>
      if bool_decide (code w ∈ ids)
      then w :: matched_rows feed' (default ids (list_remove (code w) ids))
      else matched_rows feed' ids
  end.

(** The working list after the first loop. *)
Fixpoint remaining_ids (feed : list watch) (ids : list string) : list string :=
  match feed with
  | [] => ids
  | w :: feed' =>
      if bool_decide (code w ∈ ids)
      then remaining_ids feed' (default ids (list_remove (code w) ids))
      else remaining_ids feed' ids
  end.

(** The first loop: the quantities of the rows taken, or the exception
    of the first row whose quantity does not convert, with the working
    list as it is left. *)
Fixpoint reconcile (feed : list watch) (ids : list string)
    : result (list Z) * list string :=
  match feed with
  | [] => (Ok [], ids)
  | w :: feed' =>
      if bool_decide (code w ∈ ids) then
        match quantity w with
        | Raise e => (Raise e, ids)
        | Ok q =>
            match list_remove (code w) ids with
            | None => (Raise ValueError, ids)
            | Some ids1 =>
                match reconcile feed' ids1 with
                | (Ok qs, ids') => (Ok (q :: qs), ids')
                | (Raise e, ids') => (Raise e, ids')
                end
            end
        end
      else reconcile feed' ids
  end.

(** The records the first loop appends, given the quantities. *)
Definition matched_records {R} (mk : string -> Z -> R)
    (ws : list watch) (qs : list Z) : list R :=
  zip_with (fun w q => mk (code w) q) ws qs.

(** ** The price reconciliation, factored for the proofs

    Both [create_prices] walk the feed once and never touch the offer
    ids, so the rows they act on are the rows whose code is a known
    offer id.  They differ in the record they build from such a row. *)

Definition known_rows (feed : list watch) (ids : list string) : list watch :=
  filter (fun w => code w ∈ ids) feed.

(** The record [seller.py] builds from a row. *)
Definition seller_price (w : watch) : result Seller.price_record :=
  match Seller.price_conversion (dict_get w "Цена") with
  | Ok converted =>
      Ok (Seller.PriceRecord "UNKNOWN" "RUB" (code w) "0" (VStr converted))
  | Raise e => Raise e
  end.

(** The record [market.py] builds from a row. *)
Definition market_price (w : watch) : result Market.price_record :=
  match Seller.price_conversion (dict_get w "Цена") with
  | Ok converted =>
      match py_int (VStr converted) with
      | Ok value => Ok (Market.PriceRecord (code w) (Market.PriceValue value "RUR"))
      | Raise e => Raise e
      end
  | Raise e => Raise e
  end.

(** Build the records in order; the first row that fails raises. *)
Fixpoint collect {R} (conv : watch -> result R) (ws : list watch) : result (list R) :=
  match ws with
  | [] => Ok []
  | w :: ws' =>
      match conv w with
      | Ok r => match collect conv ws' with
                | Ok rs => Ok (r :: rs)
                | Raise e => Raise e
                end
      | Raise e => Raise e
      end
  end.

(** ** Pagination, factored for the proofs

    Both [get_offer_ids] run the same loop: fetch a page with the
    current cursor, add its items, stop when the page says so, else go
    on with the cursor the page gives.  [paginate] is that loop with the
    page type, the cursor and the stop test left open; [served] is what
    the marketplace answers when each answer's cursor is sent back, as
    long as no exchange fails. *)
Section Paginate.
Context {server C P I : Type}.
Variable fetch : C -> server -> result P * server.
Variable items_of : P -> list I.
Variable next : P -> C.
Variable stop : list I -> P -> bool.

Fixpoint paginate (fuel : nat) (cursor : C) (acc : list I) (srv : server)
    : option (result (list I) * server) :=
  match fuel with
  | O => None
  | S fuel' =>
      match fetch cursor srv with
      | (Raise e, srv') => Some (Raise e, srv')
      | (Ok p, srv') =>
          if stop (acc ++ items_of p) p then Some (Ok (acc ++ items_of p), srv')
          else paginate fuel' (next p) (acc ++ items_of p) srv'
      end
  end.

(** The first [k] pages served from [cursor] on. *)
Fixpoint served (k : nat) (cursor : C) (srv : server) : option (list P * server) :=
  match k with
  | O => Some ([], srv)
  | S k' =>
      match fetch cursor srv with
      | (Ok p, srv') =>
          match served k' (next p) srv' with
          | Some (ps, srv'') => Some (p :: ps, srv'')
          | None => None
          end
      | (Raise _, _) => None
      end
  end.

(** Page [j] of [ps] makes the loop stop, [acc] being what was
    gathered before [ps]. *)
Definition signals (acc : list I) (ps : list P) (j : nat) : Prop :=
  exists p, ps !! j = Some p
            ∧ stop (acc ++ concat (items_of <$> take (S j) ps)) p = true.
End Paginate.

(** The stop tests of the two integrations. *)
Definition seller_stop (product_list : list Seller.product) (some_prod : Seller.page) : bool :=
  (Seller.total some_prod =? Z.of_nat (length product_list))%Z.

Definition market_stop (product_list : list Market.entry) (some_prod : Market.page) : bool :=
  negb (py_truthy (Market.nextPageToken some_prod)).

(** ** The claims in the specification's words *)

(** The quantity rule: the "more than ten" token gives 100, the token
    ["1"] gives 0, anything else is read as an integer. *)
Definition quantity_rule (w : watch) (q : Z) : Prop :=
  let text := py_str (dict_get w "Количество") in
  (text = ">10" -> q = 100)
  ∧ (text = "1" -> q = 0)
  ∧ (text ≠ ">10" -> text ≠ "1" -> py_int (dict_get w "Количество") = Ok q).

(** The coverage invariant: the emitted ids are the known ids, each one
    once. *)
Definition covers_exactly_once (known emitted : list string) : Prop :=
  NoDup emitted ∧ (forall x, x ∈ emitted <-> x ∈ known).

(** Two calls in a row on the same objects. *)
Definition twice {A} (m : M A) : M (A * A) :=
  a <- m ;; b <- m ;; ret (a, b).

(** A call that is handed a copy of the caller's offer ids, as in
    [create_stocks(watch_remnants, list(offer_ids))]: what the call does
    to its copy does not reach the caller's list. *)
Definition on_copy_of_offer_ids {A} (m : M A) : M A :=
  fun s => match m s with
           | (r, s') => (r, Store (watch_remnants s') (offer_ids s))
           end.

(** ** Sample data *)

Definition row (code quantity price : string) : watch :=
  py_dict [("Код", VStr code); ("Количество", VStr quantity); ("Цена", VStr price)].

Definition sample_store : store :=
  Store [row "999" "7" "10.00 руб."; row "123" ">10" "5'990.00 руб.";
         row "789" "1" "1 200.50 руб."; row "123" "4" ""; row "555" "12" ""]
        ["456"; "123"; "555"; "789"].

(** The [k]-th window of width [w] of a list. *)
Definition window {A} (lst : list A) (w k : nat) : list A :=
  take w (drop (k * w) lst).

(** The feed and the known ids of the specification's price example. *)
Definition price_example (ids : list string) : store :=
  Store [py_dict [("Код", VStr "123"); ("Цена", VStr "5'990.00 руб.")]] ids.

(** A two-page Ozon catalog, served by cursor; the marketplace keeps
    count of the exchanges. *)
Definition sample_ozon (last_id : string) (calls : nat)
    : result Seller.page * nat :=
  (if String.eqb last_id ""
   then Ok (Seller.Page [Seller.Product "123"; Seller.Product "456"] 3 "456")
   else if String.eqb last_id "456"
   then Ok (Seller.Page [Seller.Product "789"] 3 "")
   else Raise ValueError,
   S calls).

(** A two-page Yandex.Market catalog; the last page has no token. *)
Definition sample_yandex (page : pyval) (calls : nat)
    : result Market.page * nat :=
  (match page with
   | VStr "" =>
       Ok (Market.Page [Market.Entry (Market.Offer "123");
                        Market.Entry (Market.Offer "456")] (VStr "t1"))
   | VStr "t1" => Ok (Market.Page [Market.Entry (Market.Offer "789")] VNone)
   | _ => Raise ValueError
   end,
   S calls).

(** ** The quantity claim and the repeated run, spelled out *)

(** What it means for a stock reconciliation [run], building its
    records with [mk], to follow the quantity rule.  A row is taken when
    its code is in the working list at its turn, that is in
    [remaining_ids pre ids] for the rows [pre] before it.

    - The call returns exactly when the rule covers the quantity of
      every row taken.
    - The records of the rows taken are, in order, the first records of
      the output, each with the quantity the rule gives.
    - The first row with a known code is taken.
    - A row that is taken has its record at the position that the
      number of rows taken before it gives.
    - A row that is not taken leaves nothing: without it the output is
      the same. *)
Definition follows_quantity_rule {R : Type} (mk : string -> Z -> R)
    (run : M (list R)) : Prop :=
  forall s,
    (is_Ok (run s).1 <->
     Forall (fun w => exists q, quantity_rule w q)
            (matched_rows (watch_remnants s) (offer_ids s)))
    ∧ forall out s', run s = (Ok out, s') ->
        Forall2 (fun w r => exists q, r = mk (code w) q ∧ quantity_rule w q)
          (matched_rows (watch_remnants s) (offer_ids s))
          (take (length (matched_rows (watch_remnants s) (offer_ids s))) out)
        ∧ forall pre w post, watch_remnants s = pre ++ w :: post ->
            (code w ∉ (code <$> pre) -> code w ∈ offer_ids s ->
             code w ∈ remaining_ids pre (offer_ids s))
            ∧ (code w ∈ remaining_ids pre (offer_ids s) ->
               exists q, out !! length (matched_rows pre (offer_ids s))
                         = Some (mk (code w) q)
                         ∧ quantity_rule w q)
            ∧ (code w ∉ remaining_ids pre (offer_ids s) ->
               (run (Store (pre ++ post) (offer_ids s))).1 = Ok out).

(** A row with a code and a quantity only. *)
Definition stock_row (code quantity : string) : watch :=
  py_dict [("Код", VStr code); ("Количество", VStr quantity)].

(** A [market.py] stock record with its time stamps set to [date]. *)
Definition restamp (date : string) (r : Market.stock_record) : Market.stock_record :=
  Market.StockRecord (Market.sku r) (Market.warehouseId r)
    ((fun item => Market.StockItem (Market.count item) (Market.type item) date)
     <$> Market.st_items r).

(** ** Further notions used by the properties beyond the claims *)

(** The number a text of decimal digits writes. *)
Definition decimal_value (d : string) : Z :=
  foldl (fun acc c => 10 * acc + digit_value c) 0 (list_ascii_of_string d).

Definition all_digits (d : string) : Prop :=
  Forall (fun c => is_digit c = true) (list_ascii_of_string d).

(** The cursor the loop holds after the pages [ps], having started from
    [cursor]. *)
Definition cursor_after {C P : Type} (next : P -> C) (cursor : C) (ps : list P) : C :=
  match last ps with
  | Some p => next p
  | None => cursor
  end.

(** An outside world that counts the exchanges and accepts every
    update; the supplier's site hands out the sample feed. *)
Definition sample_update {B : Type} (batch : B) (calls : nat) : result unit * nat :=
  (Ok tt, S calls).

Definition sample_download (calls : nat) : result (list watch) * nat :=
  (Ok (watch_remnants sample_store), S calls).

(** * Proofs *)

(** ** Removing from a list *)

Lemma list_remove_is_Some x l : x ∈ l -> is_Some (list_remove x l).
Proof.
  induction l as [|y l IH]; intros Hx.
  - by apply elem_of_nil in Hx.
  - simpl. destruct (decide (x = y)) as [->|Hne]; [eauto|].
    apply elem_of_cons in Hx as [?|Hx]; [done|].
    destruct (IH Hx) as [l' ->]. simpl. eauto.
Qed.

Lemma list_remove_perm x l l' : list_remove x l = Some l' -> l ≡ₚ x :: l'.
Proof.
  revert l'. induction l as [|y l IH]; intros l' H; simpl in H; [done|].
  destruct (decide (x = y)) as [->|Hne].
  - by injection H as ->.
  - destruct (list_remove x l) as [l1|] eqn:E; simpl in H; [|done].
    injection H as <-. rewrite (IH l1 eq_refl). apply Permutation_swap.
Qed.

Lemma list_remove_sublist x l l' : list_remove x l = Some l' -> l' `sublist_of` l.
Proof.
  revert l'. induction l as [|y l IH]; intros l' H; simpl in H; [done|].
  destruct (decide (x = y)) as [->|Hne].
  - injection H as ->. by apply sublist_cons.
  - destruct (list_remove x l) as [l1|] eqn:E; simpl in H; [|done].
    injection H as <-. apply sublist_skip. by apply IH.
Qed.

Lemma list_remove_NoDup x l l' :
  list_remove x l = Some l' -> NoDup l -> (x ∉ l') ∧ NoDup l'.
Proof.
  intros H Hnd. apply list_remove_perm in H.
  rewrite H in Hnd. by apply NoDup_cons in Hnd.
Qed.

Lemma list_remove_other x y l l' :
  list_remove x l = Some l' -> y ≠ x -> y ∈ l -> y ∈ l'.
Proof.
  intros H Hne Hy. apply list_remove_perm in H.
  rewrite H in Hy. apply elem_of_cons in Hy as [?|?]; done.
Qed.

(** ** The loops of [create_stocks] *)

Lemma for_each_append_zero {R} (mk : string -> Z -> R) ids acc s :
  for_each ids (fun offer_id stocks => ret (stocks ++ [mk offer_id 0])) acc s
  = (Ok (acc ++ ((fun x => mk x 0) <$> ids)), s).
Proof.
  revert acc. induction ids as [|x ids IH]; intros acc; simpl.
  - by rewrite app_nil_r.
  - unfold bind, ret at 1. rewrite IH. by rewrite <- app_assoc.
Qed.

Lemma quantity_run w s :
  (if String.eqb (py_str (dict_get w "Количество")) ">10" then ret 100
   else if String.eqb (py_str (dict_get w "Количество")) "1" then ret 0
   else lift (py_int (dict_get w "Количество"))) s = (quantity w, s).
Proof.
  unfold quantity.
  destruct (String.eqb _ ">10"); [done|]. by destruct (String.eqb _ "1").
Qed.

Lemma first_loop_run {R} (mk : string -> Z -> R) feed0 feed ids acc :
  for_each feed (fun watch stocks =>
    ids <- get_offer_ids_list ;;
    if bool_decide (py_str (dict_get watch "Код") ∈ ids) then
      let count := py_str (dict_get watch "Количество") in
      stock <- (if String.eqb count ">10" then ret 100%Z
                else if String.eqb count "1" then ret 0%Z
                else lift (py_int (dict_get watch "Количество"))) ;;
      let stocks := stocks ++ [mk (py_str (dict_get watch "Код")) stock] in
      offer_ids_remove (py_str (dict_get watch "Код")) ;;;
      ret stocks
    else ret stocks) acc (Store feed0 ids)
  = match reconcile feed ids with
    | (Ok qs, ids') =>
        (Ok (acc ++ matched_records mk (matched_rows feed ids) qs), Store feed0 ids')
    | (Raise e, ids') => (Raise e, Store feed0 ids')
    end.
Proof.
  revert ids acc. induction feed as [|w feed IH]; intros ids acc.
  - simpl. by rewrite app_nil_r.
  - cbn [for_each reconcile matched_rows]. unfold bind at 1. unfold bind at 1.
    unfold get_offer_ids_list at 1. cbn [offer_ids]. fold (code w).
    destruct (bool_decide (code w ∈ ids)) eqn:Hin.
    + unfold bind at 1. rewrite quantity_run.
      destruct (quantity w) as [q|e]; [|done].
      unfold bind at 1. unfold offer_ids_remove. cbn [offer_ids watch_remnants].
      destruct (list_remove (code w) ids) as [ids1|] eqn:Hrm; [|done].
      unfold ret at 1. cbn [default]. rewrite IH.
      destruct (reconcile feed ids1) as [[qs|e] ids']; [|done].
      unfold matched_records. cbn [zip_with]. by rewrite <- app_assoc.
    + unfold ret at 1. apply IH.
Qed.

Lemma stocks_with_run {R} (mk : string -> Z -> R) s :
  stocks_with mk s
  = match reconcile (watch_remnants s) (offer_ids s) with
    | (Ok qs, ids') =>
        (Ok (matched_records mk (matched_rows (watch_remnants s) (offer_ids s)) qs
             ++ ((fun x => mk x 0) <$> ids')),
         Store (watch_remnants s) ids')
    | (Raise e, ids') => (Raise e, Store (watch_remnants s) ids')
    end.
Proof.
  destruct s as [feed ids]. unfold stocks_with.
  unfold bind at 1. unfold get_watch_remnants at 1. cbn [watch_remnants offer_ids].
  unfold bind at 1. rewrite first_loop_run.
  destruct (reconcile feed ids) as [[qs|e] ids']; [|done].
  unfold bind at 1. unfold get_offer_ids_list at 1. cbn [offer_ids].
  by rewrite for_each_append_zero.
Qed.

Lemma seller_create_stocks_eq :
  Seller.create_stocks = stocks_with Seller.StockRecord.
Proof. reflexivity. Qed.

Lemma market_create_stocks_eq warehouse_id date :
  Market.create_stocks warehouse_id date
  = stocks_with (fun x q => Market.StockRecord x warehouse_id
                              [Market.StockItem q "FIT" date]).
Proof. reflexivity. Qed.

(** ** What the first loop takes and what it leaves *)

Lemma reconcile_Ok feed ids qs ids' :
  reconcile feed ids = (Ok qs, ids') ->
  ids' = remaining_ids feed ids
  ∧ Forall2 (fun w q => quantity w = Ok q) (matched_rows feed ids) qs.
Proof.
  revert ids qs. induction feed as [|w feed IH]; intros ids qs H; simpl in *.
  - injection H as <- <-. split; [done|constructor].
  - destruct (bool_decide (code w ∈ ids)); [|by apply IH].
    destruct (quantity w) as [q|e] eqn:Hq; [|done].
    destruct (list_remove (code w) ids) as [ids1|]; [|done]. simpl.
    destruct (reconcile feed ids1) as [[qs1|e] ids1'] eqn:Hr; [|done].
    injection H as <- <-. destruct (IH _ _ Hr) as [-> HF].
    split; [done|by constructor].
Qed.

Lemma reconcile_progress feed ids :
  Forall (fun w => is_Ok (quantity w)) (matched_rows feed ids) ->
  is_Ok (reconcile feed ids).1.
Proof.
  revert ids. induction feed as [|w feed IH]; intros ids H; simpl in *; [done|].
  destruct (bool_decide (code w ∈ ids)) eqn:Hin; [|by apply IH].
  apply Forall_cons in H as [Hq H].
  destruct (quantity w) as [q|e]; [|done].
  apply bool_decide_eq_true in Hin.
  destruct (list_remove_is_Some _ _ Hin) as [ids1 Hrm]. rewrite Hrm in *. simpl in H.
  specialize (IH _ H). by destruct (reconcile feed ids1) as [[qs|e] ids'].
Qed.

Lemma matched_rows_sublist feed ids : matched_rows feed ids `sublist_of` feed.
Proof.
  revert ids. induction feed as [|w feed IH]; intros ids; simpl; [done|].
  destruct (bool_decide _); [by apply sublist_skip|by apply sublist_cons].
Qed.

Lemma remaining_ids_sublist feed ids : remaining_ids feed ids `sublist_of` ids.
Proof.
  revert ids. induction feed as [|w feed IH]; intros ids; simpl; [done|].
  destruct (bool_decide (code w ∈ ids)) eqn:Hin; [|done].
  apply bool_decide_eq_true in Hin.
  destruct (list_remove_is_Some _ _ Hin) as [ids1 Hrm]. rewrite Hrm. simpl.
  etrans; [apply IH|]. by eapply list_remove_sublist.
Qed.

(** The known ids split into the codes taken and the ids left. *)
Lemma matched_remaining_perm feed ids :
  (code <$> matched_rows feed ids) ++ remaining_ids feed ids ≡ₚ ids.
Proof.
  revert ids. induction feed as [|w feed IH]; intros ids; simpl; [done|].
  destruct (bool_decide (code w ∈ ids)) eqn:Hin; [|done].
  apply bool_decide_eq_true in Hin.
  destruct (list_remove_is_Some _ _ Hin) as [ids1 Hrm]. rewrite Hrm. simpl.
  rewrite IH. symmetry. by apply list_remove_perm.
Qed.

Lemma remaining_ids_unmatched feed ids x :
  x ∈ ids -> x ∉ (code <$> feed) -> x ∈ remaining_ids feed ids.
Proof.
  revert ids. induction feed as [|w feed IH]; intros ids Hx Hn; simpl; [done|].
  rewrite fmap_cons in Hn. apply not_elem_of_cons in Hn as [Hne Hn].
  destruct (bool_decide (code w ∈ ids)) eqn:Hin; [|by apply IH].
  apply bool_decide_eq_true in Hin.
  destruct (list_remove_is_Some _ _ Hin) as [ids1 Hrm]. rewrite Hrm. simpl.
  apply IH; [|done]. by eapply list_remove_other.
Qed.

Lemma remaining_ids_NoDup feed ids x :
  NoDup ids -> x ∈ remaining_ids feed ids -> x ∉ (code <$> feed).
Proof.
  revert ids. induction feed as [|w feed IH]; intros ids Hnd Hx; simpl in *.
  - apply not_elem_of_nil.
  - apply not_elem_of_cons.
    destruct (bool_decide (code w ∈ ids)) eqn:Hin.
    + apply bool_decide_eq_true in Hin.
      destruct (list_remove_is_Some _ _ Hin) as [ids1 Hrm]. rewrite Hrm in Hx. simpl in Hx.
      destruct (list_remove_NoDup _ _ _ Hrm Hnd) as [Hn1 Hnd1].
      split; [|by eapply IH].
      intros ->. apply Hn1. eapply sublist_subseteq; [apply remaining_ids_sublist|done].
    + apply bool_decide_eq_false in Hin.
      split; [|by eapply IH].
      intros ->. apply Hin. eapply sublist_subseteq; [apply remaining_ids_sublist|done].
Qed.

Lemma matched_records_ids {R} (mk : string -> Z -> R) (ident : R -> string) ws qs :
  (forall x q, ident (mk x q) = x) ->
  Forall2 (fun w q => quantity w = Ok q) ws qs ->
  ident <$> matched_records mk ws qs = code <$> ws.
Proof.
  intros Hid HF. induction HF as [|w q ws qs _ _ IH]; [done|].
  unfold matched_records in *. cbn [zip_with]. rewrite !fmap_cons.
  by rewrite Hid, IH.
Qed.

Lemma stocks_with_Ok {R} (mk : string -> Z -> R) s out s' :
  stocks_with mk s = (Ok out, s') ->
  exists qs,
    Forall2 (fun w q => quantity w = Ok q)
            (matched_rows (watch_remnants s) (offer_ids s)) qs
    ∧ out = matched_records mk (matched_rows (watch_remnants s) (offer_ids s)) qs
            ++ ((fun x => mk x 0) <$> remaining_ids (watch_remnants s) (offer_ids s))
    ∧ s' = Store (watch_remnants s) (remaining_ids (watch_remnants s) (offer_ids s)).
Proof.
  rewrite stocks_with_run.
  destruct (reconcile _ _) as [[qs|e] ids'] eqn:Hr; [|done].
  intros [= <- <-]. destruct (reconcile_Ok _ _ _ _ Hr) as [-> HF]. eauto.
Qed.

Lemma stocks_with_progress {R} (mk : string -> Z -> R) s :
  Forall (fun w => is_Ok (quantity w)) (matched_rows (watch_remnants s) (offer_ids s)) ->
  is_Ok (stocks_with mk s).1.
Proof.
  intros H. apply reconcile_progress in H. rewrite stocks_with_run.
  by destruct (reconcile _ _) as [[qs|e] ids'].
Qed.

Lemma quantity_rule_iff w q : quantity w = Ok q <-> quantity_rule w q.
Proof.
  unfold quantity, quantity_rule. cbv zeta.
  destruct (String.eqb_spec (py_str (dict_get w "Количество")) ">10") as [E1|N1].
  - split.
    + intros [= <-]. rewrite E1. repeat split; done.
    + intros (H & _ & _). by rewrite (H E1).
  - destruct (String.eqb_spec (py_str (dict_get w "Количество")) "1") as [E2|N2].
    + split.
      * intros [= <-]. repeat split; done.
      * intros (_ & H & _). by rewrite (H E2).
    + split.
      * intros H. repeat split; done.
      * intros (_ & _ & H). by apply H.
Qed.

Lemma Forall2_matched_records {R} (mk : string -> Z -> R) ws qs :
  Forall2 (fun w q => quantity w = Ok q) ws qs ->
  Forall2 (fun w r => exists q, r = mk (code w) q ∧ quantity_rule w q)
          ws (matched_records mk ws qs).
Proof.
  intros HF. induction HF as [|w q ws qs Hq _ IH]; [constructor|].
  unfold matched_records in *. cbn [zip_with]. constructor; [|done].
  exists q. split; [done|]. by apply quantity_rule_iff.
Qed.

Lemma stocks_with_quantity {R} (mk : string -> Z -> R) s out s' :
  stocks_with mk s = (Ok out, s') ->
  Forall2 (fun w r => exists q, r = mk (code w) q ∧ quantity_rule w q)
    (matched_rows (watch_remnants s) (offer_ids s))
    (take (length (matched_rows (watch_remnants s) (offer_ids s))) out).
Proof.
  intros H. destruct (stocks_with_Ok _ _ _ _ H) as (qs & HF & -> & _).
  pose proof (Forall2_matched_records mk _ _ HF) as HR.
  rewrite take_app_length'; [exact HR|].
  by eapply Forall2_length.
Qed.

Lemma stocks_with_ids {R} (mk : string -> Z -> R) (ident : R -> string) s out s' :
  (forall x q, ident (mk x q) = x) ->
  stocks_with mk s = (Ok out, s') ->
  ident <$> out = (code <$> matched_rows (watch_remnants s) (offer_ids s))
                  ++ remaining_ids (watch_remnants s) (offer_ids s).
Proof.
  intros Hid H. destruct (stocks_with_Ok _ _ _ _ H) as (qs & HF & -> & _).
  rewrite fmap_app, (matched_records_ids mk ident _ _ Hid HF). f_equal.
  rewrite <- list_fmap_compose. rewrite <- (list_fmap_id (remaining_ids _ _)) at 2.
  apply list_fmap_ext. intros _ x _. apply Hid.
Qed.

Lemma stocks_with_covers {R} (mk : string -> Z -> R) (ident : R -> string) s out s' :
  (forall x q, ident (mk x q) = x) ->
  stocks_with mk s = (Ok out, s') ->
  ident <$> out ≡ₚ offer_ids s
  ∧ (NoDup (offer_ids s) -> covers_exactly_once (offer_ids s) (ident <$> out))
  ∧ (forall r, r ∈ out -> ident r ∈ offer_ids s)
  ∧ (forall x, x ∈ offer_ids s -> x ∉ (code <$> watch_remnants s) -> mk x 0 ∈ out).
Proof.
  intros Hid H.
  assert (ident <$> out ≡ₚ offer_ids s) as Hperm.
  { rewrite (stocks_with_ids mk ident _ _ _ Hid H). apply matched_remaining_perm. }
  split; [done|]. split; [|split].
  - intros Hnd. split.
    + by rewrite Hperm.
    + intros x. by rewrite Hperm.
  - intros r Hr. rewrite <- Hperm. by apply list_elem_of_fmap_2.
  - intros x Hx Hn. destruct (stocks_with_Ok _ _ _ _ H) as (qs & _ & -> & _).
    apply elem_of_app. right.
    apply (list_elem_of_fmap_2 (fun x => mk x 0)).
    by apply remaining_ids_unmatched.
Qed.

(** C1, as amended.  Whenever [create_stocks] returns, the offer ids of
    its output are a rearrangement of the known offer ids: every
    occurrence of a known id is answered by one record, so a list of
    known ids without repetitions is covered exactly once; every record
    carries a known id (rows with other codes leave no record); and a
    known id that is the code of no supplier row gets a record with
    quantity 0.  This holds for both integrations. *)
Theorem create_stocks_covers_known_ids :
  (forall s out s', Seller.create_stocks s = (Ok out, s') ->
     Seller.offer_id <$> out ≡ₚ offer_ids s
     ∧ (NoDup (offer_ids s) ->
        covers_exactly_once (offer_ids s) (Seller.offer_id <$> out))
     ∧ (forall r, r ∈ out -> Seller.offer_id r ∈ offer_ids s)
     ∧ (forall x, x ∈ offer_ids s -> x ∉ (code <$> watch_remnants s) ->
        Seller.StockRecord x 0 ∈ out))
  ∧ (forall warehouse_id date s out s',
     Market.create_stocks warehouse_id date s = (Ok out, s') ->
     Market.sku <$> out ≡ₚ offer_ids s
     ∧ (NoDup (offer_ids s) ->
        covers_exactly_once (offer_ids s) (Market.sku <$> out))
     ∧ (forall r, r ∈ out -> Market.sku r ∈ offer_ids s)
     ∧ (forall x, x ∈ offer_ids s -> x ∉ (code <$> watch_remnants s) ->
        Market.StockRecord x warehouse_id [Market.StockItem 0 "FIT" date] ∈ out)).
Proof.
  split.
  - intros s out s' H. rewrite seller_create_stocks_eq in H.
    by eapply (stocks_with_covers Seller.StockRecord Seller.offer_id).
  - intros wh date s out s' H. rewrite market_create_stocks_eq in H.
    exact (stocks_with_covers
             (fun x q => Market.StockRecord x wh [Market.StockItem q "FIT" date])
             Market.sku s out s' (fun _ _ => eq_refl) H).
Qed.

Lemma create_stocks_covers_known_ids_witness :
  exists out s',
    Seller.create_stocks sample_store = (Ok out, s')
    ∧ NoDup (offer_ids sample_store)
    ∧ covers_exactly_once (offer_ids sample_store) (Seller.offer_id <$> out).
Proof.
  eexists _, _. split; [vm_compute; reflexivity|].
  assert (NoDup (offer_ids sample_store)) as Hnd.
  { apply (bool_decide_unpack _). vm_compute. exact I. }
  split; [exact Hnd|].
  destruct create_stocks_covers_known_ids as [Hs _].
  refine (proj1 (proj2 (Hs sample_store _ _ _)) Hnd).
  vm_compute. reflexivity.
Defined.

(** C1 as stated fails.  With a known id listed twice and an empty feed
    the output carries that id twice; and a matched row whose quantity
    is neither a token nor a number makes the call raise instead of
    returning a list. *)
Lemma create_stocks_covers_known_ids_counterexample :
  (exists out s',
     Seller.create_stocks (Store [] ["123"; "123"]) = (Ok out, s')
     ∧ ¬ covers_exactly_once ["123"; "123"] (Seller.offer_id <$> out))
  ∧ (Seller.create_stocks (Store [row "123" "n/a" ""] ["123"])).1 = Raise ValueError.
Proof.
  split.
  - eexists _, _. split; [vm_compute; reflexivity|].
    intros [Hnd _]. simpl in Hnd.
    apply NoDup_cons in Hnd as [Hn _]. apply Hn. by left.
  - vm_compute. reflexivity.
Qed.

(** The first row that carries a given known code is taken. *)
Lemma matched_rows_first pre w post ids :
  code w ∉ (code <$> pre) -> code w ∈ ids ->
  w ∈ matched_rows (pre ++ w :: post) ids.
Proof.
  revert ids. induction pre as [|v pre IH]; intros ids Hn Hin; simpl.
  - rewrite bool_decide_eq_true_2 by done. by left.
  - rewrite fmap_cons in Hn. apply not_elem_of_cons in Hn as [Hne Hn].
    destruct (bool_decide (code v ∈ ids)) eqn:Hv; [|by apply IH].
    apply bool_decide_eq_true in Hv.
    destruct (list_remove_is_Some _ _ Hv) as [ids1 Hrm]. rewrite Hrm. simpl.
    right. apply IH; [done|]. by eapply list_remove_other.
Qed.

Lemma stocks_with_first_row {R} (mk : string -> Z -> R) s out s' pre w post :
  stocks_with mk s = (Ok out, s') ->
  watch_remnants s = pre ++ w :: post ->
  code w ∉ (code <$> pre) -> code w ∈ offer_ids s ->
  exists q, mk (code w) q ∈ out ∧ quantity_rule w q.
Proof.
  intros H Hfeed Hn Hin.
  pose proof (stocks_with_quantity _ _ _ _ H) as HF.
  pose proof (matched_rows_first pre w post _ Hn Hin) as Hw.
  rewrite <- Hfeed in Hw.
  apply list_elem_of_lookup in Hw as [i Hi].
  destruct (Forall2_lookup_l _ _ _ _ _ HF Hi) as (r & Hr & q & -> & Hq).
  exists q. split; [|done].
  apply lookup_take_Some in Hr as [Hr _]. by eapply list_elem_of_lookup_2.
Qed.


(** C8.  In both integrations the output of [create_stocks] is the
    records of the taken rows, in the order of the supplier feed,
    followed by one zero-quantity record per offer id left in the
    working list, in the order of that list, which keeps the order of
    the known offer ids. *)
Theorem create_stocks_order :
  (forall s out s', Seller.create_stocks s = (Ok out, s') ->
     exists matched,
       out = matched ++ ((fun x => Seller.StockRecord x 0) <$> offer_ids s')
       ∧ Seller.offer_id <$> matched
         = code <$> matched_rows (watch_remnants s) (offer_ids s)
       ∧ matched_rows (watch_remnants s) (offer_ids s) `sublist_of` watch_remnants s
       ∧ offer_ids s' `sublist_of` offer_ids s)
  ∧ (forall warehouse_id date s out s',
     Market.create_stocks warehouse_id date s = (Ok out, s') ->
     exists matched,
       out = matched
             ++ ((fun x => Market.StockRecord x warehouse_id [Market.StockItem 0 "FIT" date])
                 <$> offer_ids s')
       ∧ Market.sku <$> matched
         = code <$> matched_rows (watch_remnants s) (offer_ids s)
       ∧ matched_rows (watch_remnants s) (offer_ids s) `sublist_of` watch_remnants s
       ∧ offer_ids s' `sublist_of` offer_ids s).
Proof.
  split.
  - intros s out s' H. rewrite seller_create_stocks_eq in H.
    destruct (stocks_with_Ok _ _ _ _ H) as (qs & HF & -> & ->). cbn [offer_ids].
    eexists. split; [reflexivity|]. split; [|split].
    + by apply (matched_records_ids Seller.StockRecord Seller.offer_id).
    + apply matched_rows_sublist.
    + apply remaining_ids_sublist.
  - intros wh date s out s' H. rewrite market_create_stocks_eq in H.
    destruct (stocks_with_Ok _ _ _ _ H) as (qs & HF & -> & ->). cbn [offer_ids].
    eexists. split; [reflexivity|]. split; [|split].
    + by apply (matched_records_ids
                  (fun x q => Market.StockRecord x wh [Market.StockItem q "FIT" date])
                  Market.sku).
    + apply matched_rows_sublist.
    + apply remaining_ids_sublist.
Qed.

Lemma create_stocks_order_witness :
  exists out s' matched,
    Seller.create_stocks sample_store = (Ok out, s')
    ∧ out = matched ++ ((fun x => Seller.StockRecord x 0) <$> offer_ids s')
    ∧ Seller.offer_id <$> matched = ["123"; "789"; "555"]
    ∧ offer_ids s' = ["456"].
Proof.
  destruct create_stocks_order as [Hs _].
  destruct (Hs sample_store
              [Seller.StockRecord "123" 100; Seller.StockRecord "789" 0;
               Seller.StockRecord "555" 12; Seller.StockRecord "456" 0]
              (Store (watch_remnants sample_store) ["456"]))
    as (matched & Hout & Hids & _ & _).
  { vm_compute. reflexivity. }
  eexists _, _, matched. split; [vm_compute; reflexivity|].
  split; [exact Hout|]. split; [|reflexivity].
  rewrite Hids. vm_compute. reflexivity.
Defined.

Lemma stocks_with_store {R} (mk : string -> Z -> R) s out s' :
  stocks_with mk s = (Ok out, s') ->
  watch_remnants s' = watch_remnants s
  ∧ offer_ids s' = remaining_ids (watch_remnants s) (offer_ids s)
  ∧ offer_ids s' `sublist_of` offer_ids s
  ∧ (code <$> matched_rows (watch_remnants s) (offer_ids s)) ++ offer_ids s'
    ≡ₚ offer_ids s
  ∧ (NoDup (offer_ids s) ->
     forall x, x ∈ offer_ids s' <-> x ∈ offer_ids s ∧ x ∉ (code <$> watch_remnants s)).
Proof.
  intros H. destruct (stocks_with_Ok _ _ _ _ H) as (qs & _ & _ & ->).
  cbn [watch_remnants offer_ids].
  split; [done|]. split; [done|]. split; [apply remaining_ids_sublist|].
  split; [apply matched_remaining_perm|].
  intros Hnd x. split.
  - intros Hx. split.
    + eapply sublist_subseteq; [apply remaining_ids_sublist|done].
    + by eapply remaining_ids_NoDup.
  - intros [Hx Hn]. by apply remaining_ids_unmatched.
Qed.

Lemma stocks_with_feed_kept {R} (mk : string -> Z -> R) s :
  watch_remnants (stocks_with mk s).2 = watch_remnants s.
Proof.
  rewrite stocks_with_run. by destruct (reconcile _ _) as [[qs|e] ids'].
Qed.

(** C10, as amended.  [create_stocks] works on the caller's list of
    offer ids: every taken row removes one occurrence of its code, the
    first one.  After the call has returned, the caller's list is a
    sublist of what it was, in the same order; together with the codes
    of the taken rows it makes up the original list; and when the
    original list has no repetitions, it holds exactly the known ids
    that are the code of no supplier row.  The supplier feed is left as
    it was, also when the call raises. *)
Theorem create_stocks_consumes_offer_ids :
  (forall s out s', Seller.create_stocks s = (Ok out, s') ->
     watch_remnants s' = watch_remnants s
     ∧ offer_ids s' = remaining_ids (watch_remnants s) (offer_ids s)
     ∧ offer_ids s' `sublist_of` offer_ids s
     ∧ (code <$> matched_rows (watch_remnants s) (offer_ids s)) ++ offer_ids s'
       ≡ₚ offer_ids s
     ∧ (NoDup (offer_ids s) ->
        forall x, x ∈ offer_ids s' <->
                  x ∈ offer_ids s ∧ x ∉ (code <$> watch_remnants s)))
  ∧ (forall warehouse_id date s out s',
     Market.create_stocks warehouse_id date s = (Ok out, s') ->
     watch_remnants s' = watch_remnants s
     ∧ offer_ids s' = remaining_ids (watch_remnants s) (offer_ids s)
     ∧ offer_ids s' `sublist_of` offer_ids s
     ∧ (code <$> matched_rows (watch_remnants s) (offer_ids s)) ++ offer_ids s'
       ≡ₚ offer_ids s
     ∧ (NoDup (offer_ids s) ->
        forall x, x ∈ offer_ids s' <->
                  x ∈ offer_ids s ∧ x ∉ (code <$> watch_remnants s)))
  ∧ (forall s, watch_remnants (Seller.create_stocks s).2 = watch_remnants s)
  ∧ (forall warehouse_id date s,
     watch_remnants (Market.create_stocks warehouse_id date s).2 = watch_remnants s).
Proof.
  split; [|split; [|split]].
  - intros s out s'. rewrite seller_create_stocks_eq. apply stocks_with_store.
  - intros wh date s out s'. rewrite market_create_stocks_eq. apply stocks_with_store.
  - intros s. rewrite seller_create_stocks_eq. apply stocks_with_feed_kept.
  - intros wh date s. rewrite market_create_stocks_eq. apply stocks_with_feed_kept.
Qed.

Lemma create_stocks_consumes_offer_ids_witness :
  exists out s',
    Seller.create_stocks sample_store = (Ok out, s')
    ∧ NoDup (offer_ids sample_store)
    ∧ watch_remnants s' = watch_remnants sample_store
    ∧ forall x, x ∈ offer_ids s' <->
                x ∈ offer_ids sample_store ∧ x ∉ (code <$> watch_remnants sample_store).
Proof.
  eexists _, _. split; [vm_compute; reflexivity|].
  assert (NoDup (offer_ids sample_store)) as Hnd.
  { apply (bool_decide_unpack _). vm_compute. exact I. }
  split; [exact Hnd|].
  destruct create_stocks_consumes_offer_ids as [Hs _].
  destruct (Hs sample_store
              [Seller.StockRecord "123" 100; Seller.StockRecord "789" 0;
               Seller.StockRecord "555" 12; Seller.StockRecord "456" 0]
              (Store (watch_remnants sample_store) ["456"]))
    as (Hfeed & _ & _ & _ & Hiff).
  { vm_compute. reflexivity. }
  split; [exact Hfeed|exact (Hiff Hnd)].
Defined.

(** C10 as stated fails when a known id is listed twice: the row with
    code ["123"] is taken and emitted, one occurrence of ["123"] is
    removed, and the other one is still in the caller's list after the
    call. *)
Lemma create_stocks_consumes_offer_ids_counterexample :
  exists out s',
    Seller.create_stocks (Store [row "123" "5" ""] ["123"; "123"]) = (Ok out, s')
    ∧ Seller.StockRecord "123" 5 ∈ take 1 out
    ∧ "123" ∈ (code <$> matched_rows [row "123" "5" ""] ["123"; "123"])
    ∧ "123" ∈ offer_ids s'.
Proof.
  eexists _, _. split; [vm_compute; reflexivity|].
  split; [by left|]. split; [|by left].
  apply (bool_decide_unpack _). vm_compute. exact I.
Qed.

(** ** The loop of [create_prices] *)

Lemma price_loop_run {R} (conv : watch -> result R)
    (body : watch -> list R -> M (list R)) feed acc s :
  (forall w acc s,
     body w acc s
     = if bool_decide (code w ∈ offer_ids s)
       then match conv w with
            | Ok r => (Ok (acc ++ [r]), s)
            | Raise e => (Raise e, s)
            end
       else (Ok acc, s)) ->
  for_each feed body acc s
  = (match collect conv (known_rows feed (offer_ids s)) with
     | Ok rs => Ok (acc ++ rs)
     | Raise e => Raise e
     end, s).
Proof.
  intros Hbody. revert acc. induction feed as [|w feed IH]; intros acc.
  - simpl. unfold ret. by rewrite app_nil_r.
  - cbn [for_each]. unfold bind. rewrite Hbody. unfold known_rows.
    rewrite filter_cons. fold (known_rows feed (offer_ids s)).
    destruct (decide (code w ∈ offer_ids s)) as [Hin|Hin].
    + rewrite bool_decide_eq_true_2 by done. cbn [collect].
      destruct (conv w) as [r|e]; [|done]. rewrite IH.
      destruct (collect conv _) as [rs|e]; [|done]. by rewrite <- app_assoc.
    + rewrite bool_decide_eq_false_2 by done. apply IH.
Qed.

Lemma seller_create_prices_run s :
  Seller.create_prices s
  = (collect seller_price (known_rows (watch_remnants s) (offer_ids s)), s).
Proof.
  unfold Seller.create_prices. unfold bind at 1. unfold get_watch_remnants at 1.
  rewrite (price_loop_run seller_price).
  - by destruct (collect _ _).
  - intros w acc s0. unfold bind at 1. unfold get_offer_ids_list at 1.
    fold (code w). destruct (bool_decide _); [|done].
    unfold bind, lift, seller_price.
    by destruct (Seller.price_conversion _).
Qed.

Lemma market_create_prices_run s :
  Market.create_prices s
  = (collect market_price (known_rows (watch_remnants s) (offer_ids s)), s).
Proof.
  unfold Market.create_prices. unfold bind at 1. unfold get_watch_remnants at 1.
  rewrite (price_loop_run market_price).
  - by destruct (collect _ _).
  - intros w acc s0. unfold bind at 1. unfold get_offer_ids_list at 1.
    fold (code w). destruct (bool_decide _); [|done].
    unfold bind, lift, market_price.
    destruct (Seller.price_conversion _) as [c|e]; [|done].
    by destruct (py_int _).
Qed.

Lemma collect_Ok {R} (conv : watch -> result R) ws rs :
  collect conv ws = Ok rs -> Forall2 (fun w r => conv w = Ok r) ws rs.
Proof.
  revert rs. induction ws as [|w ws IH]; intros rs H; simpl in H.
  - injection H as <-. constructor.
  - destruct (conv w) as [r|e] eqn:Hc; [|done].
    destruct (collect conv ws) as [rs'|e]; [|done].
    injection H as <-. constructor; [done|by apply IH].
Qed.

Lemma collect_progress {R} (conv : watch -> result R) ws :
  Forall (fun w => is_Ok (conv w)) ws -> is_Ok (collect conv ws).
Proof.
  induction 1 as [|w ws Hw _ IH]; simpl; [done|].
  destruct (conv w); [|done]. by destruct (collect conv ws).
Qed.

Lemma known_rows_nil feed ids :
  (forall w, w ∈ feed -> code w ∉ ids) -> known_rows feed ids = [].
Proof.
  intros H. unfold known_rows. induction feed as [|w feed IH]; [done|].
  rewrite filter_cons. destruct (decide _) as [Hin|_].
  - exfalso. eapply H; [by left|done].
  - apply IH. intros v Hv. apply H. by right.
Qed.

(** ** The price normalizer *)

Lemma str_split_head sep s :
  exists ps, str_split sep s
             = (fix trunc (s : string) : string :=
                  match s with
                  | EmptyString => EmptyString
                  | String c s' => if Ascii.eqb c sep then EmptyString
                                   else String c (trunc s')
                  end) s :: ps.
Proof.
  induction s as [|c s [ps IH]]; simpl.
  - by exists [].
  - destruct (Ascii.eqb c sep); [eauto|]. rewrite IH. eauto.
Qed.

Lemma str_split_dot_head s :
  exists ps, str_split "." s = truncate_at_dot s :: ps.
Proof. apply (str_split_head "."). Qed.

Lemma re_sub_non_digits_filter s : re_sub_non_digits s = strip_non_digits s.
Proof.
  unfold strip_non_digits. induction s as [|c s IH]; [done|].
  cbn [re_sub_non_digits list_ascii_of_string]. rewrite filter_cons.
  destruct (is_digit c) eqn:Hd.
  - rewrite decide_True by done. simpl. by rewrite IH.
  - rewrite decide_False by done. exact IH.
Qed.

Lemma price_conversion_text s :
  Seller.price_conversion (VStr s) = Ok (normalize_price s).
Proof.
  unfold Seller.price_conversion, py_index, normalize_price.
  destruct (str_split_dot_head s) as [ps ->]. simpl.
  by rewrite re_sub_non_digits_filter.
Qed.

(** C7.  On every text, [price_conversion] returns (it never raises)
    the text cut at its first ['.'] with every character that is not a
    digit removed; the four sample prices of the specification come out
    as stated. *)
Theorem price_conversion_normalizes :
  (forall s, Seller.price_conversion (VStr s) = Ok (normalize_price s))
  ∧ (forall s, is_Ok (Seller.price_conversion (VStr s)))
  ∧ Seller.price_conversion (VStr "5'990.00 руб.") = Ok "5990"
  ∧ Seller.price_conversion (VStr "1 200.50 руб.") = Ok "1200"
  ∧ Seller.price_conversion (VStr "") = Ok ""
  ∧ Seller.price_conversion (VStr "нет в наличии") = Ok "".
Proof.
  split; [exact price_conversion_text|].
  split; [intros s; by rewrite price_conversion_text|].
  repeat split; vm_compute; reflexivity.
Qed.

(** ** Price reconciliation *)


(** C3 as stated fails for the Yandex.Market integration ([market.py]):
    there the normalized price goes through [int()], and on a matched
    row with an empty price the call raises [ValueError] and returns no
    list. *)
Lemma create_prices_keeps_empty_price_counterexample :
  code (row "123" "5" "") ∈ ["123"]
  ∧ Seller.price_conversion (dict_get (row "123" "5" "") "Цена") = Ok ""
  ∧ (Market.create_prices (Store [row "123" "5" ""] ["123"])).1 = Raise ValueError.
Proof.
  split; [|split].
  - apply (bool_decide_unpack _). vm_compute. exact I.
  - vm_compute. reflexivity.
  - vm_compute. reflexivity.
Qed.

(** C6, as amended.  Whenever [create_prices] returns, its output has
    one record per supplier row whose code is a known offer id, in feed
    order, and nothing else; no record is made up for a known id
    without a row, and when no row carries a known id the call returns
    the empty list.  In the Ozon integration the record carries the
    normalized price as text, the currency code ["RUB"] and two fixed
    fields; in the Yandex.Market integration it carries the normalized
    price read as an integer and the currency id ["RUR"].  For the price
    ["5'990.00 руб."] of offer ["123"] this is the text ["5990"] with
    ["RUB"], and the integer 5990 with ["RUR"]. *)
Theorem create_prices_one_record_per_known_row :
  (forall s out s', Seller.create_prices s = (Ok out, s') ->
     s' = s
     ∧ Forall2 (fun w r => exists p,
                  Seller.price_conversion (dict_get w "Цена") = Ok p
                  ∧ r = Seller.PriceRecord "UNKNOWN" "RUB" (code w) "0" (VStr p))
         (known_rows (watch_remnants s) (offer_ids s)) out)
  ∧ (forall s out s', Market.create_prices s = (Ok out, s') ->
     s' = s
     ∧ Forall2 (fun w r => exists p v,
                  Seller.price_conversion (dict_get w "Цена") = Ok p
                  ∧ py_int (VStr p) = Ok v
                  ∧ r = Market.PriceRecord (code w) (Market.PriceValue v "RUR"))
         (known_rows (watch_remnants s) (offer_ids s)) out)
  ∧ (forall s, (forall w, w ∈ watch_remnants s -> code w ∉ offer_ids s) ->
     Seller.create_prices s = (Ok [], s) ∧ Market.create_prices s = (Ok [], s))
  ∧ (Seller.create_prices (price_example ["123"])).1
    = Ok [Seller.PriceRecord "UNKNOWN" "RUB" "123" "0" (VStr "5990")]
  ∧ (Market.create_prices (price_example ["123"])).1
    = Ok [Market.PriceRecord "123" (Market.PriceValue 5990 "RUR")]
  ∧ (Seller.create_prices (price_example ["456"])).1 = Ok []
  ∧ (Market.create_prices (price_example ["456"])).1 = Ok [].
Proof.
  split; [|split; [|split]].
  - intros s out s'. rewrite seller_create_prices_run. intros [= Hc <-].
    split; [done|]. apply collect_Ok in Hc.
    eapply Forall2_impl; [exact Hc|]. intros w r Hr. unfold seller_price in Hr.
    destruct (Seller.price_conversion _) as [p|e]; [|done].
    injection Hr as <-. eauto.
  - intros s out s'. rewrite market_create_prices_run. intros [= Hc <-].
    split; [done|]. apply collect_Ok in Hc.
    eapply Forall2_impl; [exact Hc|]. intros w r Hr. unfold market_price in Hr.
    destruct (Seller.price_conversion _) as [p|e]; [|done].
    destruct (py_int (VStr p)) as [v|e] eqn:Hv; [|done].
    injection Hr as <-. eauto.
  - intros s H. rewrite seller_create_prices_run, market_create_prices_run.
    by rewrite (known_rows_nil _ _ H).
  - repeat split; vm_compute; reflexivity.
Qed.

Lemma create_prices_one_record_per_known_row_witness :
  exists out s',
    Seller.create_prices sample_store = (Ok out, s')
    ∧ s' = sample_store
    ∧ Seller.pr_offer_id <$> out = ["123"; "789"; "123"; "555"].
Proof.
  eexists _, _. split; [vm_compute; reflexivity|].
  destruct create_prices_one_record_per_known_row as [Hs _].
  split; [|vm_compute; reflexivity].
  refine (proj1 (Hs sample_store _ _ _)).
  vm_compute. reflexivity.
Defined.

(** C6 as stated fails on its own example.  The Ozon record holds the
    price as the text ["5990"], not as the integer 5990; the
    Yandex.Market record holds the integer, with the currency id
    ["RUR"], not ["RUB"]. *)
Lemma create_prices_one_record_per_known_row_counterexample :
  (exists r, (Seller.create_prices (price_example ["123"])).1 = Ok [r]
             ∧ Seller.price r ≠ VInt 5990)
  ∧ (exists r, (Market.create_prices (price_example ["123"])).1 = Ok [r]
               ∧ Market.currencyId (Market.pr_price r) ≠ "RUB").
Proof.
  split.
  - eexists. split; [vm_compute; reflexivity|]. simpl. discriminate.
  - eexists. split; [vm_compute; reflexivity|]. simpl. discriminate.
Qed.

(** ** Running a reconciliation twice *)

Lemma twice_unchanged {A} (m : M A) s a :
  m s = (Ok a, s) -> twice m s = (Ok (a, a), s).
Proof. intros H. unfold twice, bind, ret. by rewrite !H. Qed.

Lemma on_copy_stocks_with {R} (mk : string -> Z -> R) s out s1 :
  stocks_with mk s = (Ok out, s1) ->
  on_copy_of_offer_ids (stocks_with mk) s = (Ok out, s).
Proof.
  intros H. unfold on_copy_of_offer_ids.
  pose proof (stocks_with_feed_kept mk s) as Hfeed. rewrite H in *.
  cbn [snd] in Hfeed. rewrite Hfeed. by destruct s.
Qed.


(** ** The partitioner *)

Section Divide.
Context {A : Type}.
Implicit Types (lst : list A) (n : Z).

Lemma range_length_pos lst n :
  0 < n ->
  let m := Z.to_nat (range_length 0 (Z.of_nat (length lst)) n) in
  (length lst <= m * Z.to_nat n)%nat
  ∧ (forall k, (k < m)%nat -> (k * Z.to_nat n < length lst)%nat)
  ∧ (lst = [] -> m = 0%nat).
Proof.
  intros Hn. unfold range_length.
  rewrite (proj2 (Z.ltb_lt 0 n) Hn).
  destruct (Z.ltb_spec 0 (Z.of_nat (length lst))) as [Hlen|Hlen]; cbv zeta.
  - pose proof (Z.div_mod (Z.of_nat (length lst) - 0 - 1) n ltac:(lia)) as Hdm.
    pose proof (Z.mod_pos_bound (Z.of_nat (length lst) - 0 - 1) n Hn) as Hmod.
    assert (0 <= (Z.of_nat (length lst) - 0 - 1) / n) as Hq
      by (apply Z.div_pos; lia).
    set (q := (Z.of_nat (length lst) - 0 - 1) / n) in *.
    split; [nia|]. split; [intros k Hk; nia|].
    intros ->. simpl in Hlen. lia.
  - split; [simpl; lia|]. split; [intros k Hk; simpl in Hk; lia|done].
Qed.

Lemma py_slice_window lst n (k : nat) :
  0 < n -> (k * Z.to_nat n < length lst)%nat ->
  py_slice lst (0 + (Z.of_nat k + 0) * n) (0 + (Z.of_nat k + 0) * n + n)
  = take (Z.to_nat n) (drop (k * Z.to_nat n) lst).
Proof.
  intros Hn Hk. unfold py_slice, slice_bound.
  assert (0 + (Z.of_nat k + 0) * n = Z.of_nat (k * Z.to_nat n)) as -> by nia.
  rewrite !(proj2 (Z.ltb_ge _ 0)) by lia.
  rewrite Z.min_l by lia. rewrite Nat2Z.id.
  rewrite take_drop_commute.
  destruct (Z.le_ge_cases (Z.of_nat (k * Z.to_nat n) + n) (Z.of_nat (length lst)))
    as [Hle|Hge].
  - rewrite Z.min_l by lia. do 2 f_equal. lia.
  - rewrite Z.min_r by lia. rewrite Nat2Z.id.
    rewrite firstn_all. by rewrite take_ge by lia.
Qed.

Lemma divide_windows lst n :
  0 < n ->
  Seller.divide lst n
  = Ok (window lst (Z.to_nat n)
        <$> seq 0 (Z.to_nat (range_length 0 (Z.of_nat (length lst)) n))).
Proof.
  intros Hn. unfold Seller.divide, py_range.
  rewrite (proj2 (Z.eqb_neq n 0)) by lia. f_equal.
  unfold seqZ. rewrite <- !list_fmap_compose.
  apply list_fmap_ext. intros i k Hk. apply lookup_seq in Hk as [-> Hk]. simpl.
  apply py_slice_window; [done|].
  by apply (range_length_pos lst n Hn).
Qed.

Lemma concat_windows lst (w m : nat) :
  concat (window lst w <$> seq 0 m) = take (m * w) lst.
Proof.
  induction m as [|m IH]; [done|].
  rewrite seq_S, fmap_app, concat_app, IH. simpl. unfold window.
  rewrite app_nil_r, take_take_drop. f_equal. lia.
Qed.
End Divide.

(** C5.  For a chunk size [n > 0], [divide] yields the successive
    windows of width [n] of the list: chunk [k] is the [n] items from
    position [k * n] on, so the chunks are contiguous and do not
    overlap; every chunk but the last has length [n], the last one has
    between 1 and [n] items; the empty list yields no chunk; and the
    chunks put together give the list back. *)
Theorem divide_partitions {A} (lst : list A) (n : Z) :
  0 < n ->
  exists chunks,
    Seller.divide lst n = Ok chunks
    ∧ concat chunks = lst
    ∧ (forall k c, chunks !! k = Some c ->
       c = take (Z.to_nat n) (drop (k * Z.to_nat n) lst)
       ∧ (0 < length c <= Z.to_nat n)%nat
       ∧ ((S k < length chunks)%nat -> length c = Z.to_nat n))
    ∧ (lst = [] -> chunks = []).
Proof.
  intros Hn. eexists. split; [by apply divide_windows|].
  destruct (range_length_pos lst n Hn) as (Hcover & Hin & Hnil).
  set (m := Z.to_nat (range_length 0 (Z.of_nat (length lst)) n)) in *.
  split; [|split].
  - rewrite concat_windows. by apply take_ge.
  - intros k c Hc. rewrite list_lookup_fmap in Hc.
    destruct (seq 0 m !! k) as [k'|] eqn:Hk; [|done].
    apply lookup_seq in Hk as [-> Hk]. simpl in Hc. injection Hc as <-.
    unfold window. split; [done|]. rewrite length_take, length_drop.
    pose proof (Hin k Hk). split; [lia|].
    rewrite length_fmap, length_seq. intros HS.
    pose proof (Hin (S k) HS). lia.
  - intros Hl. by rewrite (Hnil Hl).
Qed.

Lemma divide_partitions_witness :
  0 < 2
  ∧ Seller.divide [1; 2; 3; 4; 5] 2 = Ok [[1; 2]; [3; 4]; [5]]
  ∧ exists chunks,
      Seller.divide [1; 2; 3; 4; 5] 2 = Ok chunks
      ∧ concat chunks = [1; 2; 3; 4; 5].
Proof.
  split; [lia|]. split; [vm_compute; reflexivity|].
  destruct (divide_partitions [1; 2; 3; 4; 5] 2 ltac:(lia)) as (chunks & H1 & H2 & _).
  exists chunks. split; [exact H1|exact H2].
Defined.

(** ** Pagination *)

Section PaginateFacts.
Context {server C P I : Type}.
Variable fetch : C -> server -> result P * server.
Variable items_of : P -> list I.
Variable next : P -> C.
Variable stop : list I -> P -> bool.

Lemma served_S k cursor srv :
  served fetch next (S k) cursor srv
  = match fetch cursor srv with
    | (Ok p, srv') =>
        match served fetch next k (next p) srv' with
        | Some (ps, srv'') => Some (p :: ps, srv'')
        | None => None
        end
    | (Raise _, _) => None
    end.
Proof. reflexivity. Qed.

Lemma served_take k j cursor srv ps srv' :
  served fetch next k cursor srv = Some (ps, srv') -> (j <= k)%nat ->
  exists srv1, served fetch next j cursor srv = Some (take j ps, srv1).
Proof.
  revert j cursor srv ps srv'.
  induction k as [|k IH]; intros j cursor srv ps srv' H Hj.
  - assert (j = 0%nat) as -> by lia. simpl. eauto.
  - destruct j as [|j]; [simpl; eauto|].
    simpl in H |- *. destruct (fetch cursor srv) as [[p|e] srv0]; [|done].
    destruct (served fetch next k (next p) srv0) as [[ps0 srv2]|] eqn:Hs; [|done].
    injection H as <- <-.
    destruct (IH j _ _ _ _ Hs ltac:(lia)) as [srv1 ->]. simpl. eauto.
Qed.

(** Once some served page signals the end, the loop stops at the
    first page that does, whatever fuel is left beyond that. *)
Lemma paginate_stops k cursor acc srv ps srv' :
  served fetch next (S k) cursor srv = Some (ps, srv') ->
  signals items_of stop acc ps k ->
  exists j srv1,
    (j <= k)%nat
    ∧ signals items_of stop acc ps j
    ∧ (forall i, (i < j)%nat -> ¬ signals items_of stop acc ps i)
    ∧ served fetch next (S j) cursor srv = Some (take (S j) ps, srv1)
    ∧ forall fuel, (j < fuel)%nat ->
        paginate fetch items_of next stop fuel cursor acc srv
        = Some (Ok (acc ++ concat (items_of <$> take (S j) ps)), srv1).
Proof.
  revert cursor acc srv ps srv'.
  induction k as [|k IH]; intros cursor acc srv ps srv' H Hsig.
  - simpl in H. destruct (fetch cursor srv) as [[p|e] srv0] eqn:Hf; [|done].
    injection H as <- <-.
    destruct Hsig as (p' & [= <-] & Hstop). simpl in Hstop.
    rewrite app_nil_r in Hstop.
    exists 0%nat, srv0. split; [lia|]. split.
    { exists p. split; [done|]. simpl. by rewrite (app_nil_r (items_of p)). }
    split; [intros; lia|]. split.
    { simpl. by rewrite Hf. }
    intros [|fuel] Hfu; [lia|]. simpl. rewrite Hf, Hstop. by rewrite (app_nil_r (items_of p)).
  - rewrite served_S in H.
    destruct (fetch cursor srv) as [[p|e] srv0] eqn:Hf; [|done].
    destruct (served fetch next (S k) (next p) srv0) as [[ps0 srv2]|] eqn:Hs; [|done].
    injection H as <- <-.
    destruct (stop (acc ++ items_of p) p) eqn:Hstop.
    + exists 0%nat, srv0. split; [lia|]. split.
      { exists p. split; [done|]. simpl. by rewrite (app_nil_r (items_of p)). }
      split; [intros; lia|]. split.
      { cbn [served]. by rewrite Hf. }
      intros [|fuel] Hfu; [lia|]. simpl. rewrite Hf, Hstop. by rewrite (app_nil_r (items_of p)).
    + assert (signals items_of stop (acc ++ items_of p) ps0 k) as Hsig0.
      { destruct Hsig as (q & Hq & Hst). exists q. split; [done|].
        cbn [take fmap list_fmap concat] in Hst. by rewrite <- app_assoc. }
      destruct (IH _ _ _ _ _ Hs Hsig0) as (j & srv1 & Hj & Hsj & Hfirst & Hserved & Hrun).
      exists (S j), srv1. split; [lia|]. split.
      { destruct Hsj as (q & Hq & Hst). exists q. split; [done|].
        cbn [take fmap list_fmap concat]. by rewrite app_assoc. }
      split.
      { intros [|i] Hi (q & Hq & Hst).
        - injection Hq as <-. simpl in Hst. rewrite app_nil_r in Hst. congruence.
        - apply (Hfirst i ltac:(lia)). exists q. split; [done|].
          cbn [take fmap list_fmap concat] in Hst. by rewrite <- app_assoc. }
      split.
      { rewrite served_S. by rewrite Hf, Hserved. }
      intros [|fuel] Hfu; [lia|]. cbn [paginate]. rewrite Hf, Hstop.
      rewrite (Hrun fuel ltac:(lia)).
      cbn [take fmap list_fmap concat]. by rewrite app_assoc.
Qed.
End PaginateFacts.

Lemma seller_fetch_all_paginate {server}
    (get_product_list : string -> server -> result Seller.page * server)
    fuel last_id product_list srv :
  Seller.fetch_all get_product_list fuel last_id product_list srv
  = paginate get_product_list Seller.items Seller.last_id seller_stop
             fuel last_id product_list srv.
Proof.
  revert last_id product_list srv.
  induction fuel as [|fuel IH]; intros last_id product_list srv; [done|].
  simpl. destruct (get_product_list last_id srv) as [[p|e] srv']; [|done].
  unfold seller_stop. by rewrite IH.
Qed.

Lemma market_fetch_all_paginate {server}
    (get_product_list : pyval -> server -> result Market.page * server)
    fuel page product_list srv :
  Market.fetch_all get_product_list fuel page product_list srv
  = paginate get_product_list Market.offerMappingEntries Market.nextPageToken
             market_stop fuel page product_list srv.
Proof.
  revert page product_list srv.
  induction fuel as [|fuel IH]; intros page product_list srv; [done|].
  simpl. destruct (get_product_list page srv) as [[p|e] srv']; [|done].
  unfold market_stop. by rewrite IH.
Qed.

Lemma served_length {server C P : Type}
    (fetch : C -> server -> result P * server) (next : P -> C) k cursor srv ps srv' :
  served fetch next k cursor srv = Some (ps, srv') -> length ps = k.
Proof.
  revert cursor srv ps srv'. induction k as [|k IH]; intros cursor srv ps srv' H.
  - by injection H as <- _.
  - rewrite served_S in H. destruct (fetch cursor srv) as [[p|e] srv0]; [|done].
    destruct (served fetch next k (next p) srv0) as [[ps0 srv2]|] eqn:Hs; [|done].
    injection H as <- _. simpl. f_equal. by eapply IH.
Qed.

(** C9.  Take any marketplace, with any state of its own, and follow
    the pages it serves when each answer's cursor is sent back.  If some
    page signals the end (for Ozon: its [total] equals the number of
    items received so far; for Yandex.Market: its next-page token is
    absent or empty), then [get_offer_ids] stops at the first page [j]
    that does, whatever [j] is: with any fuel above [j] it returns the
    offer ids of pages [0..j], page after page in the order fetched. *)
Theorem get_offer_ids_terminates :
  (forall (server : Type)
          (get_product_list : string -> server -> result Seller.page * server)
          (srv : server) (k : nat) ps srv',
     served get_product_list Seller.last_id (S k) "" srv = Some (ps, srv') ->
     (exists p, ps !! k = Some p
                ∧ Seller.total p = Z.of_nat (length (concat (Seller.items <$> ps)))) ->
     exists j srv1,
       (j <= k)%nat
       ∧ signals Seller.items seller_stop [] ps j
       ∧ (forall i, (i < j)%nat -> ¬ signals Seller.items seller_stop [] ps i)
       ∧ served get_product_list Seller.last_id (S j) "" srv = Some (take (S j) ps, srv1)
       ∧ forall fuel, (j < fuel)%nat ->
           Seller.get_offer_ids get_product_list fuel srv
           = Some (Ok (Seller.p_offer_id <$> concat (Seller.items <$> take (S j) ps)),
                   srv1))
  ∧ (forall (server : Type)
            (get_product_list : pyval -> server -> result Market.page * server)
            (srv : server) (k : nat) ps srv',
     served get_product_list Market.nextPageToken (S k) (VStr "") srv = Some (ps, srv') ->
     (exists p, ps !! k = Some p ∧ py_truthy (Market.nextPageToken p) = false) ->
     exists j srv1,
       (j <= k)%nat
       ∧ signals Market.offerMappingEntries market_stop [] ps j
       ∧ (forall i, (i < j)%nat ->
          ¬ signals Market.offerMappingEntries market_stop [] ps i)
       ∧ served get_product_list Market.nextPageToken (S j) (VStr "") srv
         = Some (take (S j) ps, srv1)
       ∧ forall fuel, (j < fuel)%nat ->
           Market.get_offer_ids get_product_list fuel srv
           = Some (Ok ((fun product => Market.shopSku (Market.e_offer product))
                       <$> concat (Market.offerMappingEntries <$> take (S j) ps)),
                   srv1)).
Proof.
  split.
  - intros server gpl srv k ps srv' Hserved (p & Hp & Htotal).
    assert (signals Seller.items seller_stop [] ps k) as Hsig.
    { exists p. split; [done|]. unfold seller_stop. simpl.
      rewrite take_ge by (rewrite (served_length _ _ _ _ _ _ _ Hserved); lia).
      by apply Z.eqb_eq. }
    destruct (paginate_stops gpl Seller.items Seller.last_id seller_stop
                k "" [] srv ps srv' Hserved Hsig)
      as (j & srv1 & Hj & Hsj & Hfirst & Hsv & Hrun).
    exists j, srv1. repeat (split; [done|]).
    intros fuel Hfuel. unfold Seller.get_offer_ids.
    rewrite seller_fetch_all_paginate, (Hrun fuel Hfuel). done.
  - intros server gpl srv k ps srv' Hserved (p & Hp & Htoken).
    assert (signals Market.offerMappingEntries market_stop [] ps k) as Hsig.
    { exists p. split; [done|]. unfold market_stop. by rewrite Htoken. }
    destruct (paginate_stops gpl Market.offerMappingEntries Market.nextPageToken
                market_stop k (VStr "") [] srv ps srv' Hserved Hsig)
      as (j & srv1 & Hj & Hsj & Hfirst & Hsv & Hrun).
    exists j, srv1. repeat (split; [done|]).
    intros fuel Hfuel. unfold Market.get_offer_ids.
    rewrite market_fetch_all_paginate, (Hrun fuel Hfuel). done.
Qed.

Lemma get_offer_ids_terminates_witness :
  served sample_ozon Seller.last_id 2 "" 0%nat
  = Some ([Seller.Page [Seller.Product "123"; Seller.Product "456"] 3 "456";
           Seller.Page [Seller.Product "789"] 3 ""], 2%nat)
  ∧ Seller.get_offer_ids sample_ozon 5 0%nat = Some (Ok ["123"; "456"; "789"], 2%nat)
  ∧ Market.get_offer_ids sample_yandex 5 0%nat = Some (Ok ["123"; "456"; "789"], 2%nat)
  ∧ exists j srv1 ids,
      forall fuel, (j < fuel)%nat ->
        Seller.get_offer_ids sample_ozon fuel 0%nat = Some (Ok ids, srv1).
Proof.
  split; [vm_compute; reflexivity|].
  split; [vm_compute; reflexivity|].
  split; [vm_compute; reflexivity|].
  destruct get_offer_ids_terminates as [Hs _].
  destruct (Hs nat sample_ozon 0%nat 1%nat
              [Seller.Page [Seller.Product "123"; Seller.Product "456"] 3 "456";
               Seller.Page [Seller.Product "789"] 3 ""] 2%nat)
    as (j & srv1 & _ & _ & _ & _ & Hrun).
  { vm_compute. reflexivity. }
  { eexists. split; [reflexivity|]. vm_compute. reflexivity. }
  exists j, srv1. eexists. exact Hrun.
Defined.


(** * Properties beyond the claims *)

(** ** [divide] with other chunk sizes, and the number of chunks *)

(** X1.  A chunk size of zero makes [divide] raise [ValueError]; with a
    negative chunk size it yields no chunk at all, whatever the list
    holds. *)
Theorem divide_nonpositive_size {A} (lst : list A) (n : Z) :
  n <= 0 ->
  Seller.divide lst n = if (n =? 0)%Z then Raise ValueError else Ok [].
Proof.
  intros Hn. unfold Seller.divide, py_range.
  destruct (Z.eqb_spec n 0) as [->|Hne]; [done|].
  unfold range_length.
  rewrite (proj2 (Z.ltb_ge 0 n)) by lia.
  rewrite (proj2 (Z.ltb_ge (Z.of_nat (length lst)) 0)) by lia.
  done.
Qed.

Lemma divide_nonpositive_size_witness :
  -2 <= 0 ∧ Seller.divide [1; 2; 3] (-2) = Ok [] ∧ Seller.divide [1; 2; 3] 0 = Raise ValueError.
Proof.
  split; [lia|]. split.
  - exact (divide_nonpositive_size [1; 2; 3] (-2) ltac:(lia)).
  - exact (divide_nonpositive_size [1; 2; 3] 0 ltac:(lia)).
Defined.

Lemma range_length_ceil (len n : Z) :
  0 <= len -> 0 < n -> range_length 0 len n = (len + n - 1) / n.
Proof.
  intros Hlen Hn. unfold range_length. rewrite (proj2 (Z.ltb_lt 0 n) Hn).
  destruct (Z.ltb_spec 0 len) as [Hpos|Hzero].
  - replace (len + n - 1) with (len - 0 - 1 + 1 * n) by lia.
    by rewrite Z.div_add by lia.
  - assert (len = 0) as -> by lia. symmetry. apply Z.div_small. lia.
Qed.

(** X2.  For a chunk size [n > 0], a list of [len] items is cut into
    [ceil(len / n)] chunks, and chunk [k] holds [min n (len - k * n)]
    items. *)
Theorem divide_chunk_count {A} (lst : list A) (n : Z) :
  0 < n ->
  exists chunks,
    Seller.divide lst n = Ok chunks
    ∧ Z.of_nat (length chunks) = (Z.of_nat (length lst) + n - 1) / n
    ∧ forall k c, chunks !! k = Some c ->
        Z.of_nat (length c) = Z.min n (Z.of_nat (length lst) - Z.of_nat k * n).
Proof.
  intros Hn. eexists. split; [by apply divide_windows|].
  destruct (range_length_pos lst n Hn) as (_ & Hin & _).
  split.
  - rewrite length_fmap, length_seq.
    rewrite <- (range_length_ceil (Z.of_nat (length lst)) n) by lia.
    rewrite Z2Nat.id; [done|].
    rewrite range_length_ceil by lia. apply Z.div_pos; lia.
  - intros k c Hc. rewrite list_lookup_fmap in Hc.
    destruct (seq 0 _ !! k) as [k'|] eqn:Hk; [|done].
    apply lookup_seq in Hk as [-> Hk]. simpl in Hc. injection Hc as <-.
    unfold window. rewrite length_take, length_drop.
    pose proof (Hin k Hk). nia.
Qed.

Lemma divide_chunk_count_witness :
  0 < 2000
  ∧ exists chunks,
      Seller.divide (replicate 2500 tt) 2000 = Ok chunks
      ∧ length <$> chunks = [2000%nat; 500%nat].
Proof.
  split; [lia|].
  destruct (divide_chunk_count (replicate 2500 tt) 2000 ltac:(lia)) as (chunks & H & _).
  exists chunks. split; [exact H|].
  assert (Ok chunks = Ok ((fun i => py_slice (replicate 2500 tt) i (i + 2000)) <$> [0; 2000]))
    as Heq by (rewrite <- H; vm_compute; reflexivity).
  injection Heq as ->. vm_compute. reflexivity.
Defined.

(** ** What [price_conversion] returns *)

Lemma re_sub_non_digits_all_digits s : all_digits (re_sub_non_digits s).
Proof.
  unfold all_digits. induction s as [|c s IH]; simpl; [constructor|].
  destruct (is_digit c) eqn:Hd; [|done]. simpl. by constructor.
Qed.

Lemma re_sub_non_digits_length s :
  (String.length (re_sub_non_digits s) <= String.length s)%nat.
Proof.
  induction s as [|c s IH]; simpl; [lia|].
  destruct (is_digit c); simpl; lia.
Qed.

Lemma truncate_at_dot_length s :
  (String.length (truncate_at_dot s) <= String.length s)%nat.
Proof.
  induction s as [|c s IH]; simpl; [lia|].
  destruct (Ascii.eqb c "."); simpl; lia.
Qed.

Lemma all_digits_fixed d :
  all_digits d -> truncate_at_dot d = d ∧ re_sub_non_digits d = d.
Proof.
  unfold all_digits. induction d as [|c d IH]; simpl; [done|].
  intros H. apply Forall_cons in H as [Hc Hd]. destruct (IH Hd) as [-> ->].
  rewrite Hc. split; [|done].
  destruct (Ascii.eqb_spec c ".") as [->|_]; [|done].
  vm_compute in Hc. discriminate.
Qed.

Lemma price_conversion_truncates s :
  Seller.price_conversion (VStr s) = Ok (re_sub_non_digits (truncate_at_dot s)).
Proof.
  unfold Seller.price_conversion, py_index.
  by destruct (str_split_dot_head s) as [ps ->].
Qed.

(** X3.  On text, [price_conversion] returns a text of decimal digits
    only, no longer than its input, and converting that result again
    changes nothing; on anything that is not text (an absent cell, a
    number) it raises [AttributeError]. *)
Theorem price_conversion_digits_only :
  (forall s, exists d,
     Seller.price_conversion (VStr s) = Ok d
     ∧ all_digits d
     ∧ (String.length d <= String.length s)%nat
     ∧ Seller.price_conversion (VStr d) = Ok d)
  ∧ Seller.price_conversion VNone = Raise AttributeError
  ∧ (forall z, Seller.price_conversion (VInt z) = Raise AttributeError).
Proof.
  split; [|done]. intros s. eexists. split; [apply price_conversion_truncates|].
  pose proof (re_sub_non_digits_all_digits (truncate_at_dot s)) as Hd.
  split; [done|]. split.
  - etrans; [apply re_sub_non_digits_length|apply truncate_at_dot_length].
  - rewrite price_conversion_truncates.
    destruct (all_digits_fixed _ Hd) as [-> ->]. done.
Qed.

(** ** [int()] on a text of digits *)

Lemma digit_not_space c : is_digit c = true -> is_space c = false.
Proof.
  unfold is_digit, is_space. cbv zeta. intros H.
  apply andb_true_iff in H as [H1 H2].
  apply Nat.leb_le in H1. apply Nat.leb_le in H2.
  apply orb_false_iff. split.
  - apply andb_false_iff. right. apply Nat.leb_gt. lia.
  - apply Nat.eqb_neq. lia.
Qed.

Lemma lstrip_digits l : Forall (fun c => is_digit c = true) l -> lstrip l = l.
Proof.
  intros H. destruct H as [|c l Hc _]; [done|].
  simpl. by rewrite (digit_not_space c Hc).
Qed.

Lemma strip_digits l : Forall (fun c => is_digit c = true) l -> strip l = l.
Proof.
  intros H. unfold strip. rewrite (lstrip_digits l H).
  rewrite lstrip_digits by (by apply Forall_rev).
  apply rev_involutive.
Qed.

Lemma digits_value_digits l acc pending :
  Forall (fun c => is_digit c = true) l ->
  l ≠ [] ∨ pending = false ->
  digits_value acc pending l = Some (foldl (fun a c => 10 * a + digit_value c) acc l).
Proof.
  intros H. revert acc pending. induction H as [|c l Hc _ IH]; intros acc pending Hne.
  - destruct Hne as [? | ->]; done.
  - simpl. rewrite Hc. apply IH. by right.
Qed.

Lemma digit_value_range c : is_digit c = true -> 0 <= digit_value c <= 9.
Proof.
  unfold is_digit, digit_value. cbv zeta. intros H.
  apply andb_true_iff in H as [H1 H2].
  apply Nat.leb_le in H1. apply Nat.leb_le in H2. lia.
Qed.

Lemma foldl_digits_nonneg l acc :
  Forall (fun c => is_digit c = true) l -> 0 <= acc ->
  0 <= foldl (fun a c => 10 * a + digit_value c) acc l.
Proof.
  intros H. revert acc. induction H as [|c l Hc _ IH]; intros acc Hacc; [done|].
  simpl. apply IH. pose proof (digit_value_range c Hc). lia.
Qed.

Lemma digits_ascii_text l :
  Forall (fun c => is_digit c = true) l -> is_ascii_text l = true.
Proof.
  intros H. unfold is_ascii_text. apply forallb_forall. intros c Hc.
  rewrite Forall_forall in H. apply list_elem_of_In in Hc. specialize (H c Hc).
  unfold is_digit in H. cbv zeta in H. apply andb_true_iff in H as [_ H2].
  apply Nat.leb_le in H2. apply N.ltb_lt.
  unfold nat_of_ascii in H2. lia.
Qed.

Lemma py_int_digits d :
  all_digits d ->
  py_int (VStr d) = if String.eqb d "" then Raise ValueError else Ok (decimal_value d).
Proof.
  unfold all_digits, py_int, int_of_text, long_from_ascii, decimal_value. intros H.
  cbv zeta. rewrite (digits_ascii_text _ H), (strip_digits _ H).
  destruct d as [|c d]; [done|]. simpl in *.
  apply Forall_cons in H as [Hc Hd].
  destruct (Ascii.eqb_spec c "-") as [->|_]; [vm_compute in Hc; discriminate|].
  destruct (Ascii.eqb_spec c "+") as [->|_]; [vm_compute in Hc; discriminate|].
  rewrite Hc. rewrite digits_value_digits by (done || by right). done.
Qed.

(** ** When [create_prices] returns *)

Lemma collect_is_Ok {R} (conv : watch -> result R) ws :
  is_Ok (collect conv ws) <-> Forall (fun w => is_Ok (conv w)) ws.
Proof.
  split; [|apply collect_progress].
  induction ws as [|w ws IH]; simpl; [constructor|].
  destruct (conv w) as [r|e] eqn:Hc; [|done].
  destruct (collect conv ws) as [rs|e]; [|done].
  intros _. constructor; [by rewrite Hc|by apply IH].
Qed.

Lemma collect_Raise {R} (conv : watch -> result R) ws e :
  collect conv ws = Raise e -> exists w, w ∈ ws ∧ conv w = Raise e.
Proof.
  induction ws as [|w ws IH]; simpl; [done|].
  destruct (conv w) as [r|e'] eqn:Hc.
  - destruct (collect conv ws) as [rs|e']; [done|].
    intros [= ->]. destruct (IH eq_refl) as (v & Hv & Hve).
    exists v. split; [by right|done].
  - intros [= ->]. exists w. split; [by left|done].
Qed.

Lemma known_rows_elem feed ids w :
  w ∈ known_rows feed ids <-> w ∈ feed ∧ code w ∈ ids.
Proof. unfold known_rows. rewrite list_elem_of_filter. tauto. Qed.

Lemma normalize_price_digits t : all_digits (normalize_price t).
Proof.
  unfold normalize_price. rewrite <- re_sub_non_digits_filter.
  apply re_sub_non_digits_all_digits.
Qed.

Lemma seller_price_is_Ok w :
  is_Ok (seller_price w) <-> exists t, dict_get w "Цена" = VStr t.
Proof.
  unfold seller_price. destruct (dict_get w "Цена") as [|t|z].
  - simpl. split; [done|]. by intros [t ?].
  - rewrite price_conversion_text. simpl. split; [eauto|done].
  - simpl. split; [done|]. by intros [t ?].
Qed.

Lemma market_price_cases w :
  match dict_get w "Цена" with
  | VStr t =>
      market_price w
      = if String.eqb (normalize_price t) "" then Raise ValueError
        else Ok (Market.PriceRecord (code w)
                   (Market.PriceValue (decimal_value (normalize_price t)) "RUR"))
  | _ => market_price w = Raise AttributeError
  end.
Proof.
  unfold market_price. destruct (dict_get w "Цена") as [|t|z]; [done| |done].
  rewrite price_conversion_text, (py_int_digits _ (normalize_price_digits t)).
  by destruct (String.eqb _ "").
Qed.

(** X4.  In [seller.py], [create_prices] returns exactly when the price
    cell of every row with a known code is text.  A row with a known
    code whose price cell is absent or a number makes the whole call
    raise [AttributeError]; the caller's lists are as before. *)
Theorem seller_create_prices_returns_iff s :
  (is_Ok (Seller.create_prices s).1 <->
   forall w, w ∈ watch_remnants s -> code w ∈ offer_ids s ->
             exists t, dict_get w "Цена" = VStr t)
  ∧ (forall e s', Seller.create_prices s = (Raise e, s') ->
       e = AttributeError ∧ s' = s).
Proof.
  rewrite seller_create_prices_run. cbn [fst]. split.
  - rewrite collect_is_Ok, Forall_forall. split.
    + intros H w Hw Hin. apply seller_price_is_Ok, H, known_rows_elem. done.
    + intros H w Hw. apply known_rows_elem in Hw as [Hw Hin].
      apply seller_price_is_Ok. eauto.
  - intros e s' [= Hc <-]. split; [|done].
    apply collect_Raise in Hc as (w & _ & Hw). unfold seller_price in Hw.
    destruct (dict_get w "Цена") as [|t|z].
    + simpl in Hw. by injection Hw.
    + by rewrite price_conversion_text in Hw.
    + simpl in Hw. by injection Hw.
Qed.

(** X5.  In [market.py], [create_prices] returns exactly when the price
    cell of every row with a known code is text with at least one digit
    before its first ['.'].  Every record it returns carries the number
    those digits write, which is never negative, and the currency id
    ["RUR"].  When it raises, the exception is [AttributeError] (a price
    cell that is not text) or [ValueError] (no digit), and the caller's
    lists are as before. *)
Theorem market_create_prices_returns_iff s :
  (is_Ok (Market.create_prices s).1 <->
   forall w, w ∈ watch_remnants s -> code w ∈ offer_ids s ->
             exists t, dict_get w "Цена" = VStr t ∧ normalize_price t ≠ "")
  ∧ (forall out s', Market.create_prices s = (Ok out, s') ->
       Forall2 (fun w r => exists t,
                  dict_get w "Цена" = VStr t
                  ∧ r = Market.PriceRecord (code w)
                          (Market.PriceValue (decimal_value (normalize_price t)) "RUR")
                  ∧ 0 <= Market.value (Market.pr_price r))
         (known_rows (watch_remnants s) (offer_ids s)) out)
  ∧ (forall e s', Market.create_prices s = (Raise e, s') ->
       (e = AttributeError ∨ e = ValueError) ∧ s' = s).
Proof.
  rewrite market_create_prices_run. cbn [fst]. split; [|split].
  - rewrite collect_is_Ok, Forall_forall.
    assert (forall w, is_Ok (market_price w) <->
                      exists t, dict_get w "Цена" = VStr t ∧ normalize_price t ≠ "") as Hiff.
    { intros w. pose proof (market_price_cases w) as Hm.
      destruct (dict_get w "Цена") as [|t|z].
      - rewrite Hm. split; [done|]. by intros (t & ? & _).
      - rewrite Hm. destruct (String.eqb_spec (normalize_price t) "") as [E|N].
        + split; [done|]. intros (t' & [= <-] & Hn). done.
        + split; [eauto|done].
      - rewrite Hm. split; [done|]. by intros (t & ? & _). }
    split.
    + intros H w Hw Hin. apply Hiff, H, known_rows_elem. done.
    + intros H w Hw. apply known_rows_elem in Hw as [Hw Hin]. apply Hiff. eauto.
  - intros out s' [= Hc _]. apply collect_Ok in Hc.
    eapply Forall2_impl; [exact Hc|]. intros w r Hr. cbv beta in Hr.
    pose proof (market_price_cases w) as Hm.
    destruct (dict_get w "Цена") as [|t|z]; [congruence| |congruence].
    rewrite Hm in Hr. destruct (String.eqb _ ""); [done|]. injection Hr as <-.
    exists t. split; [done|]. split; [done|]. simpl.
    unfold decimal_value. apply foldl_digits_nonneg; [|lia].
    apply normalize_price_digits.
  - intros e s' [= Hc <-]. split; [|done].
    apply collect_Raise in Hc as (w & _ & Hw).
    pose proof (market_price_cases w) as Hm.
    destruct (dict_get w "Цена") as [|t|z].
    + left. congruence.
    + rewrite Hm in Hw. destruct (String.eqb _ ""); [|done]. right. congruence.
    + left. congruence.
Qed.

Lemma seller_create_prices_returns_iff_witness :
  is_Ok (Seller.create_prices sample_store).1
  ∧ forall w, w ∈ watch_remnants sample_store -> code w ∈ offer_ids sample_store ->
              exists t, dict_get w "Цена" = VStr t.
Proof.
  assert (is_Ok (Seller.create_prices sample_store).1) as H by (vm_compute; exact I).
  split; [exact H|].
  exact (proj1 (proj1 (seller_create_prices_returns_iff sample_store)) H).
Defined.

Lemma market_create_prices_returns_iff_witness :
  Market.create_prices sample_store = (Raise ValueError, sample_store)
  ∧ is_Ok (Market.create_prices (price_example ["123"])).1
  ∧ forall w, w ∈ watch_remnants (price_example ["123"]) ->
              code w ∈ offer_ids (price_example ["123"]) ->
              exists t, dict_get w "Цена" = VStr t ∧ normalize_price t ≠ "".
Proof.
  split; [vm_compute; reflexivity|].
  assert (is_Ok (Market.create_prices (price_example ["123"])).1) as H
    by (vm_compute; exact I).
  split; [exact H|].
  exact (proj1 (proj1 (market_create_prices_returns_iff (price_example ["123"]))) H).
Defined.

(** ** [create_stocks] when a quantity does not convert *)

Lemma quantity_Raise w e :
  quantity w = Raise e ->
  (e = TypeError ∧ dict_get w "Количество" = VNone)
  ∨ (e = ValueError ∧ exists t, dict_get w "Количество" = VStr t
                               ∧ t ≠ ">10" ∧ t ≠ "1" ∧ int_of_text t = None).
Proof.
  unfold quantity. cbv zeta.
  destruct (String.eqb_spec (py_str (dict_get w "Количество")) ">10") as [|N1]; [done|].
  destruct (String.eqb_spec (py_str (dict_get w "Количество")) "1") as [|N2]; [done|].
  destruct (dict_get w "Количество") as [|t|z]; simpl in *.
  - intros [= <-]. by left.
  - destruct (int_of_text t) eqn:Ht; [done|]. intros [= <-]. right. eauto 10.
  - done.
Qed.

Lemma reconcile_Raise feed ids e ids' :
  reconcile feed ids = (Raise e, ids') ->
  exists pre w post,
    feed = pre ++ w :: post
    ∧ ids' = remaining_ids pre ids
    ∧ code w ∈ ids'
    ∧ quantity w = Raise e
    ∧ Forall (fun v => is_Ok (quantity v)) (matched_rows pre ids).
Proof.
  revert ids. induction feed as [|w feed IH]; intros ids H; simpl in H; [done|].
  destruct (bool_decide (code w ∈ ids)) eqn:Hin.
  - apply bool_decide_eq_true in Hin.
    destruct (quantity w) as [q|e'] eqn:Hq.
    + destruct (list_remove_is_Some _ _ Hin) as [ids1 Hrm]. rewrite Hrm in H.
      destruct (reconcile feed ids1) as [[qs|e'] ids1'] eqn:Hr; [done|].
      injection H as -> ->.
      destruct (IH _ Hr) as (pre & v & post & -> & -> & Hv & Hqv & HF).
      exists (w :: pre), v, post. simpl.
      rewrite bool_decide_eq_true_2 by done. rewrite Hrm. simpl.
      repeat (split; [done|]). constructor; [by rewrite Hq|done].
    + injection H as -> ->. exists [], w, feed. simpl.
      repeat (split; [done|]). constructor.
  - apply bool_decide_eq_false in Hin.
    destruct (IH _ H) as (pre & v & post & -> & -> & Hv & Hqv & HF).
    exists (w :: pre), v, post. simpl.
    rewrite bool_decide_eq_false_2 by done. done.
Qed.

Lemma stocks_with_Raise {R} (mk : string -> Z -> R) s e s' :
  stocks_with mk s = (Raise e, s') ->
  watch_remnants s' = watch_remnants s
  ∧ exists pre w post,
      watch_remnants s = pre ++ w :: post
      ∧ offer_ids s' = remaining_ids pre (offer_ids s)
      ∧ offer_ids s' `sublist_of` offer_ids s
      ∧ code w ∈ offer_ids s'
      ∧ ((e = TypeError ∧ dict_get w "Количество" = VNone)
         ∨ (e = ValueError ∧ exists t, dict_get w "Количество" = VStr t
                                      ∧ t ≠ ">10" ∧ t ≠ "1" ∧ int_of_text t = None)).
Proof.
  rewrite stocks_with_run.
  destruct (reconcile _ _) as [[qs|e'] ids'] eqn:Hr; [done|].
  intros [= -> <-]. split; [done|].
  destruct (reconcile_Raise _ _ _ _ Hr) as (pre & w & post & Hfeed & -> & Hw & Hq & _).
  exists pre, w, post. cbn [offer_ids].
  split; [done|]. split; [done|]. split; [apply remaining_ids_sublist|].
  split; [done|]. by apply quantity_Raise.
Qed.

(** X6.  When [create_stocks] raises, it is because of one supplier row
    whose code was in the working list at its turn and whose quantity is
    absent ([TypeError]) or is text that is neither a token nor a number
    ([ValueError]).  By then the caller's list of offer ids has lost the
    ids of the rows taken before that row and nothing else (the id of
    the failing row is still in it); the supplier feed is as before.
    This holds for both integrations. *)
Theorem create_stocks_raise_leaves_partial_list :
  (forall s e s', Seller.create_stocks s = (Raise e, s') ->
     watch_remnants s' = watch_remnants s
     ∧ exists pre w post,
         watch_remnants s = pre ++ w :: post
         ∧ offer_ids s' = remaining_ids pre (offer_ids s)
         ∧ offer_ids s' `sublist_of` offer_ids s
         ∧ code w ∈ offer_ids s'
         ∧ ((e = TypeError ∧ dict_get w "Количество" = VNone)
            ∨ (e = ValueError ∧ exists t, dict_get w "Количество" = VStr t
                                         ∧ t ≠ ">10" ∧ t ≠ "1" ∧ int_of_text t = None)))
  ∧ (forall warehouse_id date s e s',
     Market.create_stocks warehouse_id date s = (Raise e, s') ->
     watch_remnants s' = watch_remnants s
     ∧ exists pre w post,
         watch_remnants s = pre ++ w :: post
         ∧ offer_ids s' = remaining_ids pre (offer_ids s)
         ∧ offer_ids s' `sublist_of` offer_ids s
         ∧ code w ∈ offer_ids s'
         ∧ ((e = TypeError ∧ dict_get w "Количество" = VNone)
            ∨ (e = ValueError ∧ exists t, dict_get w "Количество" = VStr t
                                         ∧ t ≠ ">10" ∧ t ≠ "1" ∧ int_of_text t = None))).
Proof.
  split.
  - intros s e s'. rewrite seller_create_stocks_eq. apply stocks_with_Raise.
  - intros wh date s e s'. rewrite market_create_stocks_eq. apply stocks_with_Raise.
Qed.

Lemma create_stocks_raise_leaves_partial_list_witness :
  Seller.create_stocks
    (Store [row "123" "5" ""; row "456" "n/a" ""; row "789" "2" ""] ["789"; "456"; "123"])
  = (Raise ValueError,
     Store [row "123" "5" ""; row "456" "n/a" ""; row "789" "2" ""] ["789"; "456"])
  ∧ exists pre w post,
      [row "123" "5" ""; row "456" "n/a" ""; row "789" "2" ""] = pre ++ w :: post
      ∧ code w ∈ ["789"; "456"].
Proof.
  assert (Seller.create_stocks
            (Store [row "123" "5" ""; row "456" "n/a" ""; row "789" "2" ""]
                   ["789"; "456"; "123"])
          = (Raise ValueError,
             Store [row "123" "5" ""; row "456" "n/a" ""; row "789" "2" ""]
                   ["789"; "456"])) as H by (vm_compute; reflexivity).
  split; [exact H|].
  destruct (proj1 create_stocks_raise_leaves_partial_list _ _ _ H)
    as (_ & pre & w & post & Hfeed & _ & _ & Hw & _).
  exists pre, w, post. split; [exact Hfeed|exact Hw].
Defined.

(** ** Quantities given as numbers *)

Lemma to_int_not_nil z : Z.to_int z ≠ Decimal.Pos Decimal.Nil ∧ Z.to_int z ≠ Decimal.Neg Decimal.Nil.
Proof.
  pose proof (DecimalZ.to_of (Z.to_int z)) as H. rewrite DecimalZ.of_to in H.
  split; intros E; rewrite E in H; discriminate H.
Qed.

Lemma py_str_int_parses z :
  NilZero.int_of_string (py_str (VInt z)) = Some (Z.to_int z).
Proof.
  destruct (to_int_not_nil z) as [H1 H2]. simpl. by apply NilZero.isi.
Qed.

Lemma quantity_of_number w z :
  dict_get w "Количество" = VInt z ->
  quantity w = Ok (if (z =? 1)%Z then 0 else z).
Proof.
  intros Hcell. unfold quantity. cbv zeta. rewrite Hcell.
  pose proof (py_str_int_parses z) as Hp.
  destruct (String.eqb_spec (py_str (VInt z)) ">10") as [E|_].
  { rewrite E in Hp.
    assert (NilZero.int_of_string ">10" = None) as Hn by reflexivity. congruence. }
  destruct (String.eqb_spec (py_str (VInt z)) "1") as [E|N].
  - rewrite E in Hp.
    assert (NilZero.int_of_string "1" = Some (Z.to_int 1)) as H1 by reflexivity.
    rewrite H1 in Hp.
    assert (Z.to_int 1 = Z.to_int z) as Hz by congruence.
    apply DecimalZ.to_int_inj in Hz as <-. done.
  - destruct (Z.eqb_spec z 1) as [->|_]; [by destruct N|done].
Qed.

Lemma stocks_with_number_cell {R} (mk : string -> Z -> R) s out s' pre w post z :
  stocks_with mk s = (Ok out, s') ->
  watch_remnants s = pre ++ w :: post ->
  code w ∉ (code <$> pre) -> code w ∈ offer_ids s ->
  dict_get w "Количество" = VInt z ->
  mk (code w) (if (z =? 1)%Z then 0 else z) ∈ out.
Proof.
  intros H Hfeed Hn Hin Hcell.
  destruct (stocks_with_first_row mk s out s' pre w post H Hfeed Hn Hin) as (q & Hq & Hrule).
  apply quantity_rule_iff in Hrule. rewrite (quantity_of_number w z Hcell) in Hrule.
  by injection Hrule as ->.
Qed.

(** X7.  A quantity cell that holds a number instead of text is handled
    like its decimal text: the number 1 gives the quantity 0, and every
    other integer, negative ones included, is passed on as it is.  For
    the first row with a known code, that is the quantity of its record,
    in both integrations. *)
Theorem create_stocks_number_cell :
  (forall s out s' pre w post z,
     Seller.create_stocks s = (Ok out, s') ->
     watch_remnants s = pre ++ w :: post ->
     code w ∉ (code <$> pre) -> code w ∈ offer_ids s ->
     dict_get w "Количество" = VInt z ->
     Seller.StockRecord (code w) (if (z =? 1)%Z then 0 else z) ∈ out)
  ∧ (forall warehouse_id date s out s' pre w post z,
     Market.create_stocks warehouse_id date s = (Ok out, s') ->
     watch_remnants s = pre ++ w :: post ->
     code w ∉ (code <$> pre) -> code w ∈ offer_ids s ->
     dict_get w "Количество" = VInt z ->
     Market.StockRecord (code w) warehouse_id
       [Market.StockItem (if (z =? 1)%Z then 0 else z) "FIT" date] ∈ out).
Proof.
  split.
  - intros s out s' pre w post z H. rewrite seller_create_stocks_eq in H.
    exact (stocks_with_number_cell Seller.StockRecord s out s' pre w post z H).
  - intros wh date s out s' pre w post z H. rewrite market_create_stocks_eq in H.
    exact (stocks_with_number_cell
             (fun x q => Market.StockRecord x wh [Market.StockItem q "FIT" date])
             s out s' pre w post z H).
Qed.

Lemma create_stocks_number_cell_witness :
  let w1 := py_dict [("Код", VInt 123); ("Количество", VInt 1)] in
  let w2 := py_dict [("Код", VInt 456); ("Количество", VInt (-3))] in
  exists out s',
    Seller.create_stocks (Store [w1; w2] ["123"; "456"]) = (Ok out, s')
    ∧ Seller.StockRecord (code w1) 0 ∈ out
    ∧ Seller.StockRecord (code w2) (-3) ∈ out.
Proof.
  intros w1 w2.
  assert (Seller.create_stocks (Store [w1; w2] ["123"; "456"])
          = (Ok [Seller.StockRecord "123" 0; Seller.StockRecord "456" (-3)],
             Store [w1; w2] [])) as H by (vm_compute; reflexivity).
  eexists _, _. split; [exact H|].
  destruct create_stocks_number_cell as [Hs _]. split.
  - refine (Hs _ _ _ [] w1 [w2] 1 H eq_refl _ _ eq_refl).
    + apply not_elem_of_nil.
    + apply (bool_decide_unpack _). vm_compute. exact I.
  - refine (Hs _ _ _ [w1] w2 [] (-3) H eq_refl _ _ eq_refl).
    + apply (bool_decide_unpack _). vm_compute. exact I.
    + apply (bool_decide_unpack _). vm_compute. exact I.
Defined.

(** ** Several rows with the same code *)

Lemma NoDup_fmap_elem_eq {A B} (f : A -> B) (l : list A) x y :
  NoDup (f <$> l) -> x ∈ l -> y ∈ l -> f x = f y -> x = y.
Proof.
  intros Hnd Hx Hy Hf.
  apply list_elem_of_lookup in Hx as [i Hi]. apply list_elem_of_lookup in Hy as [j Hj].
  assert (i = j) as ->.
  { eapply (NoDup_lookup (f <$> l)); [done| |].
    - rewrite list_lookup_fmap, Hi. reflexivity.
    - rewrite list_lookup_fmap, Hj. simpl. by rewrite Hf. }
  congruence.
Qed.



(** ** What the pagination loop returns *)

Section PaginateResults.
Context {server C P I : Type}.
Variable fetch : C -> server -> result P * server.
Variable items_of : P -> list I.
Variable next : P -> C.
Variable stop : list I -> P -> bool.

Lemma signals_cons acc p ps j :
  signals items_of stop acc (p :: ps) (S j)
  <-> signals items_of stop (acc ++ items_of p) ps j.
Proof.
  unfold signals. cbn [take fmap list_fmap concat lookup list_lookup].
  split; intros (q & Hq & Hst); exists q; (split; [done|]).
  - by rewrite <- app_assoc.
  - by rewrite app_assoc.
Qed.

Lemma signals_head acc p ps :
  signals items_of stop acc (p :: ps) 0 <-> stop (acc ++ items_of p) p = true.
Proof.
  unfold signals. simpl. rewrite (app_nil_r (items_of p)). split.
  - by intros (q & [= <-] & Hst).
  - intros Hst. by exists p.
Qed.

Lemma cursor_after_cons cursor p ps :
  cursor_after next cursor (p :: ps) = cursor_after next (next p) ps.
Proof.
  unfold cursor_after. destruct ps as [|q ps]; [done|].
  rewrite last_cons_cons.
  destruct (last (q :: ps)) eqn:Hl; [done|]. by apply last_None in Hl.
Qed.

Lemma paginate_Ok fuel cursor acc srv out srv' :
  paginate fetch items_of next stop fuel cursor acc srv = Some (Ok out, srv') ->
  exists j ps,
    (j < fuel)%nat
    ∧ served fetch next (S j) cursor srv = Some (ps, srv')
    ∧ signals items_of stop acc ps j
    ∧ (forall i, (i < j)%nat -> ¬ signals items_of stop acc ps i)
    ∧ out = acc ++ concat (items_of <$> ps).
Proof.
  revert cursor acc srv. induction fuel as [|fuel IH]; intros cursor acc srv H; [done|].
  cbn [paginate] in H. destruct (fetch cursor srv) as [[p|e] srv0] eqn:Hf; [|done].
  destruct (stop (acc ++ items_of p) p) eqn:Hstop.
  - injection H as <- <-. exists 0%nat, [p]. split; [lia|]. split.
    { simpl. by rewrite Hf. }
    split; [by apply signals_head|]. split; [intros; lia|].
    simpl. by rewrite (app_nil_r (items_of p)).
  - destruct (IH _ _ _ H) as (j & ps & Hj & Hs & Hsig & Hfirst & ->).
    exists (S j), (p :: ps). split; [lia|]. split.
    { rewrite served_S, Hf, Hs. done. }
    split; [by apply signals_cons|]. split.
    + intros [|i] Hi.
      * rewrite signals_head. congruence.
      * rewrite signals_cons. apply Hfirst. lia.
    + cbn [fmap list_fmap concat]. by rewrite app_assoc.
Qed.

Lemma paginate_Raise fuel cursor acc srv e srv' :
  paginate fetch items_of next stop fuel cursor acc srv = Some (Raise e, srv') ->
  exists j ps srv0,
    (j < fuel)%nat
    ∧ served fetch next j cursor srv = Some (ps, srv0)
    ∧ (forall i, ¬ signals items_of stop acc ps i)
    ∧ fetch (cursor_after next cursor ps) srv0 = (Raise e, srv').
Proof.
  revert cursor acc srv. induction fuel as [|fuel IH]; intros cursor acc srv H; [done|].
  cbn [paginate] in H. destruct (fetch cursor srv) as [[p|e0] srv0] eqn:Hf.
  - destruct (stop (acc ++ items_of p) p) eqn:Hstop; [done|].
    destruct (IH _ _ _ H) as (j & ps & srv1 & Hj & Hs & Hnone & Hfail).
    exists (S j), (p :: ps), srv1. split; [lia|]. split.
    { rewrite served_S, Hf, Hs. done. }
    split.
    + intros [|i].
      * rewrite signals_head. congruence.
      * rewrite signals_cons. apply Hnone.
    + by rewrite cursor_after_cons.
  - injection H as <- <-. exists 0%nat, [], srv. split; [lia|]. split; [done|].
    split; [|done]. intros i (q & Hq & _). done.
Qed.

Lemma paginate_None fuel cursor acc srv :
  paginate fetch items_of next stop fuel cursor acc srv = None ->
  exists ps srv0,
    served fetch next fuel cursor srv = Some (ps, srv0)
    ∧ forall i, ¬ signals items_of stop acc ps i.
Proof.
  revert cursor acc srv. induction fuel as [|fuel IH]; intros cursor acc srv H.
  - exists [], srv. split; [done|]. intros i (q & Hq & _). done.
  - cbn [paginate] in H. destruct (fetch cursor srv) as [[p|e0] srv0] eqn:Hf; [|done].
    destruct (stop (acc ++ items_of p) p) eqn:Hstop; [done|].
    destruct (IH _ _ _ H) as (ps & srv1 & Hs & Hnone).
    exists (p :: ps), srv1. split.
    { rewrite served_S, Hf, Hs. done. }
    intros [|i].
    * rewrite signals_head. congruence.
    * rewrite signals_cons. apply Hnone.
Qed.
End PaginateResults.

Lemma paginate_no_signal {server C P I : Type}
    (fetch : C -> server -> result P * server) (items_of : P -> list I)
    (next : P -> C) (stop : list I -> P -> bool) k cursor acc srv ps srv0 :
  served fetch next k cursor srv = Some (ps, srv0) ->
  (forall i, ¬ signals items_of stop acc ps i) ->
  paginate fetch items_of next stop k cursor acc srv = None.
Proof.
  revert cursor acc srv ps srv0.
  induction k as [|k IH]; intros cursor acc srv ps srv0 Hs Hnone; [done|].
  rewrite served_S in Hs. cbn [paginate].
  destruct (fetch cursor srv) as [[p|e] srv1]; [|done].
  destruct (served fetch next k (next p) srv1) as [[ps1 srv2]|] eqn:Hs1; [|done].
  injection Hs as <- <-.
  destruct (stop (acc ++ items_of p) p) eqn:Hstop.
  - exfalso. apply (Hnone 0%nat). by apply signals_head.
  - eapply IH; [exact Hs1|]. intros i Hi. apply (Hnone (S i)). by apply signals_cons.
Qed.

(** X9.  Whatever the marketplace does, a list that [get_offer_ids]
    returns is the offer ids of the pages served up to and including the
    first page that signals the end, in that order: no page before the
    signal is missing and none is fetched after it.  The number of
    exchanges is the number of those pages, and any larger fuel gives
    the same list. *)
Theorem get_offer_ids_sound :
  (forall (server : Type)
          (get_product_list : string -> server -> result Seller.page * server)
          (srv : server) fuel ids srv',
     Seller.get_offer_ids get_product_list fuel srv = Some (Ok ids, srv') ->
     exists j ps,
       (j < fuel)%nat
       ∧ served get_product_list Seller.last_id (S j) "" srv = Some (ps, srv')
       ∧ signals Seller.items seller_stop [] ps j
       ∧ (forall i, (i < j)%nat -> ¬ signals Seller.items seller_stop [] ps i)
       ∧ ids = Seller.p_offer_id <$> concat (Seller.items <$> ps)
       ∧ forall fuel', (j < fuel')%nat ->
           Seller.get_offer_ids get_product_list fuel' srv = Some (Ok ids, srv'))
  ∧ (forall (server : Type)
            (get_product_list : pyval -> server -> result Market.page * server)
            (srv : server) fuel ids srv',
     Market.get_offer_ids get_product_list fuel srv = Some (Ok ids, srv') ->
     exists j ps,
       (j < fuel)%nat
       ∧ served get_product_list Market.nextPageToken (S j) (VStr "") srv = Some (ps, srv')
       ∧ signals Market.offerMappingEntries market_stop [] ps j
       ∧ (forall i, (i < j)%nat ->
          ¬ signals Market.offerMappingEntries market_stop [] ps i)
       ∧ ids = (fun product => Market.shopSku (Market.e_offer product))
               <$> concat (Market.offerMappingEntries <$> ps)
       ∧ forall fuel', (j < fuel')%nat ->
           Market.get_offer_ids get_product_list fuel' srv = Some (Ok ids, srv')).
Proof.
  split.
  - intros server gpl srv fuel ids srv' H. unfold Seller.get_offer_ids in H.
    rewrite seller_fetch_all_paginate in H.
    destruct (paginate _ _ _ _ fuel "" [] srv) as [[[pl|e] srv1]|] eqn:Hp; [|done..].
    injection H as <- <-.
    destruct (paginate_Ok _ _ _ _ _ _ _ _ _ _ Hp) as (j & ps & Hj & Hs & Hsig & Hfirst & ->).
    exists j, ps. repeat (split; [done|]). simpl.
    intros fuel' Hf. unfold Seller.get_offer_ids.
    rewrite seller_fetch_all_paginate.
    destruct (paginate_stops gpl Seller.items Seller.last_id seller_stop
                j "" [] srv ps srv1 Hs Hsig) as (j' & srv2 & Hj' & Hsj' & _ & Hs' & Hrun).
    assert (j' = j) as Hjj.
    { destruct (decide (j' = j)) as [|Hne]; [done|].
      exfalso. apply (Hfirst j'); [lia|done]. }
    subst j'.
    rewrite (Hrun fuel' Hf).
    pose proof (served_length _ _ _ _ _ _ _ Hs) as Hlen.
    rewrite Hs in Hs'. injection Hs' as Hps <-.
    rewrite take_ge by lia. done.
  - intros server gpl srv fuel ids srv' H. unfold Market.get_offer_ids in H.
    rewrite market_fetch_all_paginate in H.
    destruct (paginate _ _ _ _ fuel (VStr "") [] srv) as [[[pl|e] srv1]|] eqn:Hp; [|done..].
    injection H as <- <-.
    destruct (paginate_Ok _ _ _ _ _ _ _ _ _ _ Hp) as (j & ps & Hj & Hs & Hsig & Hfirst & ->).
    exists j, ps. repeat (split; [done|]). simpl.
    intros fuel' Hf. unfold Market.get_offer_ids.
    rewrite market_fetch_all_paginate.
    destruct (paginate_stops gpl Market.offerMappingEntries Market.nextPageToken market_stop
                j (VStr "") [] srv ps srv1 Hs Hsig) as (j' & srv2 & Hj' & Hsj' & _ & Hs' & Hrun).
    assert (j' = j) as Hjj.
    { destruct (decide (j' = j)) as [|Hne]; [done|].
      exfalso. apply (Hfirst j'); [lia|done]. }
    subst j'.
    rewrite (Hrun fuel' Hf).
    pose proof (served_length _ _ _ _ _ _ _ Hs) as Hlen.
    rewrite Hs in Hs'. injection Hs' as Hps <-.
    rewrite take_ge by lia. done.
Qed.

Lemma get_offer_ids_sound_witness :
  Seller.get_offer_ids sample_ozon 7 0%nat = Some (Ok ["123"; "456"; "789"], 2%nat)
  ∧ exists j ps,
      served sample_ozon Seller.last_id (S j) "" 0%nat = Some (ps, 2%nat)
      ∧ ["123"; "456"; "789"] = Seller.p_offer_id <$> concat (Seller.items <$> ps).
Proof.
  assert (Seller.get_offer_ids sample_ozon 7 0%nat = Some (Ok ["123"; "456"; "789"], 2%nat))
    as H by (vm_compute; reflexivity).
  split; [exact H|].
  destruct (proj1 get_offer_ids_sound nat sample_ozon 0%nat 7%nat _ _ H)
    as (j & ps & _ & Hs & _ & _ & Hids & _).
  exists j, ps. split; [exact Hs|exact Hids].
Defined.

(** X10.  When [get_offer_ids] raises, the exception is the one an
    exchange with the marketplace raised: the pages before it were
    served without a signal, the failing exchange was made with the
    cursor of the last of them (the empty start cursor when there was
    none), it was made once, and the pages gathered so far are not
    returned. *)
Theorem get_offer_ids_propagates_error :
  (forall (server : Type)
          (get_product_list : string -> server -> result Seller.page * server)
          (srv : server) fuel e srv',
     Seller.get_offer_ids get_product_list fuel srv = Some (Raise e, srv') ->
     exists j ps srv0,
       (j < fuel)%nat
       ∧ served get_product_list Seller.last_id j "" srv = Some (ps, srv0)
       ∧ (forall i, ¬ signals Seller.items seller_stop [] ps i)
       ∧ get_product_list (cursor_after Seller.last_id "" ps) srv0 = (Raise e, srv'))
  ∧ (forall (server : Type)
            (get_product_list : pyval -> server -> result Market.page * server)
            (srv : server) fuel e srv',
     Market.get_offer_ids get_product_list fuel srv = Some (Raise e, srv') ->
     exists j ps srv0,
       (j < fuel)%nat
       ∧ served get_product_list Market.nextPageToken j (VStr "") srv = Some (ps, srv0)
       ∧ (forall i, ¬ signals Market.offerMappingEntries market_stop [] ps i)
       ∧ get_product_list (cursor_after Market.nextPageToken (VStr "") ps) srv0
         = (Raise e, srv')).
Proof.
  split.
  - intros server gpl srv fuel e srv' H. unfold Seller.get_offer_ids in H.
    rewrite seller_fetch_all_paginate in H.
    destruct (paginate _ _ _ _ fuel "" [] srv) as [[[pl|e0] srv1]|] eqn:Hp; [done| |done].
    injection H as <- <-. by eapply paginate_Raise.
  - intros server gpl srv fuel e srv' H. unfold Market.get_offer_ids in H.
    rewrite market_fetch_all_paginate in H.
    destruct (paginate _ _ _ _ fuel (VStr "") [] srv) as [[[pl|e0] srv1]|] eqn:Hp;
      [done| |done].
    injection H as <- <-. by eapply paginate_Raise.
Qed.

Lemma get_offer_ids_propagates_error_witness :
  let broken := fun (last_id : string) (calls : nat) =>
                  if String.eqb last_id "" then sample_ozon last_id calls
                  else (Raise TypeError, S calls) in
  Seller.get_offer_ids broken 7 0%nat = Some (Raise TypeError, 2%nat)
  ∧ exists j ps srv0,
      served broken Seller.last_id j "" 0%nat = Some (ps, srv0)
      ∧ broken (cursor_after Seller.last_id "" ps) srv0 = (Raise TypeError, 2%nat).
Proof.
  intros broken.
  assert (Seller.get_offer_ids broken 7 0%nat = Some (Raise TypeError, 2%nat))
    as H by (vm_compute; reflexivity).
  split; [exact H|].
  destruct (proj1 get_offer_ids_propagates_error nat broken 0%nat 7%nat _ _ H)
    as (j & ps & srv0 & _ & Hs & _ & Hfail).
  exists j, ps, srv0. split; [exact Hs|exact Hfail].
Defined.

(** X11.  [get_offer_ids] is still running after [fuel] exchanges
    exactly when the marketplace has served [fuel] pages without a
    failure and none of them signalled the end.  So a marketplace that
    never signals (an Ozon [total] that never equals the number of items
    received, a Yandex.Market token that is never empty) keeps the loop
    going for ever: there is no cap on the number of pages. *)
Theorem get_offer_ids_runs_while_no_signal :
  (forall (server : Type)
          (get_product_list : string -> server -> result Seller.page * server)
          (srv : server) fuel,
     Seller.get_offer_ids get_product_list fuel srv = None <->
     exists ps srv0,
       served get_product_list Seller.last_id fuel "" srv = Some (ps, srv0)
       ∧ forall i, ¬ signals Seller.items seller_stop [] ps i)
  ∧ (forall (server : Type)
            (get_product_list : pyval -> server -> result Market.page * server)
            (srv : server) fuel,
     Market.get_offer_ids get_product_list fuel srv = None <->
     exists ps srv0,
       served get_product_list Market.nextPageToken fuel (VStr "") srv = Some (ps, srv0)
       ∧ forall i, ¬ signals Market.offerMappingEntries market_stop [] ps i).
Proof.
  split.
  - intros server gpl srv fuel. unfold Seller.get_offer_ids.
    rewrite seller_fetch_all_paginate. split.
    + destruct (paginate _ _ _ _ fuel "" [] srv) as [[[pl|e0] srv1]|] eqn:Hp; [done..|].
      intros _. by eapply paginate_None.
    + intros (ps & srv0 & Hs & Hnone).
      by rewrite (paginate_no_signal _ _ _ _ _ _ _ _ _ _ Hs Hnone).
  - intros server gpl srv fuel. unfold Market.get_offer_ids.
    rewrite market_fetch_all_paginate. split.
    + destruct (paginate _ _ _ _ fuel (VStr "") [] srv) as [[[pl|e0] srv1]|] eqn:Hp;
        [done..|].
      intros _. by eapply paginate_None.
    + intros (ps & srv0 & Hs & Hnone).
      by rewrite (paginate_no_signal _ _ _ _ _ _ _ _ _ _ Hs Hnone).
Qed.

Lemma get_offer_ids_runs_while_no_signal_witness :
  Seller.get_offer_ids sample_ozon 1 0%nat = None
  ∧ exists ps srv0,
      served sample_ozon Seller.last_id 1 "" 0%nat = Some (ps, srv0)
      ∧ forall i, ¬ signals Seller.items seller_stop [] ps i.
Proof.
  assert (Seller.get_offer_ids sample_ozon 1 0%nat = None) as H by (vm_compute; reflexivity).
  split; [exact H|].
  exact (proj1 (proj1 get_offer_ids_runs_while_no_signal nat sample_ozon 0%nat 1%nat) H).
Defined.

(** ** The upload procedures *)

Lemma divide_batches {A} (l : list A) (n : Z) :
  0 < n ->
  exists batches,
    Seller.divide l n = Ok batches
    ∧ concat batches = l
    ∧ Forall (fun b => (0 < length b <= Z.to_nat n)%nat) batches.
Proof.
  intros Hn. eexists. split; [by apply divide_windows|].
  destruct (range_length_pos l n Hn) as (Hcover & Hin & _).
  split.
  - rewrite concat_windows. by apply take_ge.
  - apply Forall_fmap, Forall_forall. intros k Hk.
    apply elem_of_seq in Hk as [_ Hk]. simpl in Hk. pose proof (Hin k Hk).
    unfold window. simpl. rewrite length_take, length_drop. lia.
Qed.

Lemma divide_nil {A} (n : Z) : 0 < n -> Seller.divide (@nil A) n = Ok [].
Proof.
  intros Hn. destruct (divide_batches (@nil A) n Hn) as (batches & -> & Hc & HF).
  destruct batches as [|b batches]; [done|].
  apply Forall_cons in HF as [Hb _]. simpl in Hc.
  apply app_eq_nil in Hc as [-> _]. simpl in Hb. lia.
Qed.

(** After a stock reconciliation over duplicate-free offer ids, no row
    of the feed has its code in what is left of the list. *)
Lemma create_prices_after_create_stocks {R} (mk : string -> Z -> R) s stocks objects :
  NoDup (offer_ids s) ->
  stocks_with mk s = (Ok stocks, objects) ->
  Seller.create_prices objects = (Ok [], objects)
  ∧ Market.create_prices objects = (Ok [], objects).
Proof.
  intros Hnd H.
  destruct (stocks_with_store mk s stocks objects H) as (Hfeed & Hids & _ & _ & Hiff).
  rewrite seller_create_prices_run, market_create_prices_run.
  rewrite known_rows_nil; [done|].
  intros w Hw Hin. apply (Hiff Hnd) in Hin as [_ Hn]. apply Hn.
  rewrite <- Hfeed. by apply list_elem_of_fmap_2.
Qed.

(** X12.  In the [try] block of [seller.py]'s [main], the price
    reconciliation is handed the offer-id list that the stock
    reconciliation has just worked on.  When the offer ids fetched from
    the marketplace have no repetitions, that list holds no code of any
    supplier row any more, so the price list is empty and [update_price]
    is never called: whatever [update_price] would do, the run is the
    same. *)
Theorem seller_main_sends_no_prices :
  forall (server : Type)
         (get_product_list : string -> server -> result Seller.page * server)
         (update_price update_price' : list Seller.price_record -> server -> result unit * server)
         (update_stocks : list Seller.stock_record -> server -> result unit * server)
         (download_stock : server -> result (list watch) * server)
         fuel (srv : server) ids srv1,
    Seller.get_offer_ids get_product_list fuel srv = Some (Ok ids, srv1) ->
    NoDup ids ->
    (forall feed stocks objects,
       Seller.create_stocks (Store feed ids) = (Ok stocks, objects) ->
       Seller.create_prices objects = (Ok [], objects))
    ∧ Seller.main_body get_product_list update_price update_stocks download_stock fuel srv
      = Seller.main_body get_product_list update_price' update_stocks download_stock fuel srv.
Proof.
  intros server gpl up up' us dl fuel srv ids srv1 Hget Hnd. split.
  - intros feed stocks objects H. rewrite seller_create_stocks_eq in H.
    by destruct (create_prices_after_create_stocks _ (Store feed ids) stocks objects Hnd H).
  - unfold Seller.main_body. rewrite Hget.
    destruct (dl srv1) as [[feed|e] srv2]; [|done].
    destruct (Seller.create_stocks (Store feed ids)) as [[stocks|e] objects] eqn:Hcs; [|done].
    rewrite seller_create_stocks_eq in Hcs.
    destruct (create_prices_after_create_stocks _ (Store feed ids) stocks objects Hnd Hcs)
      as [-> _].
    destruct (Seller.divide stocks 100) as [batches|e]; [|done].
    destruct (submit_each us batches srv2) as [[[]|e] srv3]; [|done].
    rewrite (divide_nil 900) by lia. done.
Qed.

Lemma seller_main_sends_no_prices_witness :
  let refuse := fun (_ : list Seller.price_record) (calls : nat) =>
                  (@Raise unit ValueError, S calls) in
  Seller.get_offer_ids sample_ozon 5 0%nat = Some (Ok ["123"; "456"; "789"], 2%nat)
  ∧ NoDup ["123"; "456"; "789"]
  ∧ Seller.main_body sample_ozon refuse sample_update sample_download 5 0%nat
    = Some (Ok tt, 4%nat)
  ∧ Seller.main_body sample_ozon refuse sample_update sample_download 5 0%nat
    = Seller.main_body sample_ozon sample_update sample_update sample_download 5 0%nat.
Proof.
  intros refuse.
  assert (Seller.get_offer_ids sample_ozon 5 0%nat = Some (Ok ["123"; "456"; "789"], 2%nat))
    as H by (vm_compute; reflexivity).
  assert (NoDup ["123"; "456"; "789"]) as Hnd
    by (apply (bool_decide_unpack _); vm_compute; exact I).
  split; [exact H|]. split; [exact Hnd|]. split; [vm_compute; reflexivity|].
  exact (proj2 (seller_main_sends_no_prices nat sample_ozon refuse sample_update
                  sample_update sample_download 5%nat 0%nat _ _ H Hnd)).
Defined.

Lemma stocks_with_built {R} (mk : string -> Z -> R) s out s' :
  stocks_with mk s = (Ok out, s') -> Forall (fun r => exists x q, r = mk x q) out.
Proof.
  intros H. destruct (stocks_with_Ok _ _ _ _ H) as (qs & HF & -> & _).
  apply Forall_app. split.
  - unfold matched_records. clear H. induction HF as [|w q ws qs' _ _ IH]; [constructor|].
    cbn [zip_with]. constructor; [eauto|done].
  - apply Forall_fmap, Forall_forall. intros x _. simpl. eauto.
Qed.

Lemma not_empty_stocks_built warehouse_id date stocks :
  Forall (fun r => exists x q,
            r = Market.StockRecord x warehouse_id [Market.StockItem q "FIT" date]) stocks ->
  exists not_empty,
    Market.not_empty_stocks stocks = Ok not_empty
    ∧ not_empty `sublist_of` stocks
    ∧ forall r, r ∈ not_empty <->
        r ∈ stocks ∧ exists x q,
          r = Market.StockRecord x warehouse_id [Market.StockItem q "FIT" date] ∧ q ≠ 0.
Proof.
  induction 1 as [|r stocks (x & q & ->) _ (kept & IH & Hsub & Hiff)].
  - exists []. split; [done|]. split; [done|]. intros r. split.
    + intros Hr. by apply elem_of_nil in Hr.
    + intros [Hr _]. by apply elem_of_nil in Hr.
  - simpl. rewrite IH. eexists. split; [reflexivity|].
    destruct (decide (q ≠ 0)) as [Hq|Hq].
    + rewrite bool_decide_eq_true_2 by done. split; [by apply sublist_skip|].
      intros r. rewrite !elem_of_cons, Hiff. split.
      * intros [->|[Hr Hx]]; [|tauto]. split; [by left|eauto].
      * intros [[->|Hr] Hx]; [by left|]. right. done.
    + rewrite bool_decide_eq_false_2 by done. split; [by apply sublist_cons|].
      intros r. rewrite elem_of_cons, Hiff. split.
      * intros [Hr Hx]. tauto.
      * intros [[->|Hr] Hx]; [|done].
        destruct Hx as (x' & q' & [= _ <-] & Hq'). done.
Qed.

(** X13.  When [upload_stocks] returns [(not_empty, stocks)]: the offer
    ids were fetched; [stocks] answers every fetched id (its ids are a
    rearrangement of them); every record of [stocks], the zero-quantity
    ones included, was sent, in order, in batches of 1 to 100 records
    for Ozon and 1 to 2000 for Yandex.Market, each batch accepted; and
    [not_empty] is the records of [stocks] with a quantity other than 0,
    in the same order.  For Yandex.Market the look at [items[0]] never
    fails, since every record is built with one item. *)
Theorem upload_stocks_sends_everything :
  (forall (server : Type)
          (get_product_list : string -> server -> result Seller.page * server)
          (update_stocks : list Seller.stock_record -> server -> result unit * server)
          fuel feed (srv : server) not_empty stocks srv2,
     Seller.upload_stocks get_product_list update_stocks fuel feed srv
     = Some (Ok (not_empty, stocks), srv2) ->
     exists ids srv1 batches,
       Seller.get_offer_ids get_product_list fuel srv = Some (Ok ids, srv1)
       ∧ Seller.offer_id <$> stocks ≡ₚ ids
       ∧ concat batches = stocks
       ∧ Forall (fun b => (0 < length b <= 100)%nat) batches
       ∧ submit_each update_stocks batches srv1 = (Ok tt, srv2)
       ∧ not_empty `sublist_of` stocks
       ∧ forall r, r ∈ not_empty <-> r ∈ stocks ∧ Seller.stock r ≠ 0)
  ∧ (forall (server : Type)
            (get_product_list : pyval -> server -> result Market.page * server)
            (update_stocks : list Market.stock_record -> server -> result unit * server)
            fuel feed warehouse_id date (srv : server) not_empty stocks srv2,
     Market.upload_stocks get_product_list update_stocks fuel feed warehouse_id date srv
     = Some (Ok (not_empty, stocks), srv2) ->
     exists ids srv1 batches,
       Market.get_offer_ids get_product_list fuel srv = Some (Ok ids, srv1)
       ∧ Market.sku <$> stocks ≡ₚ ids
       ∧ concat batches = stocks
       ∧ Forall (fun b => (0 < length b <= 2000)%nat) batches
       ∧ submit_each update_stocks batches srv1 = (Ok tt, srv2)
       ∧ not_empty `sublist_of` stocks
       ∧ forall r, r ∈ not_empty <->
           r ∈ stocks ∧ exists x q,
             r = Market.StockRecord x warehouse_id [Market.StockItem q "FIT" date]
             ∧ q ≠ 0).
Proof.
  split.
  - intros server gpl us fuel feed srv not_empty stocks srv2 H.
    unfold Seller.upload_stocks in H.
    destruct (Seller.get_offer_ids gpl fuel srv) as [[[ids|e] srv1]|]; [|done..].
    destruct (Seller.create_stocks (Store feed ids)) as [[stocks0|e] st] eqn:Hcs; [|done].
    destruct (divide_batches stocks0 100 ltac:(lia)) as (batches & Hd & Hc & HF).
    rewrite Hd in H.
    destruct (submit_each us batches srv1) as [[[]|e] srv3] eqn:Hsub; [|done].
    injection H as <- <- <-.
    exists ids, srv1, batches. split; [done|].
    rewrite seller_create_stocks_eq in Hcs.
    destruct (stocks_with_covers Seller.StockRecord Seller.offer_id _ _ _
                (fun _ _ => eq_refl) Hcs) as (Hperm & _).
    split; [done|]. split; [done|]. split; [done|]. split; [done|].
    split; [apply sublist_filter|].
    intros r. rewrite list_elem_of_filter. tauto.
  - intros server gpl us fuel feed wh date srv not_empty stocks srv2 H.
    unfold Market.upload_stocks in H.
    destruct (Market.get_offer_ids gpl fuel srv) as [[[ids|e] srv1]|]; [|done..].
    destruct (Market.create_stocks wh date (Store feed ids)) as [[stocks0|e] st] eqn:Hcs;
      [|done].
    destruct (divide_batches stocks0 2000 ltac:(lia)) as (batches & Hd & Hc & HF).
    rewrite Hd in H.
    destruct (submit_each us batches srv1) as [[[]|e] srv3] eqn:Hsub; [|done].
    rewrite market_create_stocks_eq in Hcs.
    pose proof (stocks_with_built _ _ _ _ Hcs) as Hbuilt. cbv beta in Hbuilt.
    destruct (not_empty_stocks_built wh date stocks0 Hbuilt) as (kept & Hk & Hsl & Hiff).
    rewrite Hk in H. injection H as <- <- <-.
    exists ids, srv1, batches. split; [done|].
    destruct (stocks_with_covers
                (fun x q => Market.StockRecord x wh [Market.StockItem q "FIT" date])
                Market.sku _ _ _ (fun _ _ => eq_refl) Hcs) as (Hperm & _).
    done.
Qed.

Lemma upload_stocks_sends_everything_witness :
  exists not_empty stocks,
    Seller.upload_stocks sample_ozon sample_update 5 (watch_remnants sample_store) 0%nat
    = Some (Ok (not_empty, stocks), 3%nat)
    ∧ Seller.offer_id <$> stocks ≡ₚ ["123"; "456"; "789"]
    ∧ Seller.offer_id <$> not_empty = ["123"].
Proof.
  assert (Seller.upload_stocks sample_ozon sample_update 5 (watch_remnants sample_store) 0%nat
          = Some (Ok ([Seller.StockRecord "123" 100],
                      [Seller.StockRecord "123" 100; Seller.StockRecord "789" 0;
                       Seller.StockRecord "456" 0]), 3%nat)) as H
    by (vm_compute; reflexivity).
  eexists _, _. split; [exact H|]. split; [|reflexivity].
  destruct (proj1 upload_stocks_sends_everything nat sample_ozon sample_update
              5%nat _ 0%nat _ _ _ H) as (ids & srv1 & batches & Hget & Hperm & _).
  assert (Seller.get_offer_ids sample_ozon 5 0%nat = Some (Ok ["123"; "456"; "789"], 2%nat))
    as Hids by (vm_compute; reflexivity).
  rewrite Hids in Hget. injection Hget as <- _. exact Hperm.
Defined.

Lemma collect_codes {R} (conv : watch -> result R) (ident : R -> string) ws rs :
  (forall w r, conv w = Ok r -> ident r = code w) ->
  collect conv ws = Ok rs -> ident <$> rs = code <$> ws.
Proof.
  intros Hid H. apply collect_Ok in H.
  induction H as [|w r ws rs Hr _ IH]; [done|].
  rewrite !fmap_cons. by rewrite (Hid w r Hr), IH.
Qed.

Lemma seller_price_code w r : seller_price w = Ok r -> Seller.pr_offer_id r = code w.
Proof.
  unfold seller_price. destruct (Seller.price_conversion _); [|done].
  by intros [= <-].
Qed.

Lemma market_price_code w r : market_price w = Ok r -> Market.id r = code w.
Proof.
  unfold market_price. destruct (Seller.price_conversion _) as [c|]; [|done].
  destruct (py_int (VStr c)); [|done]. by intros [= <-].
Qed.

(** X14.  When [upload_prices] returns its price list: the offer ids
    were fetched for this call; the list has one record per supplier row
    whose code is among them, in feed order (so, unlike in [main] of
    [seller.py], rows with a known code do get a price); and all of it
    was sent, in order, in batches of 1 to 1000 records for Ozon and 1
    to 500 for Yandex.Market, each batch accepted. *)
Theorem upload_prices_sends_known_rows :
  (forall (server : Type)
          (get_product_list : string -> server -> result Seller.page * server)
          (update_price : list Seller.price_record -> server -> result unit * server)
          fuel feed (srv : server) prices srv2,
     Seller.upload_prices get_product_list update_price fuel feed srv
     = Some (Ok prices, srv2) ->
     exists ids srv1 batches,
       Seller.get_offer_ids get_product_list fuel srv = Some (Ok ids, srv1)
       ∧ Seller.pr_offer_id <$> prices = code <$> known_rows feed ids
       ∧ concat batches = prices
       ∧ Forall (fun b => (0 < length b <= 1000)%nat) batches
       ∧ submit_each update_price batches srv1 = (Ok tt, srv2))
  ∧ (forall (server : Type)
            (get_product_list : pyval -> server -> result Market.page * server)
            (update_price : list Market.price_record -> server -> result unit * server)
            fuel feed (srv : server) prices srv2,
     Market.upload_prices get_product_list update_price fuel feed srv
     = Some (Ok prices, srv2) ->
     exists ids srv1 batches,
       Market.get_offer_ids get_product_list fuel srv = Some (Ok ids, srv1)
       ∧ Market.id <$> prices = code <$> known_rows feed ids
       ∧ concat batches = prices
       ∧ Forall (fun b => (0 < length b <= 500)%nat) batches
       ∧ submit_each update_price batches srv1 = (Ok tt, srv2)).
Proof.
  split.
  - intros server gpl up fuel feed srv prices srv2 H.
    unfold Seller.upload_prices in H.
    destruct (Seller.get_offer_ids gpl fuel srv) as [[[ids|e] srv1]|]; [|done..].
    rewrite seller_create_prices_run in H. cbn [watch_remnants offer_ids] in H.
    destruct (collect seller_price (known_rows feed ids)) as [prices0|e] eqn:Hc; [|done].
    destruct (divide_batches prices0 1000 ltac:(lia)) as (batches & Hd & Hcat & HF).
    rewrite Hd in H.
    destruct (submit_each up batches srv1) as [[[]|e] srv3] eqn:Hsub; [|done].
    injection H as <- <-.
    exists ids, srv1, batches. split; [done|]. split; [|done].
    exact (collect_codes seller_price Seller.pr_offer_id _ _ seller_price_code Hc).
  - intros server gpl up fuel feed srv prices srv2 H.
    unfold Market.upload_prices in H.
    destruct (Market.get_offer_ids gpl fuel srv) as [[[ids|e] srv1]|]; [|done..].
    rewrite market_create_prices_run in H. cbn [watch_remnants offer_ids] in H.
    destruct (collect market_price (known_rows feed ids)) as [prices0|e] eqn:Hc; [|done].
    destruct (divide_batches prices0 500 ltac:(lia)) as (batches & Hd & Hcat & HF).
    rewrite Hd in H.
    destruct (submit_each up batches srv1) as [[[]|e] srv3] eqn:Hsub; [|done].
    injection H as <- <-.
    exists ids, srv1, batches. split; [done|]. split; [|done].
    exact (collect_codes market_price Market.id _ _ market_price_code Hc).
Qed.

Lemma upload_prices_sends_known_rows_witness :
  exists prices,
    Seller.upload_prices sample_ozon sample_update 5 (watch_remnants sample_store) 0%nat
    = Some (Ok prices, 3%nat)
    ∧ Seller.pr_offer_id <$> prices = ["123"; "789"; "123"].
Proof.
  assert (exists prices,
            Seller.upload_prices sample_ozon sample_update 5
              (watch_remnants sample_store) 0%nat = Some (Ok prices, 3%nat)) as [prices H]
    by (eexists; vm_compute; reflexivity).
  exists prices. split; [exact H|].
  destruct (proj1 upload_prices_sends_known_rows nat sample_ozon sample_update
              5%nat _ 0%nat _ _ H) as (ids & srv1 & batches & Hget & Hcodes & _).
  assert (Seller.get_offer_ids sample_ozon 5 0%nat = Some (Ok ["123"; "456"; "789"], 2%nat))
    as Hids by (vm_compute; reflexivity).
  rewrite Hids in Hget. injection Hget as <- _. rewrite Hcodes.
  vm_compute. reflexivity.
Defined.

(** ** A failing exchange while sending *)

(** X15.  In the sending loops of the upload procedures and of [main],
    when the batches before some batch were accepted and the exchange
    for that batch raises, the loop raises that exception: the batches
    before it stay sent (the outside world is the one the failing
    exchange left), and the batches after it are never sent, whatever
    they are. *)
Theorem submit_each_stops_at_failure {B server : Type}
    (update : B -> server -> result unit * server)
    (before : list B) (batch : B) (after : list B) (srv srv_k srv' : server) (e : pyerr) :
  submit_each update before srv = (Ok tt, srv_k) ->
  update batch srv_k = (Raise e, srv') ->
  submit_each update (before ++ batch :: after) srv = (Raise e, srv').
Proof.
  revert srv. induction before as [|b before IH]; intros srv Hbefore Hfail.
  - injection Hbefore as <-. simpl. by rewrite Hfail.
  - simpl in *. destruct (update b srv) as [[[]|e0] srv1]; [|done].
    by apply IH.
Qed.

Lemma submit_each_stops_at_failure_witness :
  let picky := fun (batch : list Z) (calls : nat) =>
                 if bool_decide (3 ∈ batch) then (@Raise unit ValueError, S calls)
                 else (Ok tt, S calls) in
  submit_each picky [[1; 2]] 0%nat = (Ok tt, 1%nat)
  ∧ picky [3; 4] 1%nat = (Raise ValueError, 2%nat)
  ∧ submit_each picky ([[1; 2]] ++ [3; 4] :: [[5; 6]; [7]]) 0%nat = (Raise ValueError, 2%nat).
Proof.
  intros picky.
  assert (submit_each picky [[1; 2]] 0%nat = (Ok tt, 1%nat)) as H1 by (vm_compute; reflexivity).
  assert (picky [3; 4] 1%nat = (Raise ValueError, 2%nat)) as H2 by (vm_compute; reflexivity).
  split; [exact H1|]. split; [exact H2|].
  exact (submit_each_stops_at_failure picky [[1; 2]] [3; 4] [[5; 6]; [7]] _ _ _ _ H1 H2).
Defined.

(** ** The two stock reconciliations side by side *)

Lemma matched_records_fmap {R R'} (mk : string -> Z -> R) (f : R -> R') ws qs :
  f <$> matched_records mk ws qs = matched_records (fun x q => f (mk x q)) ws qs.
Proof.
  unfold matched_records. revert qs. induction ws as [|w ws IH]; intros [|q qs]; try done.
  cbn [zip_with]. rewrite fmap_cons. by rewrite IH.
Qed.

(** X16.  On the same feed and the same offer ids, the two integrations
    reconcile stocks alike: [market.py]'s [create_stocks] raises exactly
    when [seller.py]'s does, with the same exception, and otherwise
    returns the same offer ids with the same quantities in the same
    order, wrapped in its own record shape; both leave the caller's
    lists in the same state. *)
Theorem market_create_stocks_mirrors_seller warehouse_id date s :
  Market.create_stocks warehouse_id date s
  = match Seller.create_stocks s with
    | (Ok out, s') =>
        (Ok ((fun r => Market.StockRecord (Seller.offer_id r) warehouse_id
                         [Market.StockItem (Seller.stock r) "FIT" date]) <$> out), s')
    | (Raise e, s') => (Raise e, s')
    end.
Proof.
  rewrite market_create_stocks_eq, seller_create_stocks_eq, !stocks_with_run.
  destruct (reconcile _ _) as [[qs|e] ids']; [|done].
  rewrite fmap_app, matched_records_fmap, <- list_fmap_compose. done.
Qed.


(** * The quantity rule, empty prices, repeated runs and repeated codes *)

(** ** The quantity rule, row by row *)

Lemma matched_rows_app pre rest ids :
  matched_rows (pre ++ rest) ids
  = matched_rows pre ids ++ matched_rows rest (remaining_ids pre ids).
Proof.
  revert ids. induction pre as [|v pre IH]; intros ids; simpl; [done|].
  destruct (bool_decide (code v ∈ ids)); [|apply IH].
  by rewrite IH.
Qed.

Lemma reconcile_app pre rest ids :
  reconcile (pre ++ rest) ids
  = match reconcile pre ids with
    | (Ok qs1, ids1) =>
        match reconcile rest ids1 with
        | (Ok qs2, ids2) => (Ok (qs1 ++ qs2), ids2)
        | (Raise e, ids2) => (Raise e, ids2)
        end
    | (Raise e, ids1) => (Raise e, ids1)
    end.
Proof.
  revert ids. induction pre as [|v pre IH]; intros ids; simpl.
  - by destruct (reconcile rest ids) as [[qs|e] ids2].
  - destruct (bool_decide (code v ∈ ids)); [|apply IH].
    destruct (quantity v) as [q|e]; [|done].
    destruct (list_remove (code v) ids) as [ids1|]; [|done].
    rewrite IH. destruct (reconcile pre ids1) as [[qs1|e] ids2]; [|done].
    by destruct (reconcile rest ids2) as [[qs2|e] ids3].
Qed.

Lemma untaken_row_leaves_nothing pre w post ids :
  code w ∉ remaining_ids pre ids ->
  reconcile (pre ++ w :: post) ids = reconcile (pre ++ post) ids
  ∧ matched_rows (pre ++ w :: post) ids = matched_rows (pre ++ post) ids.
Proof.
  intros Hn. split.
  - rewrite !reconcile_app.
    destruct (reconcile pre ids) as [[qs1|e] ids1] eqn:Hr; [|done].
    destruct (reconcile_Ok _ _ _ _ Hr) as [-> _]. simpl.
    by rewrite bool_decide_eq_false_2.
  - rewrite !matched_rows_app. simpl. by rewrite bool_decide_eq_false_2.
Qed.

Lemma stocks_with_follows_rule {R} (mk : string -> Z -> R) :
  follows_quantity_rule mk (stocks_with mk).
Proof.
  intros s. split.
  - split.
    + intros Hok. destruct (stocks_with mk s) as [[out|e] s'] eqn:H; [|done].
      pose proof (stocks_with_quantity _ _ _ _ H) as HF.
      apply Forall_lookup_2. intros i w Hi.
      destruct (Forall2_lookup_l _ _ _ _ _ HF Hi) as (r & _ & q & _ & Hq). eauto.
    + intros H. apply stocks_with_progress.
      eapply Forall_impl; [exact H|]. intros w [q Hq].
      apply quantity_rule_iff in Hq. by rewrite Hq.
  - intros out s' H. split; [exact (stocks_with_quantity _ _ _ _ H)|].
    intros pre w post Hfeed. split; [|split].
    + intros Hn Hin. by apply remaining_ids_unmatched.
    + intros Htaken. pose proof (stocks_with_quantity _ _ _ _ H) as HF.
      assert (matched_rows (watch_remnants s) (offer_ids s)
                !! length (matched_rows pre (offer_ids s)) = Some w) as Hw.
      { rewrite Hfeed, matched_rows_app. simpl.
        rewrite bool_decide_eq_true_2 by done.
        rewrite lookup_app_r by lia. by rewrite Nat.sub_diag. }
      destruct (Forall2_lookup_l _ _ _ _ _ HF Hw) as (r & Hr & q & -> & Hq).
      exists q. split; [|done]. by apply lookup_take_Some in Hr as [Hr _].
    + intros Hn. rewrite stocks_with_run in H |- *. cbn [watch_remnants offer_ids].
      destruct (untaken_row_leaves_nothing pre w post (offer_ids s) Hn) as [Hrec Hrows].
      rewrite Hfeed, Hrec, Hrows in H.
      destruct (reconcile (pre ++ post) (offer_ids s)) as [[qs|e] ids']; [|done].
      by injection H as <- _.
Qed.

(** *** What "reads as an integer" gives on decimal numerals *)

Lemma digits_not_token d : all_digits d -> d ≠ ">10".
Proof.
  intros H ->. unfold all_digits in H. simpl in H.
  apply Forall_cons in H as [Hc _]. vm_compute in Hc. discriminate.
Qed.

Lemma quantity_rule_of_digits w d q :
  dict_get w "Количество" = VStr d ->
  all_digits d -> d ≠ "" -> d ≠ "1" ->
  quantity_rule w q <-> q = decimal_value d.
Proof.
  intros Hcell Hd Hne H1. rewrite <- quantity_rule_iff.
  unfold quantity. cbv zeta. rewrite Hcell. cbn [py_str].
  rewrite (proj2 (String.eqb_neq d ">10")) by (by apply digits_not_token).
  rewrite (proj2 (String.eqb_neq d "1")) by done.
  rewrite (py_int_digits d Hd), (proj2 (String.eqb_neq d "")) by done.
  split; [by intros [= <-]|by intros ->].
Qed.

Lemma strip_negative_digits ds :
  Forall (fun c => is_digit c = true) ds -> ds ≠ [] ->
  strip ("-"%char :: ds) = "-"%char :: ds.
Proof.
  intros Hd Hne. unfold strip.
  assert (lstrip ("-"%char :: ds) = "-"%char :: ds) as -> by reflexivity.
  assert (lstrip (rev ("-"%char :: ds)) = rev ("-"%char :: ds)) as ->.
  { simpl. destruct (rev ds) as [|c l] eqn:Hrev.
    - apply (f_equal (@rev ascii)) in Hrev. rewrite rev_involutive in Hrev. done.
    - assert (is_digit c = true) as Hc.
      { apply Forall_rev in Hd. rewrite Hrev in Hd.
        by apply Forall_cons in Hd as [Hc _]. }
      simpl. by rewrite (digit_not_space c Hc). }
  apply rev_involutive.
Qed.

Lemma py_int_negative_digits d :
  all_digits d -> d ≠ "" ->
  py_int (VStr (String "-" d)) = Ok (- decimal_value d).
Proof.
  unfold all_digits, py_int, int_of_text, long_from_ascii, decimal_value.
  intros Hd Hne. cbv zeta.
  assert (list_ascii_of_string d ≠ []) as Hne' by (by destruct d).
  cbn [list_ascii_of_string].
  assert (is_ascii_text ("-"%char :: list_ascii_of_string d) = true) as ->.
  { unfold is_ascii_text. cbn [forallb].
    fold (is_ascii_text (list_ascii_of_string d)).
    by rewrite (digits_ascii_text _ Hd). }
  rewrite (strip_negative_digits _ Hd Hne'). simpl.
  rewrite digits_value_digits by (done || by left). done.
Qed.

Lemma quantity_rule_of_negative_digits w d q :
  dict_get w "Количество" = VStr (String "-" d) ->
  all_digits d -> d ≠ "" ->
  quantity_rule w q <-> q = - decimal_value d.
Proof.
  intros Hcell Hd Hne. rewrite <- quantity_rule_iff.
  unfold quantity. cbv zeta. rewrite Hcell. cbn [py_str].
  assert ((String "-" d =? ">10")%string = false) as -> by reflexivity.
  assert ((String "-" d =? "1")%string = false) as -> by reflexivity.
  rewrite (py_int_negative_digits d Hd Hne).
  split; [by intros [= <-]|by intros ->].
Qed.

(** C2, as amended.  In both integrations [create_stocks] follows the
    quantity rule for the rows it takes.  A row is taken when its code
    is in the working list of offer ids at its turn; the first row with
    a known code always is.  The record of a taken row carries 100 for
    the token [">10"], 0 for the token ["1"], and otherwise the integer
    its quantity reads as: for a run of decimal digits the number it
    writes, negated after a minus sign.  The call returns exactly when
    the rule covers every taken row.  A row that is not taken (its code
    is unknown, or an earlier row has used up that id) leaves nothing in
    the output.  The examples of the specification and of the docstring
    come out as stated. *)
Theorem create_stocks_quantity_rule :
  follows_quantity_rule Seller.StockRecord Seller.create_stocks
  ∧ (forall warehouse_id date,
     follows_quantity_rule
       (fun x q => Market.StockRecord x warehouse_id [Market.StockItem q "FIT" date])
       (Market.create_stocks warehouse_id date))
  ∧ (forall w q, dict_get w "Количество" = VStr ">10" ->
     (quantity_rule w q <-> q = 100))
  ∧ (forall w q, dict_get w "Количество" = VStr "1" ->
     (quantity_rule w q <-> q = 0))
  ∧ (forall w d q, dict_get w "Количество" = VStr d ->
     all_digits d -> d ≠ "" -> d ≠ "1" ->
     (quantity_rule w q <-> q = decimal_value d))
  ∧ (forall w d q, dict_get w "Количество" = VStr (String "-" d) ->
     all_digits d -> d ≠ "" ->
     (quantity_rule w q <-> q = - decimal_value d))
  ∧ (Seller.create_stocks (Store [stock_row "123" ">10"] ["123"; "456"])).1
    = Ok [Seller.StockRecord "123" 100; Seller.StockRecord "456" 0]
  ∧ (Seller.create_stocks (Store [stock_row "123" "1"] ["123"; "456"])).1
    = Ok [Seller.StockRecord "123" 0; Seller.StockRecord "456" 0]
  ∧ (Seller.create_stocks (Store [stock_row "123" "5"] ["123"; "456"])).1
    = Ok [Seller.StockRecord "123" 5; Seller.StockRecord "456" 0]
  ∧ (Market.create_stocks "w1" "2024-01-01T00:00:00Z"
       (Store [stock_row "123" "5"] ["123"; "456"])).1
    = Ok [Market.StockRecord "123" "w1" [Market.StockItem 5 "FIT" "2024-01-01T00:00:00Z"];
          Market.StockRecord "456" "w1" [Market.StockItem 0 "FIT" "2024-01-01T00:00:00Z"]].
Proof.
  split; [|split; [|split; [|split; [|split; [|split]]]]].
  - rewrite seller_create_stocks_eq. apply stocks_with_follows_rule.
  - intros wh date. rewrite market_create_stocks_eq. apply stocks_with_follows_rule.
  - intros w q Hcell. rewrite <- quantity_rule_iff. unfold quantity. cbv zeta.
    rewrite Hcell. simpl. split; [by intros [= <-]|by intros ->].
  - intros w q Hcell. rewrite <- quantity_rule_iff. unfold quantity. cbv zeta.
    rewrite Hcell. simpl. split; [by intros [= <-]|by intros ->].
  - exact quantity_rule_of_digits.
  - exact quantity_rule_of_negative_digits.
  - repeat split; vm_compute; reflexivity.
Qed.

Lemma create_stocks_quantity_rule_witness :
  Seller.create_stocks sample_store
  = (Ok [Seller.StockRecord "123" 100; Seller.StockRecord "789" 0;
         Seller.StockRecord "555" 12; Seller.StockRecord "456" 0],
     Store (watch_remnants sample_store) ["456"])
  ∧ (code (row "555" "12" "")
     ∈ remaining_ids [row "999" "7" "10.00 руб."; row "123" ">10" "5'990.00 руб.";
                      row "789" "1" "1 200.50 руб."; row "123" "4" ""]
                     (offer_ids sample_store))
  ∧ (exists q,
       [Seller.StockRecord "123" 100; Seller.StockRecord "789" 0;
        Seller.StockRecord "555" 12; Seller.StockRecord "456" 0] !! 2%nat
       = Some (Seller.StockRecord (code (row "555" "12" "")) q)
       ∧ quantity_rule (row "555" "12" "") q
       ∧ q = decimal_value "12")
  ∧ (code (row "123" "4" "")
     ∉ remaining_ids [row "999" "7" "10.00 руб."; row "123" ">10" "5'990.00 руб.";
                      row "789" "1" "1 200.50 руб."]
                     (offer_ids sample_store))
  ∧ (Seller.create_stocks
       (Store [row "999" "7" "10.00 руб."; row "123" ">10" "5'990.00 руб.";
               row "789" "1" "1 200.50 руб."; row "555" "12" ""]
              (offer_ids sample_store))).1
    = Ok [Seller.StockRecord "123" 100; Seller.StockRecord "789" 0;
          Seller.StockRecord "555" 12; Seller.StockRecord "456" 0].
Proof.
  assert (Seller.create_stocks sample_store
          = (Ok [Seller.StockRecord "123" 100; Seller.StockRecord "789" 0;
                 Seller.StockRecord "555" 12; Seller.StockRecord "456" 0],
             Store (watch_remnants sample_store) ["456"])) as H
    by (vm_compute; reflexivity).
  destruct create_stocks_quantity_rule as (Hs & _ & _ & _ & Hdigits & _).
  destruct (Hs sample_store) as [_ Hout]. destruct (Hout _ _ H) as [_ Hrows].
  assert (code (row "555" "12" "")
          ∈ remaining_ids [row "999" "7" "10.00 руб."; row "123" ">10" "5'990.00 руб.";
                           row "789" "1" "1 200.50 руб."; row "123" "4" ""]
                          (offer_ids sample_store)) as Htaken
    by (apply (bool_decide_unpack _); vm_compute; exact I).
  assert (code (row "123" "4" "")
          ∉ remaining_ids [row "999" "7" "10.00 руб."; row "123" ">10" "5'990.00 руб.";
                           row "789" "1" "1 200.50 руб."]
                          (offer_ids sample_store)) as Hnot
    by (apply (bool_decide_unpack _); vm_compute; exact I).
  split; [exact H|]. split; [exact Htaken|]. split; [|split; [exact Hnot|]].
  - destruct (Hrows [row "999" "7" "10.00 руб."; row "123" ">10" "5'990.00 руб.";
                     row "789" "1" "1 200.50 руб."; row "123" "4" ""]
                    (row "555" "12" "") [] eq_refl) as (_ & Hpos & _).
    destruct (Hpos Htaken) as (q & Hq & Hrule).
    exists q. split; [exact Hq|]. split; [exact Hrule|].
    refine (proj1 (Hdigits (row "555" "12" "") "12" q eq_refl _ _ _) Hrule).
    + repeat constructor.
    + discriminate.
    + discriminate.
  - destruct (Hrows [row "999" "7" "10.00 руб."; row "123" ">10" "5'990.00 руб.";
                     row "789" "1" "1 200.50 руб."]
                    (row "123" "4" "") [row "555" "12" ""] eq_refl) as (_ & _ & Hgone).
    exact (Hgone Hnot).
Defined.

(** C2 as stated fails for a second row with the same known code.  The
    code of the second row is a known offer id and the rule gives its
    quantity 7, yet the first row has used up the id: the output holds
    the first row's record only, and no record with quantity 7. *)
Lemma create_stocks_quantity_rule_counterexample :
  (code (stock_row "123" "7") ∈ ["123"])
  ∧ (forall q, quantity_rule (stock_row "123" "7") q <-> q = 7)
  ∧ (Seller.create_stocks (Store [stock_row "123" "5"; stock_row "123" "7"] ["123"])).1
    = Ok [Seller.StockRecord "123" 5]
  ∧ (Seller.StockRecord (code (stock_row "123" "7")) 7 ∉ [Seller.StockRecord "123" 5]).
Proof.
  split; [|split; [|split]].
  - apply (bool_decide_unpack _). vm_compute. exact I.
  - intros q.
    apply (quantity_rule_of_digits (stock_row "123" "7") "7" q eq_refl);
      [repeat constructor|discriminate|discriminate].
  - vm_compute. reflexivity.
  - intros H. apply elem_of_cons in H as [H|H].
    + vm_compute in H. discriminate.
    + by apply elem_of_nil in H.
Qed.

(** ** An empty price in the Ozon integration *)

(** C3, as amended.  In the Ozon integration ([seller.py]), take a
    supplier row whose code is a known offer id and whose price
    normalizes to the empty text.  Whenever [create_prices] returns, the
    record of that row is in the output, with the empty text as its
    price: the row is not skipped.  The row is never what makes the call
    raise: the call returns exactly when the price cell of every row
    with a known code is text, and when it raises, it raises
    [AttributeError] because of another row with a known code, one
    whose price cell is not text. *)
Theorem seller_create_prices_keeps_empty_price s w :
  w ∈ watch_remnants s ->
  code w ∈ offer_ids s ->
  Seller.price_conversion (dict_get w "Цена") = Ok "" ->
  (forall out s', Seller.create_prices s = (Ok out, s') ->
     Seller.PriceRecord "UNKNOWN" "RUB" (code w) "0" (VStr "") ∈ out)
  ∧ (is_Ok (Seller.create_prices s).1 <->
     forall v, v ∈ watch_remnants s -> code v ∈ offer_ids s ->
               exists t, dict_get v "Цена" = VStr t)
  ∧ (forall e s', Seller.create_prices s = (Raise e, s') ->
       e = AttributeError
       ∧ exists v, v ∈ watch_remnants s ∧ code v ∈ offer_ids s ∧ v ≠ w
                   ∧ (forall t, dict_get v "Цена" ≠ VStr t)
                   ∧ Seller.price_conversion (dict_get v "Цена") = Raise AttributeError).
Proof.
  intros Hw Hin Hp. split; [|split].
  - intros out s'. rewrite seller_create_prices_run. intros [= Hc _].
    apply collect_Ok in Hc.
    assert (w ∈ known_rows (watch_remnants s) (offer_ids s)) as Hk
      by (by apply known_rows_elem).
    apply list_elem_of_lookup in Hk as [i Hi].
    destruct (Forall2_lookup_l _ _ _ _ _ Hc Hi) as (r & Hr & Hconv).
    unfold seller_price in Hconv. rewrite Hp in Hconv. injection Hconv as <-.
    by eapply list_elem_of_lookup_2.
  - rewrite seller_create_prices_run. cbn [fst].
    rewrite collect_is_Ok, Forall_forall. split.
    + intros H v Hv Hvin. apply seller_price_is_Ok, H, known_rows_elem. done.
    + intros H v Hv. apply known_rows_elem in Hv as [Hv Hvin].
      apply seller_price_is_Ok. eauto.
  - intros e s'. rewrite seller_create_prices_run. intros [= Hc _].
    apply collect_Raise in Hc as (v & Hv & Hve).
    apply known_rows_elem in Hv as [Hv Hvin].
    unfold seller_price in Hve.
    destruct (Seller.price_conversion (dict_get v "Цена")) as [c|e'] eqn:Hconv; [done|].
    injection Hve as ->.
    assert (e = AttributeError ∧ forall t, dict_get v "Цена" ≠ VStr t) as [-> Hnt].
    { destruct (dict_get v "Цена") as [|t|z].
      - simpl in Hconv. injection Hconv as <-. done.
      - by rewrite price_conversion_text in Hconv.
      - simpl in Hconv. injection Hconv as <-. done. }
    split; [done|]. exists v. split; [done|]. split; [done|].
    split; [|split; done]. intros ->. congruence.
Qed.

Lemma seller_create_prices_keeps_empty_price_witness :
  row "123" "4" "" ∈ watch_remnants sample_store
  ∧ code (row "123" "4" "") ∈ offer_ids sample_store
  ∧ Seller.price_conversion (dict_get (row "123" "4" "") "Цена") = Ok ""
  ∧ (Seller.create_prices sample_store).1
    = Ok [Seller.PriceRecord "UNKNOWN" "RUB" "123" "0" (VStr "5990");
          Seller.PriceRecord "UNKNOWN" "RUB" "789" "0" (VStr "1200");
          Seller.PriceRecord "UNKNOWN" "RUB" "123" "0" (VStr "");
          Seller.PriceRecord "UNKNOWN" "RUB" "555" "0" (VStr "")]
  ∧ Seller.PriceRecord "UNKNOWN" "RUB" (code (row "123" "4" "")) "0" (VStr "")
    ∈ [Seller.PriceRecord "UNKNOWN" "RUB" "123" "0" (VStr "5990");
       Seller.PriceRecord "UNKNOWN" "RUB" "789" "0" (VStr "1200");
       Seller.PriceRecord "UNKNOWN" "RUB" "123" "0" (VStr "");
       Seller.PriceRecord "UNKNOWN" "RUB" "555" "0" (VStr "")].
Proof.
  assert (row "123" "4" "" ∈ watch_remnants sample_store) as H1.
  { apply (list_elem_of_lookup_2 _ 3%nat). reflexivity. }
  assert (code (row "123" "4" "") ∈ offer_ids sample_store) as H2.
  { apply (bool_decide_unpack _). vm_compute. exact I. }
  assert (Seller.price_conversion (dict_get (row "123" "4" "") "Цена") = Ok "") as H3.
  { vm_compute. reflexivity. }
  split; [exact H1|]. split; [exact H2|]. split; [exact H3|].
  split; [vm_compute; reflexivity|].
  refine (proj1 (seller_create_prices_keeps_empty_price sample_store _ H1 H2 H3) _
            sample_store _).
  vm_compute. reflexivity.
Defined.

(** ** Running a reconciliation twice *)

Lemma market_create_stocks_restamp warehouse_id date1 date2 s :
  Market.create_stocks warehouse_id date2 s
  = match Market.create_stocks warehouse_id date1 s with
    | (Ok out, s') => (Ok (restamp date2 <$> out), s')
    | (Raise e, s') => (Raise e, s')
    end.
Proof.
  rewrite !market_create_stocks_eq, !stocks_with_run.
  destruct (reconcile _ _) as [[qs|e] ids']; [|done].
  rewrite fmap_app, matched_records_fmap, <- list_fmap_compose. done.
Qed.

Lemma market_create_stocks_two_clocks warehouse_id date1 date2 s out1 s1 out2 s2 :
  Market.create_stocks warehouse_id date1 s = (Ok out1, s1) ->
  Market.create_stocks warehouse_id date2 s = (Ok out2, s2) ->
  s1 = s2
  ∧ out2 = restamp date2 <$> out1
  ∧ Market.sku <$> out1 = Market.sku <$> out2
  ∧ (fun r => Market.count <$> Market.st_items r) <$> out1
    = (fun r => Market.count <$> Market.st_items r) <$> out2
  ∧ (out1 = out2 <-> date1 = date2 ∨ offer_ids s = []).
Proof.
  intros H1 H2.
  pose proof (market_create_stocks_restamp warehouse_id date1 date2 s) as Hre.
  rewrite H1, H2 in Hre. injection Hre as -> ->.
  split; [done|]. split; [done|].
  assert (Forall (fun r => exists x q,
                    r = Market.StockRecord x warehouse_id
                          [Market.StockItem q "FIT" date1]) out1) as Hbuilt.
  { rewrite market_create_stocks_eq in H1. exact (stocks_with_built _ _ _ _ H1). }
  split; [|split].
  - rewrite <- list_fmap_compose. apply list_fmap_ext. intros i r _. done.
  - rewrite <- list_fmap_compose. apply Forall_fmap_ext_1.
    eapply Forall_impl; [exact Hbuilt|]. intros r (x & q & ->). done.
  - assert (length out1 = length (offer_ids s)) as Hlen.
    { rewrite market_create_stocks_eq in H1.
      destruct (stocks_with_covers
                  (fun x q => Market.StockRecord x warehouse_id
                                [Market.StockItem q "FIT" date1])
                  Market.sku _ _ _ (fun _ _ => eq_refl) H1) as [Hperm _].
      apply Permutation_length in Hperm. by rewrite length_fmap in Hperm. }
    split.
    + intros Heq. destruct out1 as [|r out1].
      * right. by destruct (offer_ids s).
      * left. apply Forall_cons in Hbuilt as [(x & q & ->) _].
        rewrite fmap_cons in Heq. by injection Heq as Hd _.
    + intros [->|Hnil].
      * congruence.
      * rewrite Hnil in Hlen. by destruct out1.
Qed.

(** C4, as amended.  On the same feed and the same offer ids a
    reconciliation that returned returns the same records in the same
    order when it is run again, with one exception and one condition.
    The exception: [market.py]'s [create_stocks] writes the time it
    reads from the clock into every record, so two runs return the same
    offer ids and quantities in the same order, and the same bytes only
    when both read the same time or there is no offer id.  The
    condition: [create_stocks] consumes the list of offer ids it is
    given, so the second run has to be given that list as it was, a copy
    for each run; [create_prices] leaves its arguments as they are and
    can be called twice on the same objects. *)
Theorem reconciliation_repeatable :
  (forall warehouse_id date1 date2 s out1 s1 out2 s2,
     Market.create_stocks warehouse_id date1 s = (Ok out1, s1) ->
     Market.create_stocks warehouse_id date2 s = (Ok out2, s2) ->
     s1 = s2
     ∧ out2 = restamp date2 <$> out1
     ∧ Market.sku <$> out1 = Market.sku <$> out2
     ∧ (fun r => Market.count <$> Market.st_items r) <$> out1
       = (fun r => Market.count <$> Market.st_items r) <$> out2
     ∧ (out1 = out2 <-> date1 = date2 ∨ offer_ids s = []))
  ∧ (forall warehouse_id date1 date2 s,
     is_Ok (Market.create_stocks warehouse_id date1 s).1
     <-> is_Ok (Market.create_stocks warehouse_id date2 s).1)
  ∧ (forall s out s1, Seller.create_stocks s = (Ok out, s1) ->
     twice (on_copy_of_offer_ids Seller.create_stocks) s = (Ok (out, out), s))
  ∧ (forall warehouse_id date s out s1,
     Market.create_stocks warehouse_id date s = (Ok out, s1) ->
     twice (on_copy_of_offer_ids (Market.create_stocks warehouse_id date)) s
     = (Ok (out, out), s))
  ∧ (forall s out s1, Seller.create_prices s = (Ok out, s1) ->
     twice Seller.create_prices s = (Ok (out, out), s))
  ∧ (forall s out s1, Market.create_prices s = (Ok out, s1) ->
     twice Market.create_prices s = (Ok (out, out), s)).
Proof.
  split; [exact market_create_stocks_two_clocks|].
  split; [|split; [|split; [|split]]].
  - intros wh d1 d2 s.
    rewrite (market_create_stocks_restamp wh d1 d2 s).
    by destruct (Market.create_stocks wh d1 s) as [[out|e] s'].
  - intros s out s1 H. apply twice_unchanged.
    rewrite seller_create_stocks_eq in *. by eapply on_copy_stocks_with.
  - intros wh date s out s1 H. apply twice_unchanged.
    rewrite market_create_stocks_eq in *. by eapply on_copy_stocks_with.
  - intros s out s1 H. apply twice_unchanged.
    rewrite seller_create_prices_run in *. by injection H as -> _.
  - intros s out s1 H. apply twice_unchanged.
    rewrite market_create_prices_run in *. by injection H as -> _.
Qed.

Lemma reconciliation_repeatable_witness :
  Market.create_stocks "w1" "2024-01-01T00:00:00Z" (Store [stock_row "123" ">10"] ["123"; "456"])
  = (Ok [Market.StockRecord "123" "w1" [Market.StockItem 100 "FIT" "2024-01-01T00:00:00Z"];
         Market.StockRecord "456" "w1" [Market.StockItem 0 "FIT" "2024-01-01T00:00:00Z"]],
     Store [stock_row "123" ">10"] ["456"])
  ∧ Market.create_stocks "w1" "2024-01-01T00:00:01Z" (Store [stock_row "123" ">10"] ["123"; "456"])
    = (Ok [Market.StockRecord "123" "w1" [Market.StockItem 100 "FIT" "2024-01-01T00:00:01Z"];
           Market.StockRecord "456" "w1" [Market.StockItem 0 "FIT" "2024-01-01T00:00:01Z"]],
       Store [stock_row "123" ">10"] ["456"])
  ∧ Market.sku
      <$> [Market.StockRecord "123" "w1" [Market.StockItem 100 "FIT" "2024-01-01T00:00:00Z"];
           Market.StockRecord "456" "w1" [Market.StockItem 0 "FIT" "2024-01-01T00:00:00Z"]]
    = Market.sku
      <$> [Market.StockRecord "123" "w1" [Market.StockItem 100 "FIT" "2024-01-01T00:00:01Z"];
           Market.StockRecord "456" "w1" [Market.StockItem 0 "FIT" "2024-01-01T00:00:01Z"]]
  ∧ twice (on_copy_of_offer_ids Seller.create_stocks) sample_store
    = (Ok ([Seller.StockRecord "123" 100; Seller.StockRecord "789" 0;
            Seller.StockRecord "555" 12; Seller.StockRecord "456" 0],
           [Seller.StockRecord "123" 100; Seller.StockRecord "789" 0;
            Seller.StockRecord "555" 12; Seller.StockRecord "456" 0]), sample_store).
Proof.
  assert (Market.create_stocks "w1" "2024-01-01T00:00:00Z"
            (Store [stock_row "123" ">10"] ["123"; "456"])
          = (Ok [Market.StockRecord "123" "w1"
                   [Market.StockItem 100 "FIT" "2024-01-01T00:00:00Z"];
                 Market.StockRecord "456" "w1"
                   [Market.StockItem 0 "FIT" "2024-01-01T00:00:00Z"]],
             Store [stock_row "123" ">10"] ["456"])) as H1 by (vm_compute; reflexivity).
  assert (Market.create_stocks "w1" "2024-01-01T00:00:01Z"
            (Store [stock_row "123" ">10"] ["123"; "456"])
          = (Ok [Market.StockRecord "123" "w1"
                   [Market.StockItem 100 "FIT" "2024-01-01T00:00:01Z"];
                 Market.StockRecord "456" "w1"
                   [Market.StockItem 0 "FIT" "2024-01-01T00:00:01Z"]],
             Store [stock_row "123" ">10"] ["456"])) as H2 by (vm_compute; reflexivity).
  destruct reconciliation_repeatable as (Hclock & _ & Hcopy & _).
  split; [exact H1|]. split; [exact H2|]. split.
  - exact (proj1 (proj2 (proj2 (Hclock _ _ _ _ _ _ _ _ H1 H2)))).
  - refine (Hcopy sample_store _ (Store (watch_remnants sample_store) ["456"]) _).
    vm_compute. reflexivity.
Defined.

(** C4 as stated fails for [market.py]'s [create_stocks].  Two runs on
    the same feed, the same offer ids and the same warehouse, one
    started a second after the other, return different records: the
    time of the run is written into each of them. *)
Lemma reconciliation_repeatable_counterexample :
  (Market.create_stocks "w1" "2024-01-01T00:00:00Z"
     (Store [stock_row "123" ">10"] ["123"; "456"])).1
  ≠ (Market.create_stocks "w1" "2024-01-01T00:00:01Z"
       (Store [stock_row "123" ">10"] ["123"; "456"])).1.
Proof.
  intros H. vm_compute in H. discriminate H.
Qed.

(** ** Several rows with the same code *)

Lemma stocks_with_first_row_wins {R} (mk : string -> Z -> R) (ident : R -> string)
    s out s' pre w post :
  (forall x q, ident (mk x q) = x) ->
  NoDup (offer_ids s) ->
  stocks_with mk s = (Ok out, s') ->
  watch_remnants s = pre ++ w :: post ->
  code w ∉ (code <$> pre) -> code w ∈ offer_ids s ->
  exists q, quantity_rule w q
            ∧ mk (code w) q ∈ out
            ∧ NoDup (ident <$> out)
            ∧ forall r, r ∈ out -> ident r = code w -> r = mk (code w) q.
Proof.
  intros Hid Hnd H Hfeed Hn Hin.
  destruct (stocks_with_first_row mk s out s' pre w post H Hfeed Hn Hin) as (q & Hq & Hrule).
  destruct (stocks_with_covers mk ident s out s' Hid H) as (_ & Hcov & _).
  destruct (Hcov Hnd) as [Hnd_out _].
  exists q. split; [done|]. split; [done|]. split; [done|].
  intros r Hr Hr_id.
  apply (NoDup_fmap_elem_eq ident out); [done..|]. by rewrite Hid.
Qed.

(** X8.  When the known offer ids have no repetitions and several
    supplier rows carry the same known code, the first of them decides:
    the output holds a record for that id with the quantity the rule
    gives for the first row, no offer id occurs twice in the output, and
    so every record of the output with that id is that record; the later
    rows with the code leave no record.  This holds for both
    integrations. *)
Theorem create_stocks_first_row_wins :
  (forall s out s' pre w post,
     NoDup (offer_ids s) ->
     Seller.create_stocks s = (Ok out, s') ->
     watch_remnants s = pre ++ w :: post ->
     code w ∉ (code <$> pre) -> code w ∈ offer_ids s ->
     exists q, quantity_rule w q
               ∧ Seller.StockRecord (code w) q ∈ out
               ∧ NoDup (Seller.offer_id <$> out)
               ∧ forall r, r ∈ out -> Seller.offer_id r = code w ->
                           r = Seller.StockRecord (code w) q)
  ∧ (forall warehouse_id date s out s' pre w post,
     NoDup (offer_ids s) ->
     Market.create_stocks warehouse_id date s = (Ok out, s') ->
     watch_remnants s = pre ++ w :: post ->
     code w ∉ (code <$> pre) -> code w ∈ offer_ids s ->
     exists q, quantity_rule w q
               ∧ Market.StockRecord (code w) warehouse_id
                   [Market.StockItem q "FIT" date] ∈ out
               ∧ NoDup (Market.sku <$> out)
               ∧ forall r, r ∈ out -> Market.sku r = code w ->
                           r = Market.StockRecord (code w) warehouse_id
                                 [Market.StockItem q "FIT" date]).
Proof.
  split.
  - intros s out s' pre w post Hnd H. rewrite seller_create_stocks_eq in H.
    exact (stocks_with_first_row_wins Seller.StockRecord Seller.offer_id
             s out s' pre w post (fun _ _ => eq_refl) Hnd H).
  - intros wh date s out s' pre w post Hnd H. rewrite market_create_stocks_eq in H.
    exact (stocks_with_first_row_wins
             (fun x q => Market.StockRecord x wh [Market.StockItem q "FIT" date])
             Market.sku s out s' pre w post (fun _ _ => eq_refl) Hnd H).
Qed.

Lemma create_stocks_first_row_wins_witness :
  exists out s' q,
    Seller.create_stocks sample_store = (Ok out, s')
    ∧ out = [Seller.StockRecord "123" 100; Seller.StockRecord "789" 0;
             Seller.StockRecord "555" 12; Seller.StockRecord "456" 0]
    ∧ quantity_rule (row "123" ">10" "5'990.00 руб.") q
    ∧ Seller.StockRecord "123" q ∈ out
    ∧ NoDup (Seller.offer_id <$> out)
    ∧ forall r, r ∈ out -> Seller.offer_id r = "123" -> r = Seller.StockRecord "123" q.
Proof.
  assert (Seller.create_stocks sample_store
          = (Ok [Seller.StockRecord "123" 100; Seller.StockRecord "789" 0;
                 Seller.StockRecord "555" 12; Seller.StockRecord "456" 0],
             Store (watch_remnants sample_store) ["456"])) as H
    by (vm_compute; reflexivity).
  destruct create_stocks_first_row_wins as [Hs _].
  assert (NoDup (offer_ids sample_store)) as Hnd
    by (apply (bool_decide_unpack _); vm_compute; exact I).
  destruct (Hs sample_store _ _
              [row "999" "7" "10.00 руб."] (row "123" ">10" "5'990.00 руб.")
              [row "789" "1" "1 200.50 руб."; row "123" "4" ""; row "555" "12" ""]
              Hnd H eq_refl)
    as (q & Hq & Hin & Hnd_out & Hr).
  - apply (bool_decide_unpack _). vm_compute. exact I.
  - apply (bool_decide_unpack _). vm_compute. exact I.
  - eexists _, _, q. split; [exact H|]. split; [reflexivity|].
    split; [exact Hq|]. split; [exact Hin|]. split; [exact Hnd_out|exact Hr].
Defined.
